(** * DocuChat-AI: the ingestion pipeline, the document life cycle and the
    query endpoints, embedded from the Python sources.

    - [app/config.py], [app/models/schemas.py], [app/core/exceptions.py]:
      settings, response models, exceptions;
    - [app/services/document_processor.py]: class [DocumentProcessor];
    - [app/services/rag_service.py]: class [RAGService];
    - [app/api/documents.py], [app/api/queries.py]: the request handlers and
      the background task, over the shared [document_store] and
      [rag_services] dictionaries of [app/core/shared_store.py].

    External collaborators (the PDF parser, the language and vision models,
    the vector database, the file system, [uuid.uuid4]) are a record of
    oracles; every one of them may raise wherever the Python call may. *)

From Stdlib Require Import ZArith QArith String Ascii List Bool Lia.
From stdpp Require Import base option list gmap strings pretty.

Open Scope string_scope.

(** ** Exceptions and results *)

Inductive exn : Type :=
| HTTPException (status_code : Z) (detail : string)
| InvalidFileError (message : string)
| DocumentNotFoundError (document_id : string)
| ProcessingError (message : string) (document_id : string)
| KeyError (key : string)
| IndexError
| ZeroDivisionError
| Raised (message : string).
(* [Raised msg]: an exception coming out of a library, a remote service or
   the operating system, [msg] being its [str()]. *)

(** [str(e)], as the f-strings of the handlers print it. *)
Definition exn_str (e : exn) : string :=
  match e with
  | HTTPException c d => pretty c ++ ": " ++ d
  | InvalidFileError m => m
  | DocumentNotFoundError d => "Document " ++ d ++ " not found"
  | ProcessingError m _ => m
  | KeyError k => "'" ++ k ++ "'"
  | IndexError => "list index out of range"
  | ZeroDivisionError => "integer division or modulo by zero"
  | Raised m => m
  end.

Inductive Result (A : Type) : Type :=
| Ok (a : A)
| Err (e : exn).
Arguments Ok {A} a.
Arguments Err {A} e.

Definition is_ok {A} (r : Result A) : bool :=
  match r with Ok _ => true | Err _ => false end.

(** ** A state-and-exception monad

    A Python method mutates its object and may raise half-way: the state
    reached at the [raise] is kept, which is what an [except] handler and the
    code after it observe. *)

Definition M (St A : Type) : Type := St -> Result A * St.

Definition ret {St A} (a : A) : M St A := fun s => (Ok a, s).

Definition bind {St A B} (m : M St A) (k : A -> M St B) : M St B :=
  fun s => match m s with
           | (Ok a, s') => k a s'
           | (Err e, s') => (Err e, s')
           end.

Definition raise {St A} (e : exn) : M St A := fun s => (Err e, s).

Definition get {St} : M St St := fun s => (Ok s, s).

Definition modify {St} (f : St -> St) : M St unit := fun s => (Ok tt, f s).

(** [try: body except Exception as e: handler(e)] *)
Definition try_except {St A} (body : M St A) (handler : exn -> M St A) : M St A :=
  fun s => match body s with
           | (Ok a, s') => (Ok a, s')
           | (Err e, s') => handler e s'
           end.

(** An oracle that answers [None] on success and [Some e] when it raises. *)
Definition attempt {St} (o : option exn) : M St unit :=
  match o with None => ret tt | Some e => raise e end.

Definition lift_result {St A} (r : Result A) : M St A :=
  match r with Ok a => ret a | Err e => raise e end.

Declare Scope py_scope.
Delimit Scope py_scope with py.
Notation "x <- m ;; k" := (bind m (fun x => k))
  (at level 90, m at level 80, right associativity) : py_scope.
Notation "m ;;; k" := (bind m (fun _ => k))
  (at level 90, right associativity) : py_scope.
Open Scope py_scope.

(** [for i, x in enumerate(l, start=i0): body(i, x)] *)
Fixpoint for_enumerate {St A} (body : nat -> A -> M St unit) (i0 : nat) (l : list A)
  : M St unit :=
  match l with
  | [] => ret tt
  | x :: l' => body i0 x ;;; for_enumerate body (S i0) l'
  end.

(** [[f(x) for x in l]] where [f] may raise: the first exception wins. *)
Fixpoint map_result {A B} (f : A -> Result B) (l : list A) : Result (list B) :=
  match l with
  | [] => Ok []
  | x :: l' =>
      match f x with
      | Err e => Err e
      | Ok y => match map_result f l' with
                | Err e => Err e
                | Ok ys => Ok (y :: ys)
                end
      end
  end.

(** ** Strings *)

(** [needle in haystack] *)
Definition str_contains (needle haystack : string) : bool :=
  match String.index 0 needle haystack with Some _ => true | None => false end.

(** [s.endswith(suffix)] *)
Definition endswith (s suffix : string) : bool :=
  let n := String.length s in
  let k := String.length suffix in
  if (k <=? n)%nat then String.eqb (String.substring (n - k) k s) suffix else false.

(** [s[:n]] *)
Definition str_take (n : nat) (s : string) : string := String.substring 0 n s.

(** ** [app/config.py] *)

Record Settings : Type := {
  UPLOAD_FOLDER : string;
  IMAGES_FOLDER : string;
  MAX_FILE_SIZE : Z;
  MAX_IMAGES_PER_REQUEST : Z;
  RATE_LIMIT_DELAY : Z
}.

(** The defaults of class [Settings]; every field can be overridden from the
    environment or [.env]. *)
Definition default_settings : Settings := {|
  UPLOAD_FOLDER := "storage/uploads";
  IMAGES_FOLDER := "storage/images";
  MAX_FILE_SIZE := 50 * 1024 * 1024;
  MAX_IMAGES_PER_REQUEST := 15;
  RATE_LIMIT_DELAY := 4
|}.

(** ** [app/models/schemas.py] *)

Inductive ProcessingStatus : Type := PENDING | PROCESSING | COMPLETED | FAILED.

#[global] Instance ProcessingStatus_eq_dec : EqDecision ProcessingStatus.
Proof. solve_decision. Defined.

(** The value of the [str] enum member. *)
Definition status_value (st : ProcessingStatus) : string :=
  match st with
  | PENDING => "pending"
  | PROCESSING => "processing"
  | COMPLETED => "completed"
  | FAILED => "failed"
  end.

Record ElementsCount : Type := {
  count_texts : nat;
  count_tables : nat;
  count_images : nat
}.

Record SourceInfo : Type := {
  src_content_type : string;
  src_content : string;
  src_metadata : list (string * string)
}.

Record ImageInfo : Type := {
  image_id : string;
  info_filename : string;
  info_path : string;
  info_description : string;
  image_base64 : option string
}.

Record StatusInfo : Type := {
  si_status : string;
  si_message : string;
  estimated_wait_time : option string;
  action_required : option string
}.

Record QueryResponse : Type := {
  answer : string;
  qr_document_id : string;
  qr_processing_time : Q;
  sources : list SourceInfo;
  related_images : list ImageInfo;
  confidence_score : option Q;
  status_info : option StatusInfo
}.

Record QueryRequest : Type := {
  req_document_id : string;
  question : string;
  max_results : option Z
}.

Record ProcessingResponse : Type := {
  pr_status : ProcessingStatus;
  pr_message : string;
  pr_document_id : string
}.

Record DocumentUploadResponse : Type := {
  up_document_id : string;
  up_filename : string;
  up_file_size : Z;
  up_status : ProcessingStatus
}.

Record DocumentStatus : Type := {
  ds_document_id : string;
  ds_status : ProcessingStatus;
  ds_filename : string;
  ds_processing_time : option Q;
  ds_elements_count : option ElementsCount
}.

(** ** What the PDF parser returns *)

(** An element of [chunk.metadata.orig_elements]: [str(type(el))] and
    [el.metadata.image_base64] when that attribute exists. *)
Record Element : Type := {
  el_class : string;
  el_image_base64 : option string
}.

(** A chunk of [partition_pdf]: [str(type(chunk))], [chunk.text],
    [chunk.metadata.text_as_html], and [chunk.metadata.orig_elements]
    ([None] when [hasattr] fails on either attribute). *)
Record Chunk : Type := {
  chunk_class : string;
  chunk_text : string;
  text_as_html : string;
  orig_elements : option (list Element)
}.

(** ** The world outside the process *)

Record World : Type := {
  uuid_drawn : nat;                 (* calls of uuid.uuid4() so far *)
  vision_calls : nat;               (* calls of gemini_model.generate_content so far *)
  sleeps : list Z;                  (* arguments of asyncio.sleep, oldest first *)
  files : list (string * string)    (* image files written: path, base64 payload *)
}.

Definition initial_world : World :=
  {| uuid_drawn := 0; vision_calls := 0; sleeps := []; files := [] |}.

(** The entries of [DocumentProcessor.image_metadata]. *)
Record ImageMeta : Type := {
  meta_filename : option string;
  meta_path : option string;
  meta_description : string;
  original_index : nat;
  meta_unique_id : option string
}.

(** The payload stored for an image, in the vector's metadata and in the
    docstore. *)
Record ImageDict : Type := {
  dict_filename : option string;
  dict_path : option string;
  dict_description : string;
  image_index : nat;
  dict_unique_id : option string
}.

(** A [langchain] [Document] handed to the vector store: the summary that is
    embedded, and its metadata ([doc_id] is [metadata[id_key]]). *)
Record VectorDoc : Type := {
  page_content : string;
  doc_id : string;
  content_type : string;
  image_payload : option ImageDict
}.

(** What [vectorstore.add_documents] did: everything was inserted, or it
    raised after inserting a prefix of the batch. *)
Inductive AddResult : Type :=
| Added
| AddFailed (inserted : nat) (e : exn).

Record Services : Type := {
  uuid4 : nat -> string;
  mkdir : string -> option exn;
  init_models : option exn;
  partition_pdf : string -> Result (list Chunk);
  generate_content : nat -> string -> Result string;
  write_png : string -> string -> option exn;
  text_chain : string -> Result string;
  table_chain : string -> Result string;
  recreate_collection : string -> option exn;
  add_documents : list VectorDoc -> list VectorDoc -> AddResult;
  init_chat_model : option exn;
  broadcast_status_update : string -> ProcessingStatus -> option exn
}.
(* [uuid4 n]: the string of the n-th UUID drawn.
   [mkdir]: [doc_folder.mkdir(exist_ok=True)].
   [init_models]: the constructors called by [setup_models].
   [generate_content n image]: [response.text] of the n-th vision call.
   [write_png path image]: [base64.b64decode] and the write to disk.
   [text_chain], [table_chain]: prompt | model | parser on one input.
   [recreate_collection]: [get_qdrant_client], [recreate_collection] and the
   [Qdrant] wrapper.
   [add_documents current batch]: the insertion of [batch] into a collection
   that holds [current].
   [init_chat_model]: [ChatGroq(...)] in [setup_rag_chain].
   [broadcast_status_update id status]: the broadcast to the WebSocket
   observers of [id] once [status] is written; [Some e] when it raises
   anything but the [ImportError] that the caller swallows. *)

(** ** [app/services/document_processor.py] *)

Record DocumentProcessor : Type := {
  document_id : string;
  doc_folder : string;
  chunks : option (list Chunk);
  tables : list Chunk;
  texts : list Chunk;
  images : list string;
  image_descriptions : list string;
  image_metadata : option (list ImageMeta);   (* None: attribute not set *)
  text_summaries : option (list string);      (* None: attribute not set *)
  table_summaries : option (list string)      (* None: attribute not set *)
}.

Definition set_chunks v (p : DocumentProcessor) : DocumentProcessor :=
  {| document_id := document_id p; doc_folder := doc_folder p; chunks := v;
     tables := tables p; texts := texts p; images := images p;
     image_descriptions := image_descriptions p;
     image_metadata := image_metadata p;
     text_summaries := text_summaries p; table_summaries := table_summaries p |}.

Definition set_tables v (p : DocumentProcessor) : DocumentProcessor :=
  {| document_id := document_id p; doc_folder := doc_folder p; chunks := chunks p;
     tables := v; texts := texts p; images := images p;
     image_descriptions := image_descriptions p;
     image_metadata := image_metadata p;
     text_summaries := text_summaries p; table_summaries := table_summaries p |}.

Definition set_texts v (p : DocumentProcessor) : DocumentProcessor :=
  {| document_id := document_id p; doc_folder := doc_folder p; chunks := chunks p;
     tables := tables p; texts := v; images := images p;
     image_descriptions := image_descriptions p;
     image_metadata := image_metadata p;
     text_summaries := text_summaries p; table_summaries := table_summaries p |}.

Definition set_images v (p : DocumentProcessor) : DocumentProcessor :=
  {| document_id := document_id p; doc_folder := doc_folder p; chunks := chunks p;
     tables := tables p; texts := texts p; images := v;
     image_descriptions := image_descriptions p;
     image_metadata := image_metadata p;
     text_summaries := text_summaries p; table_summaries := table_summaries p |}.

Definition set_image_descriptions v (p : DocumentProcessor) : DocumentProcessor :=
  {| document_id := document_id p; doc_folder := doc_folder p; chunks := chunks p;
     tables := tables p; texts := texts p; images := images p;
     image_descriptions := v;
     image_metadata := image_metadata p;
     text_summaries := text_summaries p; table_summaries := table_summaries p |}.

Definition set_image_metadata v (p : DocumentProcessor) : DocumentProcessor :=
  {| document_id := document_id p; doc_folder := doc_folder p; chunks := chunks p;
     tables := tables p; texts := texts p; images := images p;
     image_descriptions := image_descriptions p;
     image_metadata := v;
     text_summaries := text_summaries p; table_summaries := table_summaries p |}.

Definition set_text_summaries v (p : DocumentProcessor) : DocumentProcessor :=
  {| document_id := document_id p; doc_folder := doc_folder p; chunks := chunks p;
     tables := tables p; texts := texts p; images := images p;
     image_descriptions := image_descriptions p;
     image_metadata := image_metadata p;
     text_summaries := v; table_summaries := table_summaries p |}.

Definition set_table_summaries v (p : DocumentProcessor) : DocumentProcessor :=
  {| document_id := document_id p; doc_folder := doc_folder p; chunks := chunks p;
     tables := tables p; texts := texts p; images := images p;
     image_descriptions := image_descriptions p;
     image_metadata := image_metadata p;
     text_summaries := text_summaries p; table_summaries := v |}.

(** [self.image_descriptions.append(d)] *)
Definition append_description (d : string) (p : DocumentProcessor) : DocumentProcessor :=
  set_image_descriptions (image_descriptions p ++ [d])%list p.

(** [self.image_metadata.append(m)]; the attribute exists wherever the source
    appends to it. *)
Definition append_metadata (m : ImageMeta) (p : DocumentProcessor) : DocumentProcessor :=
  set_image_metadata (Some (default [] (image_metadata p) ++ [m])%list) p.

(** *** Actions on an object together with the world *)

Definition on_self {X} (f : X -> X) : M (X * World) unit :=
  modify (fun s => (f (fst s), snd s)).

Definition self {X} : M (X * World) X := fun s => (Ok (fst s), s).

Definition on_world {X} (f : World -> World) : M (X * World) unit :=
  modify (fun s => (fst s, f (snd s))).

Definition the_world {X} : M (X * World) World := fun s => (Ok (snd s), s).

Definition bump_uuid (w : World) : World :=
  {| uuid_drawn := S (uuid_drawn w); vision_calls := vision_calls w;
     sleeps := sleeps w; files := files w |}.

Definition bump_vision (w : World) : World :=
  {| uuid_drawn := uuid_drawn w; vision_calls := S (vision_calls w);
     sleeps := sleeps w; files := files w |}.

Definition log_sleep (d : Z) (w : World) : World :=
  {| uuid_drawn := uuid_drawn w; vision_calls := vision_calls w;
     sleeps := (sleeps w ++ [d])%list; files := files w |}.

Definition log_file (path data : string) (w : World) : World :=
  {| uuid_drawn := uuid_drawn w; vision_calls := vision_calls w;
     sleeps := sleeps w; files := (files w ++ [(path, data)])%list |}.

(** [await asyncio.sleep(d)] *)
Definition sleep {X} (d : Z) : M (X * World) unit := on_world (log_sleep d).

(** Run a method of object [x] in the world; the object is returned with the
    result, and is lost when the method raises. *)
Definition with_object {X A} (x : X) (m : M (X * World) A) : M World (A * X) :=
  fun w => match m (x, w) with
           | (Ok a, (x', w')) => (Ok (a, x'), w')
           | (Err e, (_, w')) => (Err e, w')
           end.

Section Pipeline.

Context (settings : Settings) (svc : Services).

(** [str(uuid.uuid4())] *)
Definition draw_uuid {X} : M (X * World) string :=
  w <- the_world ;; on_world bump_uuid ;;; ret (uuid4 svc (uuid_drawn w)).

(** [[str(uuid.uuid4()) for _ in l]] *)
Fixpoint draw_uuids {X} (n : nat) : M (X * World) (list string) :=
  match n with
  | O => ret []
  | S n' => u <- draw_uuid ;; us <- draw_uuids n' ;; ret (u :: us)
  end.

Definition is_table (c : Chunk) : bool := str_contains "Table" (chunk_class c).
Definition is_composite (c : Chunk) : bool := str_contains "CompositeElement" (chunk_class c).

Definition _extract_images_base64 (cs : list Chunk) : list string :=
  flat_map (fun c =>
    match orig_elements c with
    | Some els =>
        omap (fun el => if str_contains "Image" (el_class el)
                        then el_image_base64 el else None) els
    | None => []
    end) cs.

Definition extract_pdf_content (file_path : string) : M (DocumentProcessor * World) ElementsCount :=
  cs <- lift_result (partition_pdf svc file_path) ;;
  on_self (set_chunks (Some cs)) ;;;
  on_self (set_tables (filter (fun c => is_table c = true) cs)) ;;;
  on_self (set_texts (filter (fun c => is_table c = false ∧ is_composite c = true) cs)) ;;;
  on_self (set_images (_extract_images_base64 cs)) ;;;
  p <- self ;;
  ret {| count_texts := length (texts p);
         count_tables := length (tables p);
         count_images := length (images p) |}.

Definition _describe_image (image_b64 : string) : M (DocumentProcessor * World) string :=
  try_except
    (w <- the_world ;;
     on_world bump_vision ;;;
     t <- lift_result (generate_content svc (vision_calls w) image_b64) ;;
     ret (if String.eqb t "" then "No content detected in image" else t))
    (fun e => ret ("Error processing image: " ++ exn_str e)).

(** The body of the [for] loop of [process_and_save_images]. *)
Definition process_image (i : nat) (image_b64 : string) : M (DocumentProcessor * World) unit :=
  try_except
    (description <- _describe_image image_b64 ;;
     on_self (append_description description) ;;;
     u <- draw_uuid ;;
     let unique_id := str_take 8 u in
     let image_filename := "image_" ++ pretty (i + 1) ++ "_" ++ unique_id ++ ".png" in
     p <- self ;;
     let image_path := doc_folder p ++ "/" ++ image_filename in
     attempt (write_png svc image_path image_b64) ;;;
     on_world (log_file image_path image_b64) ;;;
     on_self (append_metadata
                {| meta_filename := Some image_filename;
                   meta_path := Some image_path;
                   meta_description := description;
                   original_index := i;
                   meta_unique_id := Some unique_id |}) ;;;
     (if (MAX_IMAGES_PER_REQUEST settings =? 0)%Z then raise ZeroDivisionError
      else if (Z.of_nat (i + 1) mod MAX_IMAGES_PER_REQUEST settings =? 0)%Z
           then sleep 60
           else sleep (RATE_LIMIT_DELAY settings)))
    (fun e =>
       on_self (append_description ("Error processing image: " ++ exn_str e)) ;;;
       on_self (append_metadata
                  {| meta_filename := None;
                     meta_path := None;
                     meta_description := "Error processing image: " ++ exn_str e;
                     original_index := i;
                     meta_unique_id := None |})).

Definition process_and_save_images : M (DocumentProcessor * World) unit :=
  p <- self ;;
  match images p with
  | [] => ret tt
  | _ :: _ =>
      on_self (set_image_metadata (Some [])) ;;;
      for_enumerate process_image 0 (images p)
  end.

Definition create_summaries : M (DocumentProcessor * World) unit :=
  p <- self ;;
  (match texts p with
   | [] => on_self (set_text_summaries (Some []))
   | _ :: _ =>
       ss <- lift_result (map_result (text_chain svc) (map chunk_text (texts p))) ;;
       on_self (set_text_summaries (Some ss))
   end) ;;;
  (match tables p with
   | [] => on_self (set_table_summaries (Some []))
   | _ :: _ =>
       ss <- lift_result (map_result (table_chain svc) (map text_as_html (tables p))) ;;
       on_self (set_table_summaries (Some ss))
   end).

(** [DocumentProcessor.process_document] *)
Definition processor_process_document (file_path : string)
  : M (DocumentProcessor * World) ElementsCount :=
  try_except
    (elements_count <- extract_pdf_content file_path ;;
     process_and_save_images ;;;
     create_summaries ;;;
     ret elements_count)
    (fun e =>
       p <- self ;;
       raise (ProcessingError ("Processing failed: " ++ exn_str e) (document_id p))).

(** [DocumentProcessor.__init__] with [setup_models] *)
Definition new_DocumentProcessor (id : string) : M World DocumentProcessor :=
  fun w =>
    let folder := IMAGES_FOLDER settings ++ "/" ++ id in
    match mkdir svc folder with
    | Some e => (Err e, w)
    | None =>
        match init_models svc with
        | Some e => (Err (ProcessingError ("Model initialization failed: " ++ exn_str e) id), w)
        | None =>
            (Ok {| document_id := id; doc_folder := folder; chunks := None;
                   tables := []; texts := []; images := [];
                   image_descriptions := []; image_metadata := None;
                   text_summaries := None; table_summaries := None |}, w)
        end
    end.

End Pipeline.

(** ** [app/services/rag_service.py] *)

(** The values of the docstore: the parser's elements for texts and tables,
    a dictionary for images. *)
Inductive RawContent : Type :=
| RawElement (c : Chunk)
| RawImage (d : ImageDict).

(** The entries of [RAGService.image_metadata]. *)
Record RagImageMeta : Type := {
  rim_id : string;
  rim_filename : option string;
  rim_description : string;
  rim_path : option string;
  rim_unique_id : option string;
  rim_index : nat
}.

(** A [RAGService]: [vectorstore] holds what was inserted in the Qdrant
    collection [doc_<id>] since it was recreated, [docstore] is the
    [InMemoryStore] of the [MultiVectorRetriever]. *)
Record RAGService : Type := {
  rag_document_id : string;
  processor : DocumentProcessor;
  vectorstore : list VectorDoc;
  docstore : gmap string RawContent;
  rag_image_metadata : list RagImageMeta
}.

Definition set_vectorstore v (r : RAGService) : RAGService :=
  {| rag_document_id := rag_document_id r; processor := processor r;
     vectorstore := v; docstore := docstore r;
     rag_image_metadata := rag_image_metadata r |}.

Definition set_docstore v (r : RAGService) : RAGService :=
  {| rag_document_id := rag_document_id r; processor := processor r;
     vectorstore := vectorstore r; docstore := v;
     rag_image_metadata := rag_image_metadata r |}.

Definition set_rag_image_metadata v (r : RAGService) : RAGService :=
  {| rag_document_id := rag_document_id r; processor := processor r;
     vectorstore := vectorstore r; docstore := docstore r;
     rag_image_metadata := v |}.

(** [docstore.mset(pairs)]: later pairs overwrite earlier ones. *)
Definition mset_pairs (kvs : list (string * RawContent)) (m : gmap string RawContent)
  : gmap string RawContent :=
  foldl (fun acc kv => <[kv.1 := kv.2]> acc) m kvs.

Definition mset (kvs : list (string * RawContent)) : M (RAGService * World) unit :=
  on_self (fun r => set_docstore (mset_pairs kvs (docstore r)) r).

(** [zip(a, b)] *)
Definition zip {A B} (a : list A) (b : list B) : list (A * B) := zip_with pair a b.

(** [enumerate(l)] *)
Definition enumerate {A} (l : list A) : list (nat * A) := imap pair l.

(** [l[i]] *)
Definition list_get {A} (l : list A) (i : nat) : Result A :=
  match l !! i with Some x => Ok x | None => Err IndexError end.

Section Rag.

Context (settings : Settings) (svc : Services).

(** [self.retriever.vectorstore.add_documents(docs)] *)
Definition vectorstore_add (docs : list VectorDoc) : M (RAGService * World) unit :=
  r <- self ;;
  match add_documents svc (vectorstore r) docs with
  | Added =>
      on_self (set_vectorstore (vectorstore r ++ docs)%list)
  | AddFailed n e =>
      on_self (set_vectorstore (vectorstore r ++ take n docs)%list) ;;;
      raise e
  end.

(** [Document(page_content=summary, metadata={id_key: doc_ids[i],
    "content_type": kind})] for the entry [(i, summary)] of [enumerate]. *)
Definition summary_document (kind : string) (doc_ids : list string)
    (entry : nat * string) : Result VectorDoc :=
  match list_get doc_ids entry.1 with
  | Ok k => Ok {| page_content := entry.2; doc_id := k;
                  content_type := kind; image_payload := None |}
  | Err e => Err e
  end.

(** The summaries of one kind ([kind] is "text" or "table"): one identifier
    per raw element, one vector per summary, the raw elements in the
    docstore. *)
Definition index_summaries (kind : string) (summaries : list string) (raw : list Chunk)
  : M (RAGService * World) unit :=
  match summaries with
  | [] => ret tt
  | _ :: _ =>
      doc_ids <- draw_uuids svc (length raw) ;;
      summary_docs <- lift_result
        (map_result (summary_document kind doc_ids) (enumerate summaries)) ;;
      vectorstore_add summary_docs ;;;
      mset (zip doc_ids (map RawElement raw))
  end.

(** [filename], [path] and [unique_id] of image [i]: those of its entry in
    [self.processor.image_metadata] when [i] is within the list, generated
    ones otherwise. *)
Definition image_fields (metas : list ImageMeta) (i : nat)
  : M (RAGService * World) (option string * option string * option string) :=
  r <- self ;;
  match metas !! i with
  | Some image_meta =>
      ret (meta_filename image_meta, meta_path image_meta,
           meta_unique_id image_meta)
  | None =>
      u <- draw_uuid svc ;;
      let unique_id := str_take 8 u in
      let filename := "image_" ++ pretty (i + 1) ++ "_" ++ unique_id ++ ".png" in
      ret (Some filename,
           Some (doc_folder (processor r) ++ "/" ++ filename),
           Some unique_id)
  end.

(** The body of the loop over [enumerate(self.processor.image_descriptions)]. *)
Definition index_image (metas : list ImageMeta) (img_ids : list string)
    (i : nat) (desc : string) : M (RAGService * World) unit :=
  fpu <- image_fields metas i ;;
  let filename := fpu.1.1 in
  let path := fpu.1.2 in
  let unique_id := fpu.2 in
  img_id <- lift_result (list_get img_ids i) ;;
  on_self (fun r => set_rag_image_metadata
                      (rag_image_metadata r ++
                       [{| rim_id := img_id; rim_filename := filename;
                           rim_description := desc; rim_path := path;
                           rim_unique_id := unique_id; rim_index := i |}])%list r) ;;;
  let payload := {| dict_filename := filename; dict_path := path;
                    dict_description := desc; image_index := i;
                    dict_unique_id := unique_id |} in
  vectorstore_add [ {| page_content := desc; doc_id := img_id;
                       content_type := "image"; image_payload := Some payload |} ] ;;;
  mset [ (img_id, RawImage payload) ].

Definition attribute {X A} (name : string) (o : option A) : M X A :=
  match o with
  | Some a => ret a
  | None => raise (Raised ("'DocumentProcessor' object has no attribute '" ++ name ++ "'"))
  end.

Definition build_vector_database : M (RAGService * World) unit :=
  try_except
    (r <- self ;;
     let p := processor r in
     (* Text *)
     text_summaries <- attribute "text_summaries" (text_summaries p) ;;
     index_summaries "text" text_summaries (texts p) ;;;
     (* Table *)
     table_summaries <- attribute "table_summaries" (table_summaries p) ;;
     index_summaries "table" table_summaries (tables p) ;;;
     (* Images *)
     match image_descriptions p, image_metadata p with
     | _ :: _, Some metas =>
         img_ids <- draw_uuids svc (length (images p)) ;;
         for_enumerate (index_image metas img_ids) 0 (image_descriptions p)
     | _, _ => ret tt
     end)
    (fun e =>
       r <- self ;;
       raise (ProcessingError ("Vector database build failed: " ++ exn_str e)
                              (rag_document_id r))).

(** [RAGService.__init__] with [setup_vectorstore] and [setup_rag_chain] *)
Definition new_RAGService (id : string) (p : DocumentProcessor) : M World RAGService :=
  fun w =>
    match recreate_collection svc ("doc_" ++ id) with
    | Some e => (Err (ProcessingError ("Vector store setup failed: " ++ exn_str e) id), w)
    | None =>
        match init_chat_model svc with
        | Some e => (Err e, w)
        | None =>
            (Ok {| rag_document_id := id; processor := p; vectorstore := [];
                   docstore := ∅; rag_image_metadata := [] |}, w)
        end
    end.

(** The work of [process_document_background] between the two writes to
    [document_store]: the first broadcast, the processor, the index. *)
Definition ingest (id file_path : string) : M World (ElementsCount * RAGService) :=
  attempt (broadcast_status_update svc id PROCESSING) ;;;
  p0 <- new_DocumentProcessor settings svc id ;;
  cp <- with_object p0 (processor_process_document settings svc file_path) ;;
  r0 <- new_RAGService id cp.2 ;;
  ur <- with_object r0 build_vector_database ;;
  ret (cp.1, ur.2).

End Rag.

(** *** [RAGService.query]

    The answer is produced by collaborators that are not modelled further:
    the retriever, the chat model, and the rendering of the retrieved
    objects ([_parse_documents] with [_build_context], [_build_sources],
    [_get_related_images]), which probes attributes of foreign objects at run
    time.  Each is an oracle that may raise, except [_get_related_images],
    whose own [except] returns the empty list. *)
Record QueryServices : Type := {
  retriever_invoke : RAGService -> string -> option Z -> Result (list RawContent);
  build_context : list RawContent -> Result string;
  rag_model_invoke : string -> Result string;
  get_related_images : RAGService -> string -> option Z -> list ImageInfo;
  build_sources : list RawContent -> Result (list SourceInfo);
  elapsed : Q
}.

Definition _build_prompt (question context : string) : string :=
  "You are an expert AI assistant that answers questions based on provided context from technical documents."
  ++ "

**CONTEXT:**
" ++ context ++ "

**QUESTION:** " ++ question ++ "

**ANSWER:**".

Definition rag_query (q : QueryServices) (r : RAGService)
    (question : string) (max_results : option Z) : Result QueryResponse :=
  let body :=
    match retriever_invoke q r question max_results with
    | Err e => Err e
    | Ok docs =>
        match build_context q docs with
        | Err e => Err e
        | Ok context =>
            let prompt := _build_prompt question context in
            match rag_model_invoke q prompt with
            | Err e => Err e
            | Ok answer =>
                let related_images := get_related_images q r question max_results in
                match build_sources q docs with
                | Err e => Err e
                | Ok sources =>
                    Ok {| answer := answer;
                          qr_document_id := rag_document_id r;
                          qr_processing_time := elapsed q;
                          sources := sources;
                          related_images := related_images;
                          confidence_score := None;
                          status_info := None |}
                end
            end
        end
    end in
  match body with
  | Ok response => Ok response
  | Err e => Err (ProcessingError ("Query failed: " ++ exn_str e) (rag_document_id r))
  end.

(** ** [app/core/shared_store.py] and the background tasks *)

(** A value of [document_store]. *)
Record DocInfo : Type := {
  di_filename : string;
  di_file_path : string;
  di_file_size : Z;
  di_upload_time : Z;
  di_status : ProcessingStatus;
  di_processing_time : option Q;
  di_elements_count : option ElementsCount;
  di_error_message : option string          (* None: key not set *)
}.

Definition set_status (st : ProcessingStatus) (d : DocInfo) : DocInfo :=
  {| di_filename := di_filename d; di_file_path := di_file_path d;
     di_file_size := di_file_size d; di_upload_time := di_upload_time d;
     di_status := st;
     di_processing_time := di_processing_time d;
     di_elements_count := di_elements_count d;
     di_error_message := di_error_message d |}.

Definition set_error_message (m : string) (d : DocInfo) : DocInfo :=
  {| di_filename := di_filename d; di_file_path := di_file_path d;
     di_file_size := di_file_size d; di_upload_time := di_upload_time d;
     di_status := di_status d;
     di_processing_time := di_processing_time d;
     di_elements_count := di_elements_count d;
     di_error_message := Some m |}.

(** [doc_info.update({"status": COMPLETED, "processing_time": t, "elements_count": c})] *)
Definition update_completed (t : Q) (c : ElementsCount) (d : DocInfo) : DocInfo :=
  {| di_filename := di_filename d; di_file_path := di_file_path d;
     di_file_size := di_file_size d; di_upload_time := di_upload_time d;
     di_status := COMPLETED;
     di_processing_time := Some t;
     di_elements_count := Some c;
     di_error_message := di_error_message d |}.

(** The process: the two shared dictionaries, and the background tasks of
    [process_document_background] by how far each has run.
    - [scheduled]: added by [background_tasks.add_task], not started;
    - [ingesting]: past the write of [PROCESSING], with the [file_path] it
      read; it is suspended in one of the [await]s of the ingestion;
    - [notifying]: past the write of [COMPLETED], suspended in the broadcast
      of the completion. *)
Record Sys : Type := {
  document_store : gmap string DocInfo;
  rag_services : gmap string RAGService;
  scheduled : list string;
  ingesting : list (string * string);
  notifying : list string
}.

Definition initial_sys : Sys :=
  {| document_store := ∅; rag_services := ∅;
     scheduled := []; ingesting := []; notifying := [] |}.

Definition set_document_store v (s : Sys) : Sys :=
  {| document_store := v; rag_services := rag_services s;
     scheduled := scheduled s; ingesting := ingesting s; notifying := notifying s |}.

Definition set_rag_services v (s : Sys) : Sys :=
  {| document_store := document_store s; rag_services := v;
     scheduled := scheduled s; ingesting := ingesting s; notifying := notifying s |}.

Definition set_scheduled v (s : Sys) : Sys :=
  {| document_store := document_store s; rag_services := rag_services s;
     scheduled := v; ingesting := ingesting s; notifying := notifying s |}.

Definition set_ingesting v (s : Sys) : Sys :=
  {| document_store := document_store s; rag_services := rag_services s;
     scheduled := scheduled s; ingesting := v; notifying := notifying s |}.

Definition set_notifying v (s : Sys) : Sys :=
  {| document_store := document_store s; rag_services := rag_services s;
     scheduled := scheduled s; ingesting := ingesting s; notifying := v |}.

(** [document_store[id]["status"]] when [id] is registered. *)
Definition status_of (s : Sys) (id : string) : option ProcessingStatus :=
  di_status <$> document_store s !! id.

(** ** [app/api/documents.py] *)

Record UploadFile : Type := {
  uf_filename : string;
  uf_size : Z
}.

Section Handlers.

Context (settings : Settings).

(** [upload_document]: [document_id] is the [uuid4] drawn, [now] the clock,
    [fs] what opening and copying the file to [file_path] did. *)
Definition upload_document (document_id : string) (now : Z) (fs : string -> option exn)
    (file : UploadFile) (s : Sys) : Result DocumentUploadResponse * Sys :=
  if negb (endswith (uf_filename file) ".pdf") then
    (Err (InvalidFileError "Only PDF files are allowed"), s)
  else if (uf_size file >? MAX_FILE_SIZE settings)%Z then
    (Err (InvalidFileError ("File too large. Max size: "
                            ++ pretty (MAX_FILE_SIZE settings) ++ " bytes")), s)
  else
    let file_path :=
      UPLOAD_FOLDER settings ++ "/" ++ document_id ++ "_" ++ uf_filename file in
    match fs file_path with
    | Some e => (Err (HTTPException 500 "Upload failed"), s)
    | None =>
        (Ok {| up_document_id := document_id;
               up_filename := uf_filename file;
               up_file_size := uf_size file;
               up_status := PENDING |},
         set_document_store
           (<[document_id :=
                {| di_filename := uf_filename file;
                   di_file_path := file_path;
                   di_file_size := uf_size file;
                   di_upload_time := now;
                   di_status := PENDING;
                   di_processing_time := None;
                   di_elements_count := None;
                   di_error_message := None |}]> (document_store s)) s)
    end.

(** [process_document]: the handler of [POST /process-document/{document_id}]. *)
Definition process_document (document_id : string) (s : Sys)
  : Result ProcessingResponse * Sys :=
  match document_store s !! document_id with
  | None => (Err (HTTPException 404 "Document not found"), s)
  | Some doc_info =>
      if decide (di_status doc_info = PROCESSING) then
        (Ok {| pr_status := PROCESSING;
               pr_message := "Document is already being processed. You'll be notified when it's ready.";
               pr_document_id := document_id |}, s)
      else if decide (di_status doc_info = COMPLETED) then
        (Ok {| pr_status := COMPLETED;
               pr_message := "Document has already been processed and is ready for queries.";
               pr_document_id := document_id |}, s)
      else
        (Ok {| pr_status := PROCESSING;
               pr_message := "Document processing has started. This usually takes 1-2 minutes. You can check the status or wait for completion notification.";
               pr_document_id := document_id |},
         set_document_store
           (<[document_id := set_status PROCESSING doc_info]> (document_store s))
           (set_scheduled (scheduled s ++ [document_id])%list s))
  end.

Definition get_document_status (document_id : string) (s : Sys) : Result DocumentStatus :=
  match document_store s !! document_id with
  | None => Err (HTTPException 404 "Document not found")
  | Some doc_info =>
      Ok {| ds_document_id := document_id;
            ds_status := di_status doc_info;
            ds_filename := di_filename doc_info;
            ds_processing_time := di_processing_time doc_info;
            ds_elements_count := di_elements_count doc_info |}
  end.

(** [query_document] of [documents.py]: the handler of
    [POST /query/{document_id}]. *)
Definition documents_query_document (q : QueryServices) (document_id : string)
    (query_request : QueryRequest) (s : Sys) : Result QueryResponse :=
  match document_store s !! document_id with
  | None => Err (HTTPException 404 "Document not found")
  | Some doc_info =>
      if decide (di_status doc_info <> COMPLETED) then
        Err (HTTPException 400 "Document is not processed yet")
      else
        match rag_services s !! document_id with
        | None => Err (HTTPException 500 "RAG service not found for this document")
        | Some rag_service =>
            match rag_query q rag_service (question query_request)
                            (max_results query_request) with
            | Ok response => Ok response
            | Err e => Err (HTTPException 500 ("Query failed: " ++ exn_str e))
            end
        end
  end.

(** [delete_document]: [fs] is what removing the file and the image folder
    did. *)
Definition delete_document (document_id : string) (fs : option exn) (s : Sys)
  : Result string * Sys :=
  match document_store s !! document_id with
  | None => (Err (HTTPException 404 "Document not found"), s)
  | Some doc_info =>
      match fs with
      | Some e => (Err (HTTPException 500 "Failed to delete document"), s)
      | None =>
          (Ok "Document deleted successfully",
           set_rag_services (delete document_id (rag_services s))
             (set_document_store (delete document_id (document_store s)) s))
      end
  end.

(** *** [process_document_background], one function per stretch between two
    suspension points. *)

(** The [except Exception] handler: it marks the document [FAILED] and
    records [str(e)]; the subscript raises [KeyError] out of the task when
    the document was deleted in the meantime. *)
Definition mark_failed (document_id : string) (e : exn) (s : Sys) : Sys :=
  match document_store s !! document_id with
  | None => s
  | Some doc_info =>
      set_document_store
        (<[document_id := set_error_message (exn_str e) (set_status FAILED doc_info)]>
           (document_store s)) s
  end.

(** From the start of the task to the first broadcast. *)
Definition background_start (document_id : string) (s : Sys) : Sys :=
  match document_store s !! document_id with
  | None => s
  | Some doc_info =>
      set_ingesting (ingesting s ++ [(document_id, di_file_path doc_info)])%list
        (set_document_store
           (<[document_id := set_status PROCESSING doc_info]> (document_store s)) s)
  end.

(** From the first broadcast to the broadcast of the completion: the
    ingestion, then the two dictionary writes, which no [await] separates. *)
Definition background_ingest (svc : Services) (processing_time : Q)
    (document_id file_path : string) (s : Sys) : Sys :=
  match ingest settings svc document_id file_path initial_world with
  | (Ok (elements_count, rag_service), _) =>
      let s1 := set_rag_services (<[document_id := rag_service]> (rag_services s)) s in
      match document_store s1 !! document_id with
      | None => s1
      | Some doc_info =>
          set_notifying (notifying s1 ++ [document_id])%list
            (set_document_store
               (<[document_id := update_completed processing_time elements_count doc_info]>
                  (document_store s1)) s1)
      end
  | (Err e, _) => mark_failed document_id e s
  end.

(** The broadcast of the completion: when it raises, the handler runs. *)
Definition background_notify (document_id : string) (outcome : option exn) (s : Sys) : Sys :=
  match outcome with
  | None => s
  | Some e => mark_failed document_id e s
  end.

(** ** [app/api/queries.py] *)

Definition pending_response (document_id : string) : QueryResponse :=
  {| answer := "📋 Your document is currently queued for processing. Please wait a moment and try again.";
     qr_document_id := document_id;
     qr_processing_time := 0;
     sources := [];
     related_images := [];
     confidence_score := Some 0%Q;
     status_info := Some {| si_status := status_value PENDING;
                            si_message := "Document is queued for processing";
                            estimated_wait_time := Some "1-2 minutes";
                            action_required := None |} |}.

Definition processing_response (document_id : string) : QueryResponse :=
  {| answer := "⚡ Your document is currently being processed. This usually takes 1-2 minutes depending on document complexity. Please try your query again in a moment.";
     qr_document_id := document_id;
     qr_processing_time := 0;
     sources := [];
     related_images := [];
     confidence_score := Some 0%Q;
     status_info := Some {| si_status := status_value PROCESSING;
                            si_message := "Document is being processed";
                            estimated_wait_time := Some "30-120 seconds";
                            action_required := None |} |}.

Definition failed_response (document_id : string) : QueryResponse :=
  {| answer := "❌ Unfortunately, there was an error processing your document. Please try uploading the document again or contact support if the issue persists.";
     qr_document_id := document_id;
     qr_processing_time := 0;
     sources := [];
     related_images := [];
     confidence_score := Some 0%Q;
     status_info := Some {| si_status := status_value FAILED;
                            si_message := "Document processing failed";
                            estimated_wait_time := None;
                            action_required := Some "Re-upload document or contact support" |} |}.

Definition error_response (document_id : string) (e : exn) : QueryResponse :=
  {| answer := "🔧 There was a technical issue processing your query. Please try again or contact support if the problem continues.";
     qr_document_id := document_id;
     qr_processing_time := 0;
     sources := [];
     related_images := [];
     confidence_score := Some 0%Q;
     status_info := Some {| si_status := "error";
                            si_message := "Query processing error: " ++ exn_str e;
                            estimated_wait_time := None;
                            action_required := Some "Try again or contact support" |} |}.

Definition set_status_info (si : StatusInfo) (r : QueryResponse) : QueryResponse :=
  {| answer := answer r; qr_document_id := qr_document_id r;
     qr_processing_time := qr_processing_time r; sources := sources r;
     related_images := related_images r; confidence_score := confidence_score r;
     status_info := Some si |}.

(** [request.max_results or 5] *)
Definition max_results_or_5 (m : option Z) : Z :=
  match m with
  | None => 5
  | Some k => if (k =? 0)%Z then 5 else k
  end.

(** [query_document] of [queries.py]: the handler of [POST /query]. *)
Definition query_document (q : QueryServices) (request : QueryRequest) (s : Sys)
  : Result QueryResponse :=
  match document_store s !! req_document_id request with
  | None => Err (DocumentNotFoundError (req_document_id request))
  | Some doc_info =>
      match di_status doc_info with
      | PENDING => Ok (pending_response (req_document_id request))
      | PROCESSING => Ok (processing_response (req_document_id request))
      | FAILED => Ok (failed_response (req_document_id request))
      | COMPLETED =>
          match rag_services s !! req_document_id request with
          | None => Err (ProcessingError "RAG service not available" (req_document_id request))
          | Some rag_service =>
              match rag_query q rag_service (question request)
                              (Some (max_results_or_5 (max_results request))) with
              | Ok response =>
                  Ok (set_status_info
                        {| si_status := status_value COMPLETED;
                           si_message := "Query completed successfully";
                           estimated_wait_time := None;
                           action_required := None |} response)
              | Err e => Ok (error_response (req_document_id request) e)
              end
          end
      end
  end.

(** ** Operations of the process *)

(** A request served, or a stretch of a background task run.  Requests and
    task stretches interleave at the [await]s only, so each is atomic.
    [Upload] carries the identifier that [uuid.uuid4] returned. *)
Inductive op : Type :=
| Upload (document_id : string) (now : Z) (fs : string -> option exn) (file : UploadFile)
| Process (document_id : string)
| GetStatus (document_id : string)
| Query (q : QueryServices) (request : QueryRequest)
| QueryByPath (q : QueryServices) (document_id : string) (request : QueryRequest)
| Delete (document_id : string) (fs : option exn)
| TaskStart (document_id : string)
| TaskIngest (document_id : string) (svc : Services) (processing_time : Q)
| TaskNotify (document_id : string) (outcome : option exn).

(** Remove the first occurrence of a task. *)
Fixpoint take_task (id : string) (l : list string) : option (list string) :=
  match l with
  | [] => None
  | x :: l' => if decide (x = id) then Some l'
               else cons x <$> take_task id l'
  end.

Fixpoint take_ingesting (id : string) (l : list (string * string))
  : option (string * list (string * string)) :=
  match l with
  | [] => None
  | x :: l' => if decide (x.1 = id) then Some (x.2, l')
               else (fun r => (r.1, x :: r.2)) <$> take_ingesting id l'
  end.

(** An identifier is in use when a document or a background task has it. *)
Definition in_use (id : string) (s : Sys) : Prop :=
  is_Some (document_store s !! id) ∨ id ∈ scheduled s ∨ id ∈ (ingesting s).*1
  ∨ id ∈ notifying s.

#[global] Instance in_use_dec id s : Decision (in_use id s).
Proof. unfold in_use. apply _. Defined.

(** [exec o s]: the state after [o], or [None] when [o] cannot happen in [s]:
    [uuid4] repeating an identifier in use, or a task stretch for a task that
    is not at that point. *)
Definition exec (o : op) (s : Sys) : option Sys :=
  match o with
  | Upload id now fs file =>
      if decide (in_use id s) then None
      else Some (upload_document id now fs file s).2
  | Process id => Some (process_document id s).2
  | GetStatus id => Some s
  | Query q request => Some s
  | QueryByPath q id request => Some s
  | Delete id fs => Some (delete_document id fs s).2
  | TaskStart id =>
      rest ← take_task id (scheduled s);
      Some (background_start id (set_scheduled rest s))
  | TaskIngest id svc t =>
      fr ← take_ingesting id (ingesting s);
      Some (background_ingest svc t id fr.1 (set_ingesting fr.2 s))
  | TaskNotify id outcome =>
      rest ← take_task id (notifying s);
      Some (background_notify id outcome (set_notifying rest s))
  end.

Fixpoint run (ops : list op) (s : Sys) : option Sys :=
  match ops with
  | [] => Some s
  | o :: ops' => s' ← exec o s; run ops' s'
  end.

Definition reachable (s : Sys) : Prop := ∃ ops, run ops initial_sys = Some s.

End Handlers.

(** ** Concrete documents, collaborators and runs *)

Module Sample.

Definition image_element (b64 : string) : Element :=
  {| el_class := "<class 'unstructured.documents.elements.Image'>";
     el_image_base64 := Some b64 |}.

Definition text_chunk (t : string) (els : list Element) : Chunk :=
  {| chunk_class := "<class 'unstructured.documents.elements.CompositeElement'>";
     chunk_text := t; text_as_html := ""; orig_elements := Some els |}.

Definition table_chunk (html : string) : Chunk :=
  {| chunk_class := "<class 'unstructured.documents.elements.Table'>";
     chunk_text := ""; text_as_html := html; orig_elements := None |}.

(** A document of one text chunk that holds one image. *)
Definition one_text_one_image : list Chunk :=
  [ text_chunk "Ohm's law relates voltage and current." [ image_element "aGVsbG8=" ] ].

(** Collaborators that all answer; the parser returns [cs]. *)
Definition services (cs : list Chunk) : Services :=
  {| uuid4 := fun n => "uuid-" ++ pretty n;
     mkdir := fun _ => None;
     init_models := None;
     partition_pdf := fun _ => Ok cs;
     generate_content := fun _ _ => Ok "A circuit diagram.";
     write_png := fun _ _ => None;
     text_chain := fun t => Ok ("Summary of: " ++ t);
     table_chain := fun t => Ok ("Table summary of: " ++ t);
     recreate_collection := fun _ => None;
     add_documents := fun _ _ => Added;
     init_chat_model := None;
     broadcast_status_update := fun _ _ => None |}.

(** The same, with a vision service that raises on every call. *)
Definition vision_down (cs : list Chunk) : Services :=
  {| uuid4 := uuid4 (services cs);
     mkdir := mkdir (services cs);
     init_models := init_models (services cs);
     partition_pdf := partition_pdf (services cs);
     generate_content := fun _ _ => Err (Raised "429 quota exceeded");
     write_png := write_png (services cs);
     text_chain := text_chain (services cs);
     table_chain := table_chain (services cs);
     recreate_collection := recreate_collection (services cs);
     add_documents := add_documents (services cs);
     init_chat_model := init_chat_model (services cs);
     broadcast_status_update := broadcast_status_update (services cs) |}.

(** The same, with a disk on which no image can be written. *)
Definition disk_full (cs : list Chunk) : Services :=
  {| uuid4 := uuid4 (services cs);
     mkdir := mkdir (services cs);
     init_models := init_models (services cs);
     partition_pdf := partition_pdf (services cs);
     generate_content := generate_content (services cs);
     write_png := fun _ _ => Some (Raised "[Errno 28] No space left on device");
     text_chain := text_chain (services cs);
     table_chain := table_chain (services cs);
     recreate_collection := recreate_collection (services cs);
     add_documents := add_documents (services cs);
     init_chat_model := init_chat_model (services cs);
     broadcast_status_update := broadcast_status_update (services cs) |}.

(** A parser that rejects the file. *)
Definition corrupt_pdf : Services :=
  {| uuid4 := uuid4 (services []);
     mkdir := mkdir (services []);
     init_models := init_models (services []);
     partition_pdf := fun _ => Err (Raised "No /Root object! - Is this really a PDF?");
     generate_content := generate_content (services []);
     write_png := write_png (services []);
     text_chain := text_chain (services []);
     table_chain := table_chain (services []);
     recreate_collection := recreate_collection (services []);
     add_documents := add_documents (services []);
     init_chat_model := init_chat_model (services []);
     broadcast_status_update := broadcast_status_update (services []) |}.

(** Query-time collaborators that answer. *)
Definition answering : QueryServices :=
  {| retriever_invoke := fun r _ _ => Ok (map_to_list (docstore r)).*2;
     build_context := fun _ => Ok "**TEXT CONTEXT:**";
     rag_model_invoke := fun _ => Ok "V = I R.";
     get_related_images := fun _ _ _ => [];
     build_sources := fun _ => Ok [];
     elapsed := 1 |}.

(** Query-time collaborators whose retriever raises. *)
Definition retriever_down : QueryServices :=
  {| retriever_invoke := fun _ _ _ => Err (Raised "connection refused");
     build_context := build_context answering;
     rag_model_invoke := rag_model_invoke answering;
     get_related_images := get_related_images answering;
     build_sources := build_sources answering;
     elapsed := elapsed answering |}.

(** The default settings with batches of two images. *)
Definition small_batches : Settings :=
  {| UPLOAD_FOLDER := UPLOAD_FOLDER default_settings;
     IMAGES_FOLDER := IMAGES_FOLDER default_settings;
     MAX_FILE_SIZE := MAX_FILE_SIZE default_settings;
     MAX_IMAGES_PER_REQUEST := 2;
     RATE_LIMIT_DELAY := RATE_LIMIT_DELAY default_settings |}.

Definition report : UploadFile := {| uf_filename := "report.pdf"; uf_size := 2048 |}.
Definition notes : UploadFile := {| uf_filename := "notes.txt"; uf_size := 2048 |}.

Definition disk_ok : string -> option exn := fun _ => None.

Definition ask (id : string) : QueryRequest :=
  {| req_document_id := id; question := "What is Ohm's law?"; max_results := Some 5%Z |}.

(** The document "d1" uploaded, and nothing else. *)
Definition uploaded : list op := [ Upload "d1" 0 disk_ok report ].

(** "d1" uploaded and ingested to completion. *)
Definition completed : list op :=
  [ Upload "d1" 0 disk_ok report; Process "d1"; TaskStart "d1";
    TaskIngest "d1" (services one_text_one_image) 3; TaskNotify "d1" None ].

(** "d1" uploaded, and its ingestion aborted by the parser. *)
Definition failed : list op :=
  [ Upload "d1" 0 disk_ok report; Process "d1"; TaskStart "d1";
    TaskIngest "d1" corrupt_pdf 3 ].

(** The state after the operations [ops], run from the initial state with the
    default settings. *)
Definition state_after (ops : list op) : Sys :=
  default initial_sys (run default_settings ops initial_sys).

(** A processor that has extracted the images [imgs]. *)
Definition processor_with_images (imgs : list string) : DocumentProcessor :=
  {| document_id := "d1"; doc_folder := "storage/images/d1"; chunks := Some [];
     tables := []; texts := []; images := imgs;
     image_descriptions := []; image_metadata := None;
     text_summaries := None; table_summaries := None |}.

End Sample.

Module SampleRuns.

(** "d1" uploaded, its ingestion started, and the document deleted while the
    task is suspended in the ingestion. *)
Definition deleted_while_ingesting : list op :=
  [ Upload "d1" 0 Sample.disk_ok Sample.report; Process "d1"; TaskStart "d1";
    Delete "d1" None ].

(** "d1" uploaded and ingested, the task suspended in the broadcast of the
    completion. *)
Definition awaiting_broadcast : list op :=
  [ Upload "d1" 0 Sample.disk_ok Sample.report; Process "d1"; TaskStart "d1";
    TaskIngest "d1" (Sample.services Sample.one_text_one_image) 3 ].

(** Collaborators that all answer, with a disk that refuses the file of the
    second image of a document. *)
Definition second_image_lost (cs : list Chunk) : Services :=
  {| uuid4 := uuid4 (Sample.services cs);
     mkdir := mkdir (Sample.services cs);
     init_models := init_models (Sample.services cs);
     partition_pdf := partition_pdf (Sample.services cs);
     generate_content := generate_content (Sample.services cs);
     write_png := fun path _ =>
       if str_contains "/image_2_" path
       then Some (Raised "[Errno 13] Permission denied") else None;
     text_chain := text_chain (Sample.services cs);
     table_chain := table_chain (Sample.services cs);
     recreate_collection := recreate_collection (Sample.services cs);
     add_documents := add_documents (Sample.services cs);
     init_chat_model := init_chat_model (Sample.services cs);
     broadcast_status_update := broadcast_status_update (Sample.services cs) |}.

Definition three_images : list string := ["aGVsbG8="; "d29ybGQ="; "Zm9v"].

(** A document of one text chunk that holds the three images. *)
Definition illustrated : list Chunk :=
  [ Sample.text_chunk "Kirchhoff's laws." (map Sample.image_element three_images) ].

End SampleRuns.

(** ** Invariants of the process *)

(** The identifiers of the background tasks, at any point of their run. *)
Definition tasks (s : Sys) : list string :=
  (scheduled s ++ (ingesting s).*1 ++ notifying s)%list.

(** What holds of every state the process can reach:
    - a document has at most one background task;
    - a task that has not written [COMPLETED] belongs to a document that is
      PROCESSING, a task past that write to one that is COMPLETED (or the
      document was deleted);
    - a COMPLETED document has its [RAGService];
    - every [RAGService] of [rag_services] is the result of an ingestion
      that ran to its end. *)
Record sys_inv (settings : Settings) (s : Sys) : Prop := {
  inv_nodup : NoDup (tasks s);
  inv_scheduled : forall id, id ∈ scheduled s ->
    status_of s id = None \/ status_of s id = Some PROCESSING;
  inv_ingesting : forall id, id ∈ (ingesting s).*1 ->
    status_of s id = None \/ status_of s id = Some PROCESSING;
  inv_notifying : forall id, id ∈ notifying s ->
    status_of s id = None \/ status_of s id = Some COMPLETED;
  inv_rag : forall id, status_of s id = Some COMPLETED ->
    is_Some (rag_services s !! id);
  inv_built : forall id rag, rag_services s !! id = Some rag ->
    exists svc file_path c w,
      ingest settings svc id file_path initial_world = (Ok (c, rag), w)
}.

(** [o] is an upload for which [uuid4] returned the identifier [id]. *)
Definition is_upload (id : string) (o : op) : bool :=
  match o with
  | Upload id' _ _ _ => bool_decide (id' = id)
  | _ => false
  end.

(** [o] is a call of [process_document] on [id]. *)
Definition is_process (id : string) (o : op) : bool :=
  match o with
  | Process id' => bool_decide (id' = id)
  | _ => false
  end.

(** [o] is the broadcast of the completion of [id], raising. *)
Definition is_failed_notify (id : string) (o : op) : bool :=
  match o with
  | TaskNotify id' (Some _) => bool_decide (id' = id)
  | _ => false
  end.

(** The moves of a document's status that one operation [o] may make, from
    [before] to [after] ([None]: the document is not registered).  What a
    COMPLETED document becomes when the broadcast of its completion raises
    is left open, short of PENDING and PROCESSING. *)
Definition moves_forward (o : op) (id : string)
    (before after : option ProcessingStatus) : Prop :=
  match before with
  | None =>
      after = None \/ (after = Some PENDING /\ is_upload id o = true)
  | Some PENDING =>
      after = Some PENDING \/ after = None
      \/ (after = Some PROCESSING /\ is_process id o = true)
  | Some PROCESSING => after <> Some PENDING
  | Some COMPLETED =>
      after <> Some PENDING /\ after <> Some PROCESSING
      /\ (is_failed_notify id o = false -> after = Some COMPLETED \/ after = None)
  | Some FAILED =>
      after = Some FAILED \/ after = None
      \/ (after = Some PROCESSING /\ is_process id o = true)
  end.

(** ** The image loop, one image at a time *)

Section ImageLoop.

Context (settings : Settings) (svc : Services).

(** What [_describe_image] returns on the [n]-th call of the vision
    service. *)
Definition description_of (n : nat) (image_b64 : string) : string :=
  match generate_content svc n image_b64 with
  | Ok t => if String.eqb t "" then "No content detected in image" else t
  | Err e => "Error processing image: " ++ exn_str e
  end.

(** The file name of image [i] when [u] is the UUID drawn for it. *)
Definition image_filename_of (i : nat) (u : string) : string :=
  "image_" ++ pretty (i + 1) ++ "_" ++ str_take 8 u ++ ".png".

Definition image_path_of (folder : string) (i : nat) (u : string) : string :=
  folder ++ "/" ++ image_filename_of i u.

(** Image [i] reached the disk, [c] UUIDs having been drawn before it. *)
Definition written (folder : string) (c i : nat) (image_b64 : string) : bool :=
  match write_png svc (image_path_of folder i (uuid4 svc c)) image_b64 with
  | None => true
  | Some _ => false
  end.

(** The images of a list with, for each, its index and the number of UUIDs
    drawn before it when [c] were drawn before the first. *)
Definition numbered (i0 c : nat) (imgs : list string) : list (nat * (nat * string)) :=
  imap (fun k img => (i0 + k, (c + k, img))) imgs.

(** The delay the rate-limiting policy asks for after image [i]: the long
    cooldown when [i + 1] is a multiple of the batch size, the short delay
    otherwise. *)
Definition cooldown_policy (i : nat) (delay : Z) : Prop :=
  ((MAX_IMAGES_PER_REQUEST settings | Z.of_nat (i + 1))%Z /\ delay = 60%Z)
  \/ (~ (MAX_IMAGES_PER_REQUEST settings | Z.of_nat (i + 1))%Z
      /\ delay = RATE_LIMIT_DELAY settings).

Definition placeholder_meta (i : nat) (e : exn) : ImageMeta :=
  {| meta_filename := None; meta_path := None;
     meta_description := "Error processing image: " ++ exn_str e;
     original_index := i; meta_unique_id := None |}.

Definition saved_meta (folder : string) (i : nat) (u description : string) : ImageMeta :=
  {| meta_filename := Some (image_filename_of i u);
     meta_path := Some (image_path_of folder i u);
     meta_description := description;
     original_index := i;
     meta_unique_id := Some (str_take 8 u) |}.

(** The state after the loop body has run on image [i]. *)
Definition image_step (i : nat) (image_b64 : string)
    (s : DocumentProcessor * World) : DocumentProcessor * World :=
  let p := s.1 in
  let w := s.2 in
  let description := description_of (vision_calls w) image_b64 in
  let u := uuid4 svc (uuid_drawn w) in
  let path := image_path_of (doc_folder p) i u in
  let w1 := bump_uuid (bump_vision w) in
  let p1 := append_description description p in
  match write_png svc path image_b64 with
  | Some e =>
      (append_metadata (placeholder_meta i e)
         (append_description ("Error processing image: " ++ exn_str e) p1), w1)
  | None =>
      let p2 := append_metadata (saved_meta (doc_folder p) i u description) p1 in
      let w2 := log_file path image_b64 w1 in
      if (MAX_IMAGES_PER_REQUEST settings =? 0)%Z then
        (append_metadata (placeholder_meta i ZeroDivisionError)
           (append_description
              ("Error processing image: " ++ exn_str ZeroDivisionError) p2), w2)
      else if (Z.of_nat (i + 1) mod MAX_IMAGES_PER_REQUEST settings =? 0)%Z then
        (p2, log_sleep 60 w2)
      else
        (p2, log_sleep (RATE_LIMIT_DELAY settings) w2)
  end.

Fixpoint image_steps (i0 : nat) (imgs : list string)
    (s : DocumentProcessor * World) : DocumentProcessor * World :=
  match imgs with
  | [] => s
  | img :: imgs' => image_steps (S i0) imgs' (image_step i0 img s)
  end.

End ImageLoop.

(** ** The processor after each stage *)

Section Stages.

Context (settings : Settings) (svc : Services).

Definition counts_of (p : DocumentProcessor) : ElementsCount :=
  {| count_texts := length (texts p);
     count_tables := length (tables p);
     count_images := length (images p) |}.

(** The processor after [extract_pdf_content], the parser having returned
    [cs]. *)
Definition extracted (cs : list Chunk) (p : DocumentProcessor) : DocumentProcessor :=
  set_images (_extract_images_base64 cs)
    (set_texts (filter (fun c => is_table c = false /\ is_composite c = true) cs)
       (set_tables (filter (fun c => is_table c = true) cs)
          (set_chunks (Some cs) p))).

(** The processor and the world after [process_and_save_images]. *)
Definition with_images (s : DocumentProcessor * World) : DocumentProcessor * World :=
  match images s.1 with
  | [] => s
  | _ :: _ => image_steps settings svc 0 (images s.1)
                (set_image_metadata (Some []) s.1, s.2)
  end.

(** A new [DocumentProcessor]. *)
Definition fresh_processor (id : string) : DocumentProcessor :=
  {| document_id := id; doc_folder := IMAGES_FOLDER settings ++ "/" ++ id;
     chunks := None; tables := []; texts := []; images := [];
     image_descriptions := []; image_metadata := None;
     text_summaries := None; table_summaries := None |}.

(** A new [RAGService]. *)
Definition fresh_rag (id : string) (p : DocumentProcessor) : RAGService :=
  {| rag_document_id := id; processor := p; vectorstore := [];
     docstore := ∅; rag_image_metadata := [] |}.

(** [r'] is [r] with the vectors [docs] added, and the docstore has gained
    exactly their keys. *)
Definition extends (r r' : RAGService) (docs : list VectorDoc) : Prop :=
  vectorstore r' = (vectorstore r ++ docs)%list
  /\ (forall k, is_Some (docstore r' !! k)
                <-> k ∈ map doc_id docs \/ is_Some (docstore r !! k))
  /\ processor r' = processor r
  /\ rag_document_id r' = rag_document_id r.

(** Every vector has its raw content under the same key, and every raw
    content its vector. *)
Definition keys_match (r : RAGService) : Prop :=
  forall k, k ∈ map doc_id (vectorstore r) <-> is_Some (docstore r !! k).

End Stages.

(** The vector of a summary stored under the key [k]. *)
Definition summary_doc (kind : string) (summary k : string) : VectorDoc :=
  {| page_content := summary; doc_id := k; content_type := kind;
     image_payload := None |}.

(** The descriptions that [build_vector_database] indexes: all of them when
    there is at least one and [image_metadata] exists, none otherwise. *)
Definition indexed_descriptions (p : DocumentProcessor) : list string :=
  match image_descriptions p, image_metadata p with
  | _ :: _, Some _ => image_descriptions p
  | _, _ => []
  end.

(** The unit counts recorded for a document and its [RAGService] come from
    the same run of the ingestion, and a COMPLETED document has its counts. *)
Record counts_inv (settings : Settings) (ds : gmap string DocInfo)
    (rs : gmap string RAGService) : Prop := {
  inv_counted : forall id d, ds !! id = Some d -> di_status d = COMPLETED ->
    is_Some (di_elements_count d);
  inv_same_run : forall id d c rag,
    ds !! id = Some d -> di_elements_count d = Some c -> rs !! id = Some rag ->
    exists svc file_path w,
      ingest settings svc id file_path initial_world = (Ok (c, rag), w)
}.

(** Every collaborator of the ingestion of [id] from [file_path] answers,
    the vision service left aside. *)
Definition others_answer (settings : Settings) (svc : Services)
    (id file_path : string) : Prop :=
  broadcast_status_update svc id PROCESSING = None
  /\ mkdir svc (IMAGES_FOLDER settings ++ "/" ++ id) = None
  /\ init_models svc = None
  /\ is_ok (partition_pdf svc file_path) = true
  /\ (forall path data, write_png svc path data = None)
  /\ (forall t, is_ok (text_chain svc t) = true)
  /\ (forall t, is_ok (table_chain svc t) = true)
  /\ recreate_collection svc ("doc_" ++ id) = None
  /\ init_chat_model svc = None
  /\ (forall current docs, add_documents svc current docs = Added).

(** ** [app/api/queries.py], the other endpoints *)

(** The dictionary returned by [get_query_readiness]. *)
Record Readiness : Type := {
  rd_document_id : string;
  rd_status : ProcessingStatus;
  rd_filename : string;
  rd_upload_time : Z;
  rd_processing_time : option Q;
  rd_elements_count : option ElementsCount;
  rd_ready : bool;
  rd_message : string;
  rd_estimated_wait : string;
  rd_action : string
}.

(** [get_query_readiness]: the handler of [GET /query-status/{document_id}].
    The default of [status_messages.get] is never used: the table has the
    four members of the enumeration. *)
Definition get_query_readiness (document_id : string) (s : Sys) : Result Readiness :=
  match document_store s !! document_id with
  | None => Err (DocumentNotFoundError document_id)
  | Some doc_info =>
      let info :=
        match di_status doc_info with
        | PENDING =>
            (false, "Document is queued for processing", "1-2 minutes",
             "Please wait and check again")
        | PROCESSING =>
            (false, "Document is currently being processed", "30-120 seconds",
             "Processing in progress, please wait")
        | COMPLETED =>
            (true, "Document is ready for queries", "0 seconds",
             "You can now ask questions about this document")
        | FAILED =>
            (false, "Document processing failed", "N/A",
             "Please re-upload the document")
        end in
      Ok {| rd_document_id := document_id;
            rd_status := di_status doc_info;
            rd_filename := di_filename doc_info;
            rd_upload_time := di_upload_time doc_info;
            rd_processing_time := di_processing_time doc_info;
            rd_elements_count := di_elements_count doc_info;
            rd_ready := info.1.1.1;
            rd_message := info.1.1.2;
            rd_estimated_wait := info.1.2;
            rd_action := info.2 |}
  end.

(** [query_document_by_path]: [request.document_id = document_id], then
    [query_document]. *)
Definition query_document_by_path (q : QueryServices) (document_id : string)
    (request : QueryRequest) (s : Sys) : Result QueryResponse :=
  query_document q
    {| req_document_id := document_id; question := question request;
       max_results := max_results request |} s.

(** ** What an operation may change in a registered document *)

(** [d'] is [d] with, at most, another status, processing time, unit counts
    and error message; an error message, once set, is still set. *)
Definition same_upload (d d' : DocInfo) : Prop :=
  di_filename d' = di_filename d
  /\ di_file_path d' = di_file_path d
  /\ di_file_size d' = di_file_size d
  /\ di_upload_time d' = di_upload_time d
  /\ (is_Some (di_error_message d) -> is_Some (di_error_message d')).

(** The fields of a document agree with its status. *)
Definition coherent (d : DocInfo) : Prop :=
  match di_status d with
  | PENDING =>
      di_processing_time d = None /\ di_elements_count d = None
      /\ di_error_message d = None
  | PROCESSING => True
  | COMPLETED =>
      is_Some (di_processing_time d) /\ is_Some (di_elements_count d)
  | FAILED => is_Some (di_error_message d)
  end.

(** ** The index, as it grows *)

(** [r'] is [r] after some insertions: nothing that was indexed is gone, and
    the identifier and the processor are the same. *)
Definition grows (r r' : RAGService) : Prop :=
  rag_document_id r' = rag_document_id r
  /\ processor r' = processor r
  /\ vectorstore r `prefix_of` vectorstore r'
  /\ (forall k, is_Some (docstore r !! k) -> is_Some (docstore r' !! k))
  /\ rag_image_metadata r `prefix_of` rag_image_metadata r'.

(** An action on a [RAGService] that only inserts, whether it returns or
    raises. *)
Definition steady {A} (m : M (RAGService * World) A) : Prop :=
  forall r w, grows r (m (r, w)).2.1.

(** Every collaborator of the ingestion of [id] from [file_path] answers,
    the vision service and the disk left aside; the parser returns [cs]. *)
Definition rest_answers (settings : Settings) (svc : Services)
    (id file_path : string) (cs : list Chunk) : Prop :=
  broadcast_status_update svc id PROCESSING = None
  /\ mkdir svc (IMAGES_FOLDER settings ++ "/" ++ id) = None
  /\ init_models svc = None
  /\ partition_pdf svc file_path = Ok cs
  /\ (forall t, is_ok (text_chain svc t) = true)
  /\ (forall t, is_ok (table_chain svc t) = true)
  /\ recreate_collection svc ("doc_" ++ id) = None
  /\ init_chat_model svc = None
  /\ (forall current docs, add_documents svc current docs = Added).

(** The strings of the [n] UUIDs drawn after [c] others. *)
Definition uuids (svc : Services) (c n : nat) : list string :=
  map (uuid4 svc) (seq c n).

(** The vector of the image description [desc] stored under the key [k]. *)
Definition image_doc (desc k : string) (payload : ImageDict) : VectorDoc :=
  {| page_content := desc; doc_id := k; content_type := "image";
     image_payload := Some payload |}.

(** [r'] is [r] with the vectors [docs] added and, for each of them in turn,
    the raw content of the same position in [raws] written to the docstore
    under its key. *)
Definition indexed (r r' : RAGService) (docs : list VectorDoc)
    (raws : list RawContent) : Prop :=
  vectorstore r' = (vectorstore r ++ docs)%list
  /\ docstore r' = mset_pairs (zip (map doc_id docs) raws) (docstore r)
  /\ length raws = length docs.

(** A processor and its [RAGService], before and after the index is built,
    for a document of one text chunk that holds three images. *)
Module SampleIndex.

Definition svc : Services := Sample.services SampleRuns.illustrated.

Definition processed : DocumentProcessor * World :=
  (processor_process_document default_settings svc "storage/uploads/d1_report.pdf"
     (fresh_processor default_settings "d1", initial_world)).2.

Definition before : RAGService := fresh_rag "d1" processed.1.

Definition after : RAGService * World :=
  (build_vector_database svc (before, processed.2)).2.

End SampleIndex.

(** * Properties *)

(** ** The two branches of [process_document] *)

Lemma process_document_noop (document_id : string) (s : Sys) (doc_info : DocInfo) :
  document_store s !! document_id = Some doc_info ->
  di_status doc_info = PROCESSING \/ di_status doc_info = COMPLETED ->
  (process_document document_id s).2 = s
  /\ exists resp, (process_document document_id s).1 = Ok resp
                  /\ pr_status resp = di_status doc_info.
Proof.
  intros Hd Hst. unfold process_document. rewrite Hd.
  destruct (decide (di_status doc_info = PROCESSING)) as [Hp|Hp].
  - split; [done|]. eexists; split; [done|]. by rewrite Hp.
  - destruct (decide (di_status doc_info = COMPLETED)) as [Hc|Hc]; [|tauto].
    split; [done|]. eexists; split; [done|]. by rewrite Hc.
Qed.

Lemma process_document_start (document_id : string) (s : Sys) (doc_info : DocInfo) :
  document_store s !! document_id = Some doc_info ->
  di_status doc_info <> PROCESSING -> di_status doc_info <> COMPLETED ->
  (process_document document_id s).2
  = set_document_store
      (<[document_id := set_status PROCESSING doc_info]> (document_store s))
      (set_scheduled (scheduled s ++ [document_id])%list s)
  /\ exists resp, (process_document document_id s).1 = Ok resp
                  /\ pr_status resp = PROCESSING.
Proof.
  intros Hd Hp Hc. unfold process_document. rewrite Hd.
  destruct (decide (di_status doc_info = PROCESSING)); [done|].
  destruct (decide (di_status doc_info = COMPLETED)); [done|].
  split; [done|]. eexists; split; done.
Qed.


(** ** The invariant holds in every reachable state *)

Lemma take_task_perm id l rest :
  take_task id l = Some rest -> l ≡ₚ id :: rest.
Proof.
  revert rest. induction l as [|x l IH]; intros rest; cbn; [done|].
  destruct (decide (x = id)) as [->|Hne].
  - by intros [= ->].
  - destruct (take_task id l) as [r|] eqn:E; cbn; [|done].
    intros [= <-]. rewrite (IH r eq_refl). apply Permutation_swap.
Qed.

Lemma take_ingesting_perm id l fp rest :
  take_ingesting id l = Some (fp, rest) -> l ≡ₚ (id, fp) :: rest.
Proof.
  revert rest. induction l as [|x l IH]; intros rest; cbn; [done|].
  destruct (decide (x.1 = id)) as [<-|Hne].
  - intros [= <- <-]. by destruct x.
  - destruct (take_ingesting id l) as [[fp' r]|] eqn:E; cbn; [|done].
    intros [= -> <-]. rewrite (IH r eq_refl). apply Permutation_swap.
Qed.

Lemma status_of_set_store s m id :
  status_of (set_document_store m s) id = di_status <$> m !! id.
Proof. done. Qed.

Lemma status_of_insert_gen s0 s m id d id' :
  m = document_store s ->
  status_of (set_document_store (<[id := d]> m) s0) id'
  = if decide (id = id') then Some (di_status d) else status_of s id'.
Proof.
  intros ->. unfold status_of. cbn. rewrite lookup_insert. by case_decide.
Qed.

Lemma status_of_insert s id d id' :
  status_of (set_document_store (<[id := d]> (document_store s)) s) id'
  = if decide (id = id') then Some (di_status d) else status_of s id'.
Proof. by apply status_of_insert_gen. Qed.

Lemma status_of_mark_failed id e s id' :
  status_of (mark_failed id e s) id'
  = if decide (id = id') then (fun _ => FAILED) <$> status_of s id' else status_of s id'.
Proof.
  unfold mark_failed. destruct (document_store s !! id) as [d|] eqn:E.
  - rewrite status_of_insert. case_decide; [|done]. subst.
    unfold status_of. by rewrite E.
  - case_decide; [|done]. subst. unfold status_of. by rewrite E.
Qed.

Lemma mark_failed_tasks id e s : tasks (mark_failed id e s) = tasks s.
Proof. unfold mark_failed. by destruct (document_store s !! id). Qed.

Lemma mark_failed_rag id e s : rag_services (mark_failed id e s) = rag_services s.
Proof. unfold mark_failed. by destruct (document_store s !! id). Qed.

Lemma mark_failed_scheduled id e s : scheduled (mark_failed id e s) = scheduled s.
Proof. unfold mark_failed. by destruct (document_store s !! id). Qed.
Lemma mark_failed_ingesting id e s : ingesting (mark_failed id e s) = ingesting s.
Proof. unfold mark_failed. by destruct (document_store s !! id). Qed.
Lemma mark_failed_notifying id e s : notifying (mark_failed id e s) = notifying s.
Proof. unfold mark_failed. by destruct (document_store s !! id). Qed.

Section Invariant.

Context (settings : Settings).

Lemma sys_inv_initial : sys_inv settings initial_sys.
Proof.
  split; cbn; try (intros id H; by apply elem_of_nil in H).
  - constructor.
  - intros id. unfold status_of. cbn. by rewrite lookup_empty.
  - intros id rag. by rewrite lookup_empty.
Qed.

Lemma sys_inv_upload id now fs file s :
  ~ in_use id s -> sys_inv settings s ->
  sys_inv settings (upload_document settings id now fs file s).2.
Proof.
  intros Hfresh I. unfold upload_document.
  destruct (negb _); [done|]. destruct (_ >? _)%Z; [done|].
  destruct (fs _); [done|]. cbn [snd].
  assert (Hst : status_of s id = None).
  { unfold status_of. destruct (document_store s !! id) eqn:E; [|done].
    exfalso. apply Hfresh. left. by rewrite E. }
  destruct I as [Hnd Hs Hi Hn Hr Hb]. split; cbn [scheduled ingesting notifying
    rag_services set_document_store]; try done.
  - intros id' Hin. rewrite status_of_insert. case_decide; [|auto]. subst.
    exfalso. apply Hfresh. right; left. done.
  - intros id' Hin. rewrite status_of_insert. case_decide; [|auto]. subst.
    exfalso. apply Hfresh. right; right; left. done.
  - intros id' Hin. rewrite status_of_insert. case_decide; [|auto]. subst.
    exfalso. apply Hfresh. right; right; right. done.
  - intros id'. rewrite status_of_insert. case_decide; [done|auto].
Qed.

Lemma sys_inv_process id s :
  sys_inv settings s -> sys_inv settings (process_document id s).2.
Proof.
  intros I. destruct (document_store s !! id) as [d|] eqn:Hd.
  2:{ unfold process_document. by rewrite Hd. }
  destruct (decide (di_status d = PROCESSING \/ di_status d = COMPLETED)) as [Hst|Hst].
  { destruct (process_document_noop id s d Hd Hst) as [-> _]. done. }
  destruct (process_document_start id s d Hd) as [-> _]; [tauto..|].
  assert (Hs0 : status_of s id = Some (di_status d)).
  { unfold status_of. by rewrite Hd. }
  destruct I as [Hnd Hs Hi Hn Hr Hb].
  assert (Hnot : id ∉ tasks s).
  { unfold tasks. rewrite !elem_of_app. intros [H|[H|H]].
    - apply Hs in H. rewrite Hs0 in H. destruct H as [H|H]; [done|].
      injection H as H. tauto.
    - apply Hi in H. rewrite Hs0 in H. destruct H as [H|H]; [done|].
      injection H as H. tauto.
    - apply Hn in H. rewrite Hs0 in H. destruct H as [H|H]; [done|].
      injection H as H. tauto. }
  split; cbn [scheduled ingesting notifying rag_services set_document_store
              set_scheduled]; try done.
  - unfold tasks in *. cbn [scheduled ingesting notifying set_document_store
                            set_scheduled].
    rewrite <- app_assoc. cbn [app]. rewrite <- Permutation_middle.
    apply NoDup_cons. done.
  - intros id'. rewrite elem_of_app, list_elem_of_singleton, (status_of_insert_gen _ s) by done.
    intros [H| ->].
    + case_decide; [by right|]. apply Hs in H. done.
    + case_decide; [by right|done].
  - intros id' H. rewrite (status_of_insert_gen _ s) by done. case_decide; [by right|auto].
  - intros id' H. rewrite (status_of_insert_gen _ s) by done. case_decide; [|auto].
    subst. exfalso. apply Hnot. unfold tasks. rewrite !elem_of_app. auto.
  - intros id'. rewrite (status_of_insert_gen _ s) by done. case_decide; [done|auto].
Qed.

Lemma sys_inv_delete id fs s :
  sys_inv settings s -> sys_inv settings (delete_document id fs s).2.
Proof.
  intros I. unfold delete_document.
  destruct (document_store s !! id) as [d|] eqn:Hd; [|done].
  destruct fs; [done|]. cbn [snd].
  assert (Hst : forall id', status_of
            (set_rag_services (delete id (rag_services s))
               (set_document_store (delete id (document_store s)) s)) id'
            = if decide (id = id') then None else status_of s id').
  { intros id'. unfold status_of. cbn. rewrite lookup_delete. by case_decide. }
  destruct I as [Hnd Hs Hi Hn Hr Hb].
  split; cbn [scheduled ingesting notifying rag_services set_document_store
              set_rag_services]; try done.
  - intros id' H. rewrite Hst. case_decide; auto.
  - intros id' H. rewrite Hst. case_decide; auto.
  - intros id' H. rewrite Hst. case_decide; auto.
  - intros id'. rewrite Hst. case_decide; [done|].
    rewrite lookup_delete_ne by done. auto.
  - intros id' rag. rewrite lookup_delete. case_decide; [done|]. auto.
Qed.

Lemma sys_inv_start id rest s :
  take_task id (scheduled s) = Some rest ->
  sys_inv settings s ->
  sys_inv settings (background_start id (set_scheduled rest s)).
Proof.
  intros Ht I. apply take_task_perm in Ht.
  destruct I as [Hnd Hs Hi Hn Hr Hb].
  assert (Hnd' : NoDup (id :: rest ++ (ingesting s).*1 ++ notifying s)).
  { unfold tasks in Hnd. by rewrite Ht in Hnd. }
  apply NoDup_cons in Hnd' as [Hnot Hnd'].
  assert (Hsub : forall id', id' ∈ rest -> id' ∈ scheduled s).
  { intros id' H. rewrite Ht. by right. }
  unfold background_start. cbn [document_store set_scheduled].
  destruct (document_store s !! id) as [d|] eqn:Hd.
  - set (s' := set_ingesting _ _).
    assert (Hst : forall id', status_of s' id'
              = if decide (id = id') then Some PROCESSING else status_of s id').
    { intros id'. unfold status_of. cbn. rewrite lookup_insert. by case_decide. }
    split; try done.
    + unfold tasks. cbn. rewrite fmap_app. cbn [fmap list_fmap fst].
      rewrite <- !app_assoc. cbn [app].
      rewrite (app_assoc rest), <- Permutation_middle, <- app_assoc.
      by apply NoDup_cons.
    + intros id' H. rewrite Hst. case_decide; [by right|]. cbn in H. auto.
    + intros id'. cbn. rewrite fmap_app, elem_of_app. cbn.
      rewrite list_elem_of_singleton, Hst.
      intros [H| ->]; case_decide; auto; done.
    + intros id' H. rewrite Hst. cbn in H.
      case_decide; [|auto]. subst. exfalso. apply Hnot.
      rewrite !elem_of_app. auto.
    + intros id'. rewrite Hst. case_decide; [done|]. cbn. auto.
  - split; cbn [scheduled ingesting notifying rag_services set_scheduled]; try done.
    intros id' H. apply Hs. auto.
Qed.

Lemma sys_inv_notify id rest outcome s :
  take_task id (notifying s) = Some rest ->
  sys_inv settings s ->
  sys_inv settings (background_notify id outcome (set_notifying rest s)).
Proof.
  intros Ht I. apply take_task_perm in Ht.
  destruct I as [Hnd Hs Hi Hn Hr Hb].
  assert (Hnd' : NoDup (id :: scheduled s ++ (ingesting s).*1 ++ rest)).
  { unfold tasks in Hnd. rewrite Ht in Hnd.
    revert Hnd. by rewrite app_assoc, <- Permutation_middle, <- app_assoc. }
  apply NoDup_cons in Hnd' as [Hnot Hnd'].
  assert (Hsub : forall id', id' ∈ rest -> id' ∈ notifying s).
  { intros id' H. rewrite Ht. by right. }
  assert (I' : sys_inv settings (set_notifying rest s)).
  { split; cbn [scheduled ingesting notifying rag_services set_notifying]; auto.
    intros id' H. apply Hn. auto. }
  unfold background_notify. destruct outcome as [e|]; [|done].
  clear Hnd Hs Hi Hn Hr Hb. destruct I' as [Hnd Hs Hi Hn Hr Hb].
  cbn [scheduled ingesting notifying rag_services set_notifying] in *.
  assert (Hst0 : forall id', status_of (set_notifying rest s) id' = status_of s id')
    by done.
  split.
  - by rewrite mark_failed_tasks.
  - intros id'. rewrite mark_failed_scheduled, status_of_mark_failed.
    cbn [scheduled set_notifying]. intros H. case_decide; [|auto]. subst.
    exfalso. apply Hnot. rewrite !elem_of_app. auto.
  - intros id'. rewrite mark_failed_ingesting, status_of_mark_failed.
    cbn [ingesting set_notifying]. intros H. case_decide; [|auto]. subst.
    exfalso. apply Hnot. rewrite !elem_of_app. auto.
  - intros id'. rewrite mark_failed_notifying, status_of_mark_failed.
    cbn [notifying set_notifying]. intros H. case_decide; [|auto]. subst.
    exfalso. apply Hnot. rewrite !elem_of_app. auto.
  - intros id'. rewrite mark_failed_rag, status_of_mark_failed.
    case_decide; [|auto]. rewrite Hst0.
    destruct (status_of s id'); cbn; done.
  - intros id' rag. rewrite mark_failed_rag. auto.
Qed.

Lemma sys_inv_ingest id svc t file_path rest s :
  take_ingesting id (ingesting s) = Some (file_path, rest) ->
  sys_inv settings s ->
  sys_inv settings (background_ingest settings svc t id file_path (set_ingesting rest s)).
Proof.
  intros Ht I. apply take_ingesting_perm in Ht.
  destruct I as [Hnd Hs Hi Hn Hr Hb].
  assert (Hfst : (ingesting s).*1 ≡ₚ id :: rest.*1).
  { by rewrite Ht. }
  assert (Hnd' : NoDup (id :: scheduled s ++ rest.*1 ++ notifying s)).
  { unfold tasks in Hnd. rewrite Hfst in Hnd.
    revert Hnd. cbn [app]. by rewrite <- Permutation_middle. }
  apply NoDup_cons in Hnd' as [Hnot Hnd'].
  assert (Hsub : forall id', id' ∈ rest.*1 -> id' ∈ (ingesting s).*1).
  { intros id' H. rewrite Hfst. by right. }
  assert (Hid : status_of s id = None \/ status_of s id = Some PROCESSING).
  { apply Hi. rewrite Hfst. by left. }
  set (s0 := set_ingesting rest s).
  assert (I0 : sys_inv settings s0).
  { split; cbn; auto. intros id' H. apply Hi. auto. }
  unfold background_ingest.
  destruct (ingest settings svc id file_path initial_world) as [[[c rag]|e] w] eqn:Ei.
  - cbn [document_store set_rag_services].
    destruct (document_store s0 !! id) as [d|] eqn:Hd.
    + set (s' := set_notifying _ _).
      assert (Hst : forall id', status_of s' id'
                = if decide (id = id') then Some COMPLETED else status_of s id').
      { intros id'. unfold status_of. cbn. rewrite lookup_insert. by case_decide. }
      split.
      * unfold tasks. cbn. rewrite !app_assoc, <- Permutation_cons_append.
        rewrite <- !app_assoc. by apply NoDup_cons.
      * intros id' H. rewrite Hst. cbn in H. case_decide; [|auto]. subst.
        exfalso. apply Hnot. rewrite !elem_of_app. auto.
      * intros id' H. rewrite Hst. cbn in H. case_decide; [|auto]. subst.
        exfalso. apply Hnot. rewrite !elem_of_app. auto.
      * intros id'. cbn. rewrite elem_of_app, list_elem_of_singleton, Hst.
        intros [H| ->]; case_decide; auto; done.
      * intros id'. rewrite Hst. cbn. rewrite lookup_insert.
        case_decide; [done|]. auto.
      * intros id' rag'. cbn. rewrite lookup_insert. case_decide; [|auto].
        subst. intros [= <-]. eauto.
    + destruct I0 as [Hnd0 Hs0 Hi0 Hn0 Hr0 Hb0]. split; cbn; try done.
      * intros id'. rewrite lookup_insert. case_decide; [done|]. auto.
      * intros id' rag'. rewrite lookup_insert. case_decide; [|auto].
        subst. intros [= <-]. eauto.
  - destruct I0 as [Hnd0 Hs0 Hi0 Hn0 Hr0 Hb0]. split.
    + by rewrite mark_failed_tasks.
    + intros id'. rewrite mark_failed_scheduled, status_of_mark_failed.
      intros H. case_decide; [|auto]. subst.
      exfalso. apply Hnot. cbn in H. rewrite !elem_of_app. auto.
    + intros id'. rewrite mark_failed_ingesting, status_of_mark_failed.
      intros H. case_decide; [|auto]. subst.
      exfalso. apply Hnot. cbn in H. rewrite !elem_of_app. auto.
    + intros id'. rewrite mark_failed_notifying, status_of_mark_failed.
      intros H. case_decide; [|auto]. subst.
      exfalso. apply Hnot. cbn in H. rewrite !elem_of_app. auto.
    + intros id'. rewrite mark_failed_rag, status_of_mark_failed.
      case_decide; [|auto]. destruct (status_of s0 id'); cbn; done.
    + intros id' rag'. rewrite mark_failed_rag. auto.
Qed.

(** Every operation keeps the invariant. *)
Lemma sys_inv_exec o s s' :
  exec settings o s = Some s' -> sys_inv settings s -> sys_inv settings s'.
Proof.
  destruct o as [id now fs file|id| | | |id fs|id|id svc t|id outcome]; cbn [exec].
  - case_decide; [done|]. intros [= <-]. by apply sys_inv_upload.
  - intros [= <-]. apply sys_inv_process.
  - by intros [= <-].
  - by intros [= <-].
  - by intros [= <-].
  - intros [= <-]. apply sys_inv_delete.
  - destruct (take_task id (scheduled s)) as [rest|] eqn:E; [|done].
    cbn. intros [= <-]. by apply sys_inv_start.
  - destruct (take_ingesting id (ingesting s)) as [[fp rest]|] eqn:E; [|done].
    cbn. intros [= <-]. by apply sys_inv_ingest.
  - destruct (take_task id (notifying s)) as [rest|] eqn:E; [|done].
    cbn. intros [= <-]. by apply sys_inv_notify.
Qed.

Lemma sys_inv_run ops s s' :
  run settings ops s = Some s' -> sys_inv settings s -> sys_inv settings s'.
Proof.
  revert s. induction ops as [|o ops IH]; intros s; cbn.
  - by intros [= <-].
  - destruct (exec settings o s) as [s1|] eqn:E; [|done]. cbn.
    intros Hr I. apply (IH s1 Hr). by eapply sys_inv_exec.
Qed.

Lemma reachable_inv s : reachable settings s -> sys_inv settings s.
Proof. intros [ops Hr]. eapply sys_inv_run; [done|]. apply sys_inv_initial. Qed.

End Invariant.

(** A reachable state stays reachable after one more operation. *)
Lemma reachable_exec (settings : Settings) (o : op) (s s' : Sys) :
  reachable settings s -> exec settings o s = Some s' -> reachable settings s'.
Proof.
  intros [ops Hr] He. exists (ops ++ [o])%list.
  assert (forall ops s0, run settings ops s0 = Some s ->
            run settings (ops ++ [o]) s0 = Some s') as H.
  { clear Hr. induction ops0 as [|o' ops' IH]; intros s0; cbn.
    - intros [= ->]. by rewrite He.
    - destruct (exec settings o' s0); [|done]. cbn. apply IH. }
  by apply H.
Qed.

(** ** Queries on documents that are not ready *)

(** C3. For a registered document whose status is not COMPLETED,
    [query_document] of [queries.py] returns a response (it does not raise)
    with empty [sources], empty [related_images], [confidence_score] zero and
    a [status_info] that carries the status; and the answers given for two
    different statuses are different. *)
Theorem query_document_not_completed (q : QueryServices) (request : QueryRequest)
    (s : Sys) (doc_info : DocInfo) :
  document_store s !! req_document_id request = Some doc_info ->
  di_status doc_info <> COMPLETED ->
  exists r,
    query_document q request s = Ok r
    /\ sources r = [] /\ related_images r = []
    /\ confidence_score r = Some 0%Q
    /\ (exists si, status_info r = Some si
                   /\ si_status si = status_value (di_status doc_info))
    /\ (forall q' s' doc_info' r',
          document_store s' !! req_document_id request = Some doc_info' ->
          di_status doc_info' <> COMPLETED ->
          di_status doc_info' <> di_status doc_info ->
          query_document q' request s' = Ok r' ->
          answer r' <> answer r).
Proof.
  intros Hd Hst. unfold query_document. rewrite Hd.
  destruct (di_status doc_info) eqn:E; try congruence;
    eexists; (split; [reflexivity|]); repeat split; eauto;
    intros q' s' d' r' Hd' Hst' Hne; rewrite Hd';
    destruct (di_status d'); try congruence;
    intros [= <-]; cbn; discriminate.
Qed.

Lemma query_document_not_completed_witness :
  exists s, run default_settings Sample.uploaded initial_sys = Some s
    /\ exists r, query_document Sample.answering (Sample.ask "d1") s = Ok r
         /\ sources r = [] /\ related_images r = []
         /\ confidence_score r = Some 0%Q.
Proof.
  eexists. split; [vm_compute; reflexivity|].
  destruct (query_document_not_completed Sample.answering (Sample.ask "d1")
              (upload_document default_settings "d1" 0 Sample.disk_ok Sample.report initial_sys).2
              {| di_filename := "report.pdf";
                 di_file_path := "storage/uploads/d1_report.pdf";
                 di_file_size := 2048; di_upload_time := 0;
                 di_status := PENDING; di_processing_time := None;
                 di_elements_count := None; di_error_message := None |})
    as (r & Hr & Hs & Hi & Hc & _).
  - vm_compute; reflexivity.
  - discriminate.
  - exists r. auto.
Defined.

(** ** Registration *)

(** C8, as the specification states it, fails: a file whose name does not
    end in ".pdf" is refused with [InvalidFileError] although the storage
    accepts it, and so is a file larger than [MAX_FILE_SIZE]; nothing is
    registered. *)
Lemma upload_document_rejects_name_and_size :
  upload_document default_settings "d1" 0 Sample.disk_ok Sample.notes initial_sys
    = (Err (InvalidFileError "Only PDF files are allowed"), initial_sys)
  /\ upload_document default_settings "d1" 0 Sample.disk_ok
       {| uf_filename := "atlas.pdf"; uf_size := 52428801 |} initial_sys
     = (Err (InvalidFileError "File too large. Max size: 52428800 bytes"), initial_sys).
Proof. split; vm_compute; reflexivity. Qed.

(** C8, amended.  For a file whose name ends in ".pdf" and whose size is at
    most [MAX_FILE_SIZE], [upload_document] registers the document in status
    PENDING, [get_document_status] then reports PENDING, and the only failure
    is the one of the storage (HTTP 500), which registers nothing.  Every
    file whose name does not end in ".pdf" is refused with
    [InvalidFileError], and so is every file larger than [MAX_FILE_SIZE];
    a refusal registers nothing, whatever the storage would have done. *)
Theorem upload_document_pending (settings : Settings) (document_id : string) (now : Z)
    (fs : string -> option exn) (file : UploadFile) (s : Sys) :
  let file_path :=
    UPLOAD_FOLDER settings ++ "/" ++ document_id ++ "_" ++ uf_filename file in
  let out := upload_document settings document_id now fs file s in
  (endswith (uf_filename file) ".pdf" = true ->
   (uf_size file <= MAX_FILE_SIZE settings)%Z ->
   match fs file_path with
   | None =>
       (exists resp, out.1 = Ok resp /\ up_document_id resp = document_id
                     /\ up_status resp = PENDING)
       /\ status_of out.2 document_id = Some PENDING
       /\ (exists st, get_document_status document_id out.2 = Ok st
                      /\ ds_status st = PENDING)
   | Some _ => out = (Err (HTTPException 500 "Upload failed"), s)
   end)
  /\ (endswith (uf_filename file) ".pdf" = false ->
      out = (Err (InvalidFileError "Only PDF files are allowed"), s))
  /\ (endswith (uf_filename file) ".pdf" = true ->
      (uf_size file > MAX_FILE_SIZE settings)%Z ->
      out = (Err (InvalidFileError ("File too large. Max size: "
                                    ++ pretty (MAX_FILE_SIZE settings) ++ " bytes")), s)).
Proof.
  intros file_path out. subst out. unfold upload_document. fold file_path.
  split; [|split].
  - intros Hname Hsize. rewrite Hname. cbn [negb].
    destruct (Z.gtb_spec (uf_size file) (MAX_FILE_SIZE settings)) as [Hgt|_]; [lia|].
    destruct (fs file_path) as [e|]; [reflexivity|].
    cbn [fst snd]. split; [eexists; split; [reflexivity|split; reflexivity]|].
    unfold status_of, get_document_status. cbn [document_store set_document_store].
    rewrite lookup_insert_eq. cbn. split; [reflexivity|].
    eexists; split; reflexivity.
  - intros Hname. by rewrite Hname.
  - intros Hname Hsize. rewrite Hname. cbn [negb].
    destruct (Z.gtb_spec (uf_size file) (MAX_FILE_SIZE settings)) as [_|Hle]; [done|lia].
Qed.

Lemma upload_document_pending_witness :
  status_of
    (upload_document default_settings "d1" 0 Sample.disk_ok Sample.report initial_sys).2
    "d1" = Some PENDING
  /\ upload_document default_settings "d1" 0 Sample.disk_ok Sample.notes initial_sys
     = (Err (InvalidFileError "Only PDF files are allowed"), initial_sys)
  /\ upload_document default_settings "d1" 0 Sample.disk_ok
       {| uf_filename := "atlas.pdf"; uf_size := 52428801 |} initial_sys
     = (Err (InvalidFileError "File too large. Max size: 52428800 bytes"), initial_sys).
Proof.
  split; [|split].
  - pose proof (proj1 (upload_document_pending default_settings "d1" 0 Sample.disk_ok
                         Sample.report initial_sys)) as H.
    cbn [Sample.disk_ok] in H.
    apply H; [vm_compute; reflexivity | vm_compute; discriminate].
  - apply (proj1 (proj2 (upload_document_pending default_settings "d1" 0 Sample.disk_ok
                           Sample.notes initial_sys))).
    vm_compute. reflexivity.
  - apply (proj2 (proj2 (upload_document_pending default_settings "d1" 0 Sample.disk_ok
                           {| uf_filename := "atlas.pdf"; uf_size := 52428801 |}
                           initial_sys)));
      vm_compute; reflexivity.
Defined.

(** ** Starting the ingestion *)

(** C4. On a registered document, [process_document] is a no-op when the
    status is PROCESSING or COMPLETED: the state is unchanged, nothing is
    scheduled, and the response carries the current status.  A second call
    right after a first one is always such a no-op, so two calls in
    succession schedule at most one ingestion, and exactly one from PENDING;
    after them no document has two background tasks. *)
Theorem process_document_idempotent (settings : Settings) (document_id : string)
    (s : Sys) (doc_info : DocInfo) :
  reachable settings s ->
  document_store s !! document_id = Some doc_info ->
  let first := process_document document_id s in
  let second := process_document document_id first.2 in
  (di_status doc_info = PROCESSING \/ di_status doc_info = COMPLETED ->
     first.2 = s
     /\ exists resp, first.1 = Ok resp /\ pr_status resp = di_status doc_info)
  /\ second.2 = first.2
  /\ (exists resp, second.1 = Ok resp
                   /\ status_of first.2 document_id = Some (pr_status resp))
  /\ (di_status doc_info = PENDING ->
        scheduled second.2 = (scheduled s ++ [document_id])%list)
  /\ (exists l, scheduled second.2 = (scheduled s ++ l)%list /\ length l <= 1)
  /\ NoDup (tasks second.2).
Proof.
  intros Hreach Hd first second.
  assert (Hnd : NoDup (tasks second.2)).
  { apply (inv_nodup settings), reachable_inv.
    apply (reachable_exec settings (Process document_id) first.2); [|done].
    by apply (reachable_exec settings (Process document_id) s). }
  split; [intros Hst; by apply process_document_noop|].
  assert (exists d', document_store first.2 !! document_id = Some d'
                     /\ (di_status d' = PROCESSING \/ di_status d' = COMPLETED)
                     /\ exists l, scheduled first.2 = (scheduled s ++ l)%list
                                  /\ length l <= 1
                                  /\ (di_status doc_info = PENDING -> l = [document_id]))
    as (d' & Hd' & Hst' & l & Hl & Hlen & Hpend).
  { destruct (decide (di_status doc_info = PROCESSING \/ di_status doc_info = COMPLETED))
      as [Hst|Hst].
    - destruct (process_document_noop _ _ _ Hd Hst) as [E _]. subst first. rewrite E.
      exists doc_info. repeat split; try done.
      exists []. rewrite app_nil_r. repeat split; [cbn; lia|].
      intros Hp. destruct Hst; congruence.
    - destruct (process_document_start document_id s doc_info Hd) as [E _];
        [tauto..|]. subst first. rewrite E.
      exists (set_status PROCESSING doc_info).
      cbn [document_store set_document_store scheduled set_scheduled].
      rewrite lookup_insert_eq. repeat split; [by left|].
      exists [document_id]. repeat split. cbn; lia. }
  destruct (process_document_noop _ _ _ Hd' Hst') as (E & resp & Hr & Hs).
  subst second. rewrite E. repeat split.
  - exists resp. split; [done|]. unfold status_of. rewrite Hd'. cbn. by rewrite Hs.
  - intros Hp. rewrite Hl, (Hpend Hp). done.
  - eauto.
  - by rewrite <- E.
Qed.

Lemma process_document_idempotent_witness :
  exists s, run default_settings Sample.uploaded initial_sys = Some s
    /\ scheduled (process_document "d1" (process_document "d1" s).2).2 = ["d1"].
Proof.
  eexists. split; [vm_compute; reflexivity|].
  refine (proj1 (proj2 (proj2 (proj2
    (process_document_idempotent default_settings "d1" _
       {| di_filename := "report.pdf";
          di_file_path := "storage/uploads/d1_report.pdf";
          di_file_size := 2048; di_upload_time := 0;
          di_status := PENDING; di_processing_time := None;
          di_elements_count := None; di_error_message := None |} _ _)))) _).
  - exists Sample.uploaded. vm_compute. reflexivity.
  - vm_compute; reflexivity.
  - reflexivity.
Defined.

(** ** The two query handlers *)

(** C2, on [query_document] of [documents.py], the handler of
    [POST /query/{document_id}]: a failure of the retriever on a COMPLETED
    document reaches the caller as [HTTPException] 500, and a PENDING
    document is answered with [HTTPException] 400, where [query_document] of
    [queries.py] returns a response with a [status_info] for both. *)
Theorem documents_query_document_raises :
  (exists s, run default_settings Sample.completed initial_sys = Some s
     /\ status_of s "d1" = Some COMPLETED
     /\ documents_query_document Sample.retriever_down "d1" (Sample.ask "d1") s
        = Err (HTTPException 500 "Query failed: Query failed: connection refused")
     /\ query_document Sample.retriever_down (Sample.ask "d1") s
        = Ok (error_response "d1"
                (ProcessingError "Query failed: connection refused" "d1")))
  /\ (exists s, run default_settings Sample.uploaded initial_sys = Some s
        /\ status_of s "d1" = Some PENDING
        /\ documents_query_document Sample.answering "d1" (Sample.ask "d1") s
           = Err (HTTPException 400 "Document is not processed yet")
        /\ query_document Sample.answering (Sample.ask "d1") s
           = Ok (pending_response "d1")).
Proof.
  split; eexists; (split; [vm_compute; reflexivity|]);
    repeat split; vm_compute; reflexivity.
Qed.

(** ** The image loop *)

(** C10, on one image that cannot be written to disk: the description
    obtained before the write stays in [image_descriptions] and the handler
    appends the placeholder as well, so the list has two entries where
    [image_metadata] has one. *)
Theorem process_and_save_images_misaligned :
  let out := process_and_save_images default_settings
               (Sample.disk_full Sample.one_text_one_image)
               (Sample.processor_with_images ["aGVsbG8="], initial_world) in
  out.1 = Ok tt
  /\ image_descriptions out.2.1
     = [ "A circuit diagram.";
         "Error processing image: [Errno 28] No space left on device" ]
  /\ image_metadata out.2.1
     = Some [ {| meta_filename := None; meta_path := None;
                 meta_description :=
                   "Error processing image: [Errno 28] No space left on device";
                 original_index := 0; meta_unique_id := None |} ].
Proof. vm_compute. repeat split; reflexivity. Qed.

(** The run of the ingestion on that document and that disk: the extra
    description makes [build_vector_database] index past [img_ids], and the
    whole document fails. *)
Example ingest_fails_on_full_disk :
  (ingest default_settings (Sample.disk_full Sample.one_text_one_image) "d1"
     "storage/uploads/d1_report.pdf" initial_world).1
  = Err (ProcessingError "Vector database build failed: list index out of range" "d1").
Proof. vm_compute. reflexivity. Qed.
(** ** The life cycle of a document *)

Section Lifecycle.

Context (settings : Settings).

Lemma status_of_process id s id' :
  status_of (process_document id s).2 id' = status_of s id'
  \/ (id = id' /\ status_of (process_document id s).2 id' = Some PROCESSING
      /\ (status_of s id' = Some PENDING \/ status_of s id' = Some FAILED)).
Proof.
  destruct (document_store s !! id) as [d|] eqn:Hd.
  2:{ left. unfold process_document. by rewrite Hd. }
  destruct (decide (di_status d = PROCESSING \/ di_status d = COMPLETED)) as [Hst|Hst].
  { destruct (process_document_noop id s d Hd Hst) as [-> _]. by left. }
  destruct (process_document_start id s d Hd) as [-> _]; [tauto..|].
  rewrite (status_of_insert_gen _ s) by done. case_decide; [|by left].
  subst. right. repeat split. unfold status_of. rewrite Hd. cbn.
  destruct (di_status d); tauto.
Qed.

Lemma take_task_elem id l rest : take_task id l = Some rest -> id ∈ l.
Proof. intros H. apply take_task_perm in H. rewrite H. by left. Qed.

Lemma take_ingesting_elem id l fp rest :
  take_ingesting id l = Some (fp, rest) -> id ∈ l.*1.
Proof. intros H. apply take_ingesting_perm in H. rewrite H. by left. Qed.

Lemma moves_forward_same o id st : moves_forward o id st st.
Proof. destruct st as [[]|]; cbn; auto; repeat split; auto; done. Qed.

Lemma status_of_upload id0 now fs file s id :
  ~ in_use id0 s ->
  status_of (upload_document settings id0 now fs file s).2 id = status_of s id
  \/ (id0 = id /\ status_of s id = None
      /\ status_of (upload_document settings id0 now fs file s).2 id = Some PENDING).
Proof.
  intros Huse. unfold upload_document. destruct (negb _); [by left|].
  destruct (_ >? _)%Z; [by left|]. destruct (fs _); [by left|].
  cbn [snd]. rewrite status_of_insert. case_decide; [|by left]. subst. right.
  split; [done|]. split; [|done].
  unfold status_of. destruct (document_store s !! id) eqn:E; [|done].
  exfalso. apply Huse. left. by rewrite E.
Qed.

Lemma status_of_delete id0 fs s id :
  status_of (delete_document id0 fs s).2 id = status_of s id
  \/ status_of (delete_document id0 fs s).2 id = None.
Proof.
  unfold delete_document.
  destruct (document_store s !! id0) as [d|] eqn:Hd; [|by left].
  destruct fs; [by left|]. cbn [snd]. unfold status_of. cbn.
  rewrite lookup_delete. case_decide; [by right|by left].
Qed.

Lemma status_of_start id0 s0 s id :
  document_store s0 = document_store s ->
  status_of s id0 = None \/ status_of s id0 = Some PROCESSING ->
  status_of (background_start id0 s0) id = status_of s id.
Proof.
  intros E0 Hst. unfold background_start. rewrite E0.
  destruct (document_store s !! id0) as [d|] eqn:Hd.
  - unfold status_of in *. cbn. rewrite lookup_insert. case_decide; [|done].
    subst. rewrite Hd in *. cbn in *. destruct Hst as [?|?]; done.
  - unfold status_of. by rewrite E0.
Qed.

Lemma status_of_ingest svc t id0 fp s0 s id :
  document_store s0 = document_store s ->
  status_of s id0 = None \/ status_of s id0 = Some PROCESSING ->
  status_of (background_ingest settings svc t id0 fp s0) id = status_of s id
  \/ (id0 = id /\ status_of s id = Some PROCESSING
      /\ (status_of (background_ingest settings svc t id0 fp s0) id = Some COMPLETED
          \/ status_of (background_ingest settings svc t id0 fp s0) id = Some FAILED)).
Proof.
  intros E0 Hst. unfold background_ingest.
  destruct (ingest settings svc id0 fp initial_world) as [[[c rag]|e] w].
  - cbn [document_store set_rag_services]. rewrite E0.
    destruct (document_store s !! id0) as [d|] eqn:Hd.
    + unfold status_of in *. cbn. rewrite lookup_insert.
      case_decide; [|by left]. subst. right. rewrite Hd in *. cbn in *.
      destruct Hst as [?|?]; [done|]. auto.
    + left. unfold status_of. cbn. by rewrite E0.
  - rewrite status_of_mark_failed.
    assert (E : status_of s0 id = status_of s id) by (unfold status_of; by rewrite E0).
    rewrite E. case_decide; [|by left]. subst.
    destruct Hst as [-> | ->]; [by left|]. right. cbn. auto.
Qed.

Lemma status_of_notify id0 outcome s0 s id :
  document_store s0 = document_store s ->
  status_of s id0 = None \/ status_of s id0 = Some COMPLETED ->
  status_of (background_notify id0 outcome s0) id = status_of s id
  \/ (id0 = id /\ is_Some outcome /\ status_of s id = Some COMPLETED
      /\ status_of (background_notify id0 outcome s0) id = Some FAILED).
Proof.
  intros E0 Hst. unfold background_notify.
  assert (E : status_of s0 id = status_of s id) by (unfold status_of; by rewrite E0).
  destruct outcome as [e|]; [|by left].
  rewrite status_of_mark_failed, E. case_decide; [|by left]. subst.
  destruct Hst as [-> | ->]; [by left|]. right. cbn. eauto.
Qed.

(** One operation, from a reachable state. *)
Lemma exec_moves_forward (o : op) (s s' : Sys) (id : string) :
  reachable settings s ->
  exec settings o s = Some s' ->
  moves_forward o id (status_of s id) (status_of s' id).
Proof.
  intros Hreach Hexec. apply reachable_inv in Hreach.
  destruct Hreach as [Hnd Hs Hi Hn Hr Hb].
  destruct o as [id0 now fs file|id0| | | |id0 fs|id0|id0 svc t|id0 outcome];
    cbn [exec] in Hexec.
  - (* Upload *)
    case_decide as Huse; [done|]. injection Hexec as <-.
    destruct (status_of_upload id0 now fs file s id Huse) as [-> |(-> & -> & ->)];
      [apply moves_forward_same|].
    cbn. right. split; [done|]. by apply bool_decide_eq_true.
  - (* Process *)
    injection Hexec as <-.
    destruct (status_of_process id0 s id) as [-> |(-> & -> & [-> | ->])];
      [apply moves_forward_same|..]; cbn; right; right;
      (split; [done|by apply bool_decide_eq_true]).
  - injection Hexec as <-. apply moves_forward_same.
  - injection Hexec as <-. apply moves_forward_same.
  - injection Hexec as <-. apply moves_forward_same.
  - (* Delete *)
    injection Hexec as <-.
    destruct (status_of_delete id0 fs s id) as [-> | ->];
      [apply moves_forward_same|].
    destruct (status_of s id) as [[]|]; cbn; auto; repeat split; auto; done.
  - (* TaskStart *)
    destruct (take_task id0 (scheduled s)) as [rest|] eqn:Ht; [|done].
    cbn in Hexec. injection Hexec as <-.
    apply take_task_elem, Hs in Ht.
    rewrite (status_of_start id0 _ s id); [apply moves_forward_same|done..].
  - (* TaskIngest *)
    destruct (take_ingesting id0 (ingesting s)) as [[fp rest]|] eqn:Ht; [|done].
    cbn in Hexec. injection Hexec as <-.
    apply take_ingesting_elem, Hi in Ht.
    destruct (status_of_ingest svc t id0 fp (set_ingesting rest s) s id)
      as [-> |(_ & -> & [-> | ->])]; try done; apply moves_forward_same.
  - (* TaskNotify *)
    destruct (take_task id0 (notifying s)) as [rest|] eqn:Ht; [|done].
    cbn in Hexec. injection Hexec as <-.
    apply take_task_elem, Hn in Ht.
    destruct (status_of_notify id0 outcome (set_notifying rest s) s id)
      as [-> |(-> & [e ->] & -> & ->)]; try done; [apply moves_forward_same|].
    cbn. repeat split; try done. rewrite bool_decide_eq_false. done.
Qed.

Lemma reachable_run (ops : list op) (s s' : Sys) :
  reachable settings s -> run settings ops s = Some s' -> reachable settings s'.
Proof.
  revert s. induction ops as [|o ops IH]; intros s Hreach; cbn.
  - by intros [= <-].
  - destruct (exec settings o s) as [s1|] eqn:He; [|done]. cbn.
    apply IH. by apply (reachable_exec settings o s).
Qed.

(** A sequence of operations in which [uuid4] does not return [id]. *)
Lemma run_never_pending_again (ops : list op) (s s' : Sys) (id : string) :
  reachable settings s -> run settings ops s = Some s' ->
  Forall (fun o => is_upload id o = false) ops ->
  status_of s id <> Some PENDING -> status_of s' id <> Some PENDING.
Proof.
  revert s. induction ops as [|o ops IH]; intros s Hreach; cbn.
  { by intros [= <-]. }
  destruct (exec settings o s) as [s1|] eqn:He; [|done]. cbn.
  intros Hrun Hup Hst. apply Forall_cons in Hup as [Ho Hup].
  apply (IH s1); [by apply (reachable_exec settings o s)|done..|].
  pose proof (exec_moves_forward o s s1 id Hreach He) as Hm.
  destruct (status_of s id) as [[]|]; cbn in Hm; try done.
  - tauto.
  - destruct Hm as [-> |[-> |[-> _]]]; done.
  - destruct Hm as [-> |[_ Hm]]; [done|congruence].
Qed.

(** A sequence of operations that leaves out what takes a document out of
    the status [st]: the document keeps the status or is deleted. *)
Lemma run_keeps_status (leaves : op -> bool) (st : ProcessingStatus)
    (ops : list op) (s s' : Sys) (id : string) :
  (forall o before after,
     moves_forward o id before after -> is_upload id o = false -> leaves o = false ->
     before = Some st \/ before = None -> after = Some st \/ after = None) ->
  reachable settings s -> run settings ops s = Some s' ->
  Forall (fun o => is_upload id o = false) ops ->
  Forall (fun o => leaves o = false) ops ->
  status_of s id = Some st \/ status_of s id = None ->
  status_of s' id = Some st \/ status_of s' id = None.
Proof.
  intros Hstep. revert s. induction ops as [|o ops IH]; intros s Hreach; cbn.
  { by intros [= <-]. }
  destruct (exec settings o s) as [s1|] eqn:He; [|done]. cbn.
  intros Hrun Hup Hl Hst.
  apply Forall_cons in Hup as [Ho Hup]. apply Forall_cons in Hl as [Hlo Hl].
  apply (IH s1); [by apply (reachable_exec settings o s)|done..|].
  apply (Hstep o (status_of s id)); [by apply exec_moves_forward|done..].
Qed.

(** C1, amended.  For every sequence of operations from a reachable state:
    at every step of the sequence, a PENDING document stays PENDING, is
    deleted, or becomes PROCESSING through [process_document]; a COMPLETED
    document becomes neither PENDING nor PROCESSING; a FAILED document stays
    FAILED, is deleted, or becomes PROCESSING through [process_document],
    which starts the ingestion again.  Over the whole sequence, when [uuid4]
    does not return the identifier again: no document returns to PENDING; a
    PENDING document and a FAILED document keep their status, or are deleted,
    as long as [process_document] is not called on them; a COMPLETED document
    stays COMPLETED or is deleted, in the sequences in which the broadcast of
    its completion does not raise. *)
Theorem status_moves_forward (ops : list op) (s s' : Sys) (id : string) :
  reachable settings s ->
  run settings ops s = Some s' ->
  (forall ops1 o ops2 s1 s2,
     ops = (ops1 ++ o :: ops2)%list ->
     run settings ops1 s = Some s1 -> exec settings o s1 = Some s2 ->
     moves_forward o id (status_of s1 id) (status_of s2 id))
  /\ (Forall (fun o => is_upload id o = false) ops ->
      (status_of s id <> Some PENDING -> status_of s' id <> Some PENDING)
      /\ (status_of s id = Some PENDING ->
          Forall (fun o => is_process id o = false) ops ->
          status_of s' id = Some PENDING \/ status_of s' id = None)
      /\ (status_of s id = Some COMPLETED ->
          Forall (fun o => is_failed_notify id o = false) ops ->
          status_of s' id = Some COMPLETED \/ status_of s' id = None)
      /\ (status_of s id = Some FAILED ->
          Forall (fun o => is_process id o = false) ops ->
          status_of s' id = Some FAILED \/ status_of s' id = None)).
Proof.
  intros Hreach Hrun. split.
  { intros ops1 o ops2 s1 s2 _ H1 He. apply exec_moves_forward; [|done].
    by apply (reachable_run ops1 s). }
  intros Hup. split; [by apply (run_never_pending_again ops)|].
  split; [|split]; intros Hst Hl.
  - apply (run_keeps_status (is_process id) PENDING ops s); auto.
    intros o before after Hm Ho Hp [-> | ->]; cbn in Hm.
    + destruct Hm as [?|[?|[_ ?]]]; [auto..|congruence].
    + destruct Hm as [?|[_ ?]]; [auto|congruence].
  - apply (run_keeps_status (is_failed_notify id) COMPLETED ops s); auto.
    intros o before after Hm Ho Hp [-> | ->]; cbn in Hm.
    + destruct Hm as (_ & _ & Hm). by apply Hm.
    + destruct Hm as [?|[_ ?]]; [auto|congruence].
  - apply (run_keeps_status (is_process id) FAILED ops s); auto.
    intros o before after Hm Ho Hp [-> | ->]; cbn in Hm.
    + destruct Hm as [?|[?|[_ ?]]]; [auto..|congruence].
    + destruct Hm as [?|[_ ?]]; [auto|congruence].
Qed.

End Lifecycle.

(** C1, as the specification states it, fails: a FAILED document returns to
    PROCESSING when [process_document] is called on it again. *)
Lemma failed_returns_to_processing :
  ~ (forall (ops : list op) (s s' : Sys) (id : string),
       reachable default_settings s ->
       run default_settings ops s = Some s' ->
       Forall (fun o => is_upload id o = false) ops ->
       status_of s id = Some COMPLETED \/ status_of s id = Some FAILED ->
       status_of s' id <> Some PENDING /\ status_of s' id <> Some PROCESSING).
Proof.
  intros H.
  destruct (H [Process "d1"] (Sample.state_after Sample.failed)
              (Sample.state_after (Sample.failed ++ [Process "d1"])) "d1")
    as [_ Hp].
  - exists Sample.failed. vm_compute. reflexivity.
  - vm_compute. reflexivity.
  - by repeat constructor.
  - right. vm_compute. reflexivity.
  - apply Hp. vm_compute. reflexivity.
Qed.

(** A COMPLETED document whose broadcast of the completion raises is marked
    FAILED by the handler of the background task, and [process_document]
    then takes it back to PROCESSING. *)
Example completed_returns_to_processing :
  status_of (Sample.state_after SampleRuns.awaiting_broadcast) "d1" = Some COMPLETED
  /\ status_of (Sample.state_after
                  (SampleRuns.awaiting_broadcast
                   ++ [TaskNotify "d1" (Some (Raised "connection closed"))])) "d1"
     = Some FAILED
  /\ status_of (Sample.state_after
                  (SampleRuns.awaiting_broadcast
                   ++ [TaskNotify "d1" (Some (Raised "connection closed"));
                       Process "d1"])) "d1"
     = Some PROCESSING.
Proof. vm_compute. repeat split; reflexivity. Qed.

(** The sequence "uploaded, ingestion aborted by the parser, status asked,
    document deleted": the FAILED document has not returned to PENDING, and
    as [process_document] was not called it is FAILED or deleted. *)
Lemma status_moves_forward_witness :
  status_of (Sample.state_after (Sample.failed ++ [GetStatus "d1"; Delete "d1" None]))
            "d1" <> Some PENDING
  /\ (status_of (Sample.state_after (Sample.failed ++ [GetStatus "d1"; Delete "d1" None]))
                "d1" = Some FAILED
      \/ status_of (Sample.state_after (Sample.failed ++ [GetStatus "d1"; Delete "d1" None]))
                   "d1" = None).
Proof.
  destruct (status_moves_forward default_settings [GetStatus "d1"; Delete "d1" None]
              (Sample.state_after Sample.failed)
              (Sample.state_after (Sample.failed ++ [GetStatus "d1"; Delete "d1" None]))
              "d1") as [_ H].
  - exists Sample.failed. vm_compute. reflexivity.
  - vm_compute. reflexivity.
  - destruct H as (H1 & _ & _ & H4).
    + by repeat constructor.
    + split.
      * apply H1. vm_compute. discriminate.
      * apply H4; [vm_compute; reflexivity|by repeat constructor].
Defined.

(** [query_document] of [queries.py] never raises on a registered document:
    in a reachable state a COMPLETED document has its [RAGService], and a
    failure of the query becomes a response. *)
Lemma query_document_total (settings : Settings) (q : QueryServices)
    (request : QueryRequest) (s : Sys) :
  reachable settings s ->
  is_Some (document_store s !! req_document_id request) ->
  exists r, query_document q request s = Ok r /\ is_Some (status_info r).
Proof.
  intros Hreach [d Hd]. apply reachable_inv in Hreach.
  unfold query_document. rewrite Hd.
  destruct (di_status d) eqn:Est; try (eexists; split; [done|]; by eexists).
  destruct (inv_rag _ _ Hreach (req_document_id request)) as [rag Hrag].
  { unfold status_of. rewrite Hd. cbn. by rewrite Est. }
  rewrite Hrag. destruct (rag_query _ _ _ _); eexists; split; try done; by eexists.
Qed.

(** ** The image loop *)

Section ImageLoopFacts.

Context (settings : Settings) (svc : Services).

Lemma describe_image_eq image_b64 p w :
  _describe_image svc image_b64 (p, w)
  = (Ok (description_of svc (vision_calls w) image_b64), (p, bump_vision w)).
Proof.
  unfold _describe_image, description_of, try_except, bind, the_world, on_world,
    modify, lift_result, ret, raise. cbn.
  destruct (generate_content svc (vision_calls w) image_b64); reflexivity.
Qed.

Lemma process_image_eq i image_b64 s :
  process_image settings svc i image_b64 s = (Ok tt, image_step settings svc i image_b64 s).
Proof.
  destruct s as [p w]. unfold process_image, image_step.
  unfold try_except at 1. unfold bind at 1. rewrite describe_image_eq.
  unfold bind, on_self, on_world, self, the_world, draw_uuid, modify, ret, attempt,
    raise, sleep, bind, on_world, modify. cbn.
  destruct (write_png svc _ image_b64) as [e|]; [reflexivity|]. cbn.
  destruct (MAX_IMAGES_PER_REQUEST settings =? 0)%Z; [reflexivity|].
  destruct (_ mod _ =? 0)%Z; reflexivity.
Qed.

Lemma for_enumerate_images i0 imgs s :
  for_enumerate (process_image settings svc) i0 imgs s
  = (Ok tt, image_steps settings svc i0 imgs s).
Proof.
  revert i0 s. induction imgs as [|img imgs IH]; intros i0 s; cbn; [done|].
  unfold bind. rewrite process_image_eq. apply IH.
Qed.

Lemma process_and_save_images_eq p w :
  process_and_save_images settings svc (p, w)
  = (Ok tt, match images p with
            | [] => (p, w)
            | _ :: _ => image_steps settings svc 0 (images p)
                          (set_image_metadata (Some []) p, w)
            end).
Proof.
  unfold process_and_save_images, bind at 1, self. cbn [fst].
  destruct (images p) as [|img imgs] eqn:E; [done|].
  unfold bind, on_self, modify. cbn [fst snd].
  apply for_enumerate_images.
Qed.

Lemma image_step_frame i img s :
  let s' := image_step settings svc i img s in
  document_id s'.1 = document_id s.1 /\ doc_folder s'.1 = doc_folder s.1
  /\ chunks s'.1 = chunks s.1 /\ tables s'.1 = tables s.1
  /\ texts s'.1 = texts s.1 /\ images s'.1 = images s.1
  /\ text_summaries s'.1 = text_summaries s.1
  /\ table_summaries s'.1 = table_summaries s.1
  /\ uuid_drawn s'.2 = S (uuid_drawn s.2)
  /\ vision_calls s'.2 = S (vision_calls s.2).
Proof.
  destruct s as [p w]. unfold image_step. cbn [fst snd].
  destruct (write_png svc _ img); [done|].
  destruct (_ =? 0)%Z; [done|]. destruct (_ =? 0)%Z; done.
Qed.

Lemma image_steps_frame imgs i0 s :
  let s' := image_steps settings svc i0 imgs s in
  document_id s'.1 = document_id s.1 /\ doc_folder s'.1 = doc_folder s.1
  /\ chunks s'.1 = chunks s.1 /\ tables s'.1 = tables s.1
  /\ texts s'.1 = texts s.1 /\ images s'.1 = images s.1
  /\ text_summaries s'.1 = text_summaries s.1
  /\ table_summaries s'.1 = table_summaries s.1
  /\ uuid_drawn s'.2 = length imgs + uuid_drawn s.2
  /\ vision_calls s'.2 = length imgs + vision_calls s.2.
Proof.
  revert i0 s. induction imgs as [|img imgs IH]; intros i0 s; cbn zeta; [done|].
  cbn [image_steps].
  destruct (IH (S i0) (image_step settings svc i0 img s))
    as (-> & -> & -> & -> & -> & -> & -> & -> & -> & ->).
  destruct (image_step_frame i0 img s)
    as (-> & -> & -> & -> & -> & -> & -> & -> & -> & ->).
  cbn [length]. repeat split; lia.
Qed.

(** The delay logged by one run of the loop body. *)
Lemma image_step_sleeps i img p w :
  MAX_IMAGES_PER_REQUEST settings <> 0%Z ->
  exists delays,
    sleeps (image_step settings svc i img (p, w)).2 = (sleeps w ++ delays)%list
    /\ Forall2 (fun t d => cooldown_policy settings t.1 d)
         (filter (fun t => written svc (doc_folder p) t.2.1 t.1 t.2.2 = true)
                 [(i, (uuid_drawn w, img))])
         delays.
Proof.
  intros HN. unfold image_step, written. cbn [fst snd].
  rewrite filter_cons, filter_nil. cbn [fst snd].
  destruct (write_png svc _ img) as [e|].
  { exists []. rewrite decide_False by done. split; [by rewrite app_nil_r|constructor]. }
  rewrite decide_True by done.
  destruct (Z.eqb_spec (MAX_IMAGES_PER_REQUEST settings) 0) as [|_]; [done|].
  destruct (Z.BoolSpec_divide_nz (MAX_IMAGES_PER_REQUEST settings)
              (Z.of_nat (i + 1)) HN) as [Hdiv|Hdiv].
  - exists [60%Z]. split; [done|]. constructor; [|constructor]. by left.
  - exists [RATE_LIMIT_DELAY settings]. split; [done|].
    constructor; [|constructor]. by right.
Qed.

Lemma image_steps_sleeps imgs i0 p w :
  MAX_IMAGES_PER_REQUEST settings <> 0%Z ->
  exists delays,
    sleeps (image_steps settings svc i0 imgs (p, w)).2 = (sleeps w ++ delays)%list
    /\ Forall2 (fun t d => cooldown_policy settings t.1 d)
         (filter (fun t => written svc (doc_folder p) t.2.1 t.1 t.2.2 = true)
                 (numbered i0 (uuid_drawn w) imgs))
         delays.
Proof.
  intros HN. revert i0 p w. induction imgs as [|img imgs IH]; intros i0 p w.
  { exists []. split; [by rewrite app_nil_r|]. cbn. constructor. }
  cbn [image_steps].
  destruct (image_step_sleeps i0 img p w HN) as (d1 & E1 & F1).
  destruct (image_step_frame i0 img (p, w)) as (_ & Hf & _ & _ & _ & _ & _ & _ & Hu & _).
  destruct (image_step settings svc i0 img (p, w)) as [p1 w1]. cbn [fst snd] in *.
  destruct (IH (S i0) p1 w1) as (d2 & E2 & F2).
  exists (d1 ++ d2)%list. split; [by rewrite E2, E1, app_assoc|].
  unfold numbered. rewrite imap_cons. 
  change (?x :: ?l) with ([x] ++ l)%list. rewrite filter_app.
  apply Forall2_app.
  - by rewrite !Nat.add_0_r.
  - rewrite Hf, Hu in F2. unfold numbered in F2.
    erewrite imap_ext; [exact F2|]. intros k x _. cbn. repeat f_equal; lia.
Qed.

End ImageLoopFacts.

(** X19.  When the batch size is not zero, the delays that
    [process_and_save_images] passes to [asyncio.sleep] are, in order, one
    for every image that was written to disk: 60 seconds when the image's
    index plus one is a multiple of [MAX_IMAGES_PER_REQUEST], and
    [RATE_LIMIT_DELAY] otherwise.  An image whose processing raised is
    followed by no delay. *)
Theorem rate_limiting_policy (settings : Settings) (svc : Services)
    (p : DocumentProcessor) (w : World) :
  MAX_IMAGES_PER_REQUEST settings <> 0%Z ->
  exists delays,
    sleeps (process_and_save_images settings svc (p, w)).2.2
      = (sleeps w ++ delays)%list
    /\ Forall2 (fun t d => cooldown_policy settings t.1 d)
         (filter (fun t => written svc (doc_folder p) t.2.1 t.1 t.2.2 = true)
                 (numbered 0 (uuid_drawn w) (images p)))
         delays.
Proof.
  intros HN. rewrite process_and_save_images_eq. cbn [snd].
  destruct (images p) as [|img imgs] eqn:E.
  { exists []. split; [by rewrite app_nil_r|]. cbn. constructor. }
  apply (image_steps_sleeps settings svc (img :: imgs) 0
           (set_image_metadata (Some []) p) w HN).
Qed.

Lemma rate_limiting_policy_witness :
  exists delays,
    sleeps (process_and_save_images Sample.small_batches
              (Sample.services Sample.one_text_one_image)
              (Sample.processor_with_images ["aGVsbG8="; "d29ybGQ="; "Zm9v"],
               initial_world)).2.2
      = (sleeps initial_world ++ delays)%list
    /\ Forall2 (fun t d => cooldown_policy Sample.small_batches t.1 d)
         (filter (fun t => written (Sample.services Sample.one_text_one_image)
                             (doc_folder (Sample.processor_with_images
                                            ["aGVsbG8="; "d29ybGQ="; "Zm9v"]))
                             t.2.1 t.1 t.2.2 = true)
                 (numbered 0 (uuid_drawn initial_world)
                    (images (Sample.processor_with_images
                               ["aGVsbG8="; "d29ybGQ="; "Zm9v"]))))
         delays.
Proof. apply rate_limiting_policy. vm_compute. discriminate. Defined.

(** On three images and batches of two, the delays are 4, 60 and 4. *)
Example rate_limiting_three_images :
  sleeps (process_and_save_images Sample.small_batches
            (Sample.services Sample.one_text_one_image)
            (Sample.processor_with_images ["aGVsbG8="; "d29ybGQ="; "Zm9v"],
             initial_world)).2.2
  = [4; 60; 4]%Z.
Proof. vm_compute. reflexivity. Qed.

(** C9, on three images with batches of two, the file of the second image
    being refused by the disk.  The vision service is called three times,
    and the delays are 4 and 4: the image that could not be saved is
    followed by no delay at all, where the policy asks for the cooldown of
    60 seconds after the second image, and the third call of the vision
    service follows the second at once.  The pause is the last statement of
    the [try] block and the handler does not pause. *)
Theorem rate_limiting_skips_failed_image :
  let out :=
    process_and_save_images Sample.small_batches (SampleRuns.second_image_lost [])
      (Sample.processor_with_images SampleRuns.three_images, initial_world) in
  out.1 = Ok tt
  /\ vision_calls out.2.2 = 3
  /\ sleeps out.2.2 = [4; 4]%Z
  /\ map fst (files out.2.2)
     = ["storage/images/d1/image_1_uuid-0.png"; "storage/images/d1/image_3_uuid-2.png"].
Proof. vm_compute. repeat split; reflexivity. Qed.

(** ** The stages of [DocumentProcessor.process_document] *)

Section ProcessorStages.

Context (settings : Settings) (svc : Services).

Lemma map_result_length {A B} (f : A -> Result B) l ys :
  map_result f l = Ok ys -> length ys = length l.
Proof.
  revert ys. induction l as [|x l IH]; intros ys; cbn.
  - by intros [= <-].
  - destruct (f x); [|done]. destruct (map_result f l); [|done].
    intros [= <-]. cbn. f_equal. by apply IH.
Qed.

Lemma map_result_all_ok {A B} (f : A -> Result B) l :
  Forall (fun x => is_ok (f x) = true) l -> exists ys, map_result f l = Ok ys.
Proof.
  induction 1 as [|x l Hx _ [ys IH]]; cbn; [by eexists|].
  destruct (f x); [|done]. rewrite IH. by eexists.
Qed.

Lemma extract_pdf_content_eq file_path p w :
  extract_pdf_content svc file_path (p, w)
  = match partition_pdf svc file_path with
    | Ok cs => (Ok (counts_of (extracted cs p)), (extracted cs p, w))
    | Err e => (Err e, (p, w))
    end.
Proof.
  unfold extract_pdf_content, bind at 1, lift_result.
  destruct (partition_pdf svc file_path); reflexivity.
Qed.

Lemma create_summaries_eq p w :
  create_summaries svc (p, w)
  = match map_result (text_chain svc) (map chunk_text (texts p)) with
    | Err e => (Err e, (p, w))
    | Ok ts =>
        match map_result (table_chain svc) (map text_as_html (tables p)) with
        | Err e => (Err e, (set_text_summaries (Some ts) p, w))
        | Ok tbs =>
            (Ok tt, (set_table_summaries (Some tbs) (set_text_summaries (Some ts) p), w))
        end
    end.
Proof.
  unfold create_summaries, bind at 1, self. cbn [fst].
  unfold bind at 1.
  destruct (texts p) as [|t ts] eqn:Et.
  - cbn [map map_result]. unfold on_self, modify. cbn [fst snd tables set_text_summaries].
    destruct (tables p) as [|tb tbs] eqn:Etb; [reflexivity|].
    unfold bind, lift_result.
    destruct (map_result _ _); reflexivity.
  - unfold bind at 1, lift_result.
    destruct (map_result (text_chain svc) _) as [ss|e]; [|reflexivity].
    unfold ret, on_self, modify. cbn [fst snd].
    destruct (tables p) as [|tb tbs] eqn:Etb; [reflexivity|].
    unfold bind. destruct (map_result (table_chain svc) _); reflexivity.
Qed.

(** [DocumentProcessor.process_document] in one piece. *)
Lemma processor_process_document_eq file_path p w :
  processor_process_document settings svc file_path (p, w)
  = match partition_pdf svc file_path with
    | Err e =>
        (Err (ProcessingError ("Processing failed: " ++ exn_str e) (document_id p)),
         (p, w))
    | Ok cs =>
        let s2 := with_images settings svc (extracted cs p, w) in
        match map_result (text_chain svc) (map chunk_text (texts s2.1)) with
        | Err e =>
            (Err (ProcessingError ("Processing failed: " ++ exn_str e)
                                  (document_id s2.1)), s2)
        | Ok ts =>
            match map_result (table_chain svc) (map text_as_html (tables s2.1)) with
            | Err e =>
                (Err (ProcessingError ("Processing failed: " ++ exn_str e)
                                      (document_id s2.1)),
                 (set_text_summaries (Some ts) s2.1, s2.2))
            | Ok tbs =>
                (Ok (counts_of (extracted cs p)),
                 (set_table_summaries (Some tbs) (set_text_summaries (Some ts) s2.1),
                  s2.2))
            end
        end
    end.
Proof.
  unfold processor_process_document, try_except, bind at 1.
  rewrite extract_pdf_content_eq.
  destruct (partition_pdf svc file_path) as [cs|e]; [|reflexivity].
  unfold bind at 1. rewrite process_and_save_images_eq.
  change (match images (extracted cs p) with
          | [] => (extracted cs p, w)
          | _ :: _ => image_steps settings svc 0 (images (extracted cs p))
                        (set_image_metadata (Some []) (extracted cs p), w)
          end) with (with_images settings svc (extracted cs p, w)).
  destruct (with_images settings svc (extracted cs p, w)) as [p2 w2] eqn:E2.
  cbn beta iota zeta. unfold bind at 1. rewrite create_summaries_eq. cbn [fst snd].
  destruct (map_result (text_chain svc) _); [|reflexivity].
  destruct (map_result (table_chain svc) _); reflexivity.
Qed.

Lemma with_images_frame s :
  let s' := with_images settings svc s in
  document_id s'.1 = document_id s.1 /\ doc_folder s'.1 = doc_folder s.1
  /\ chunks s'.1 = chunks s.1 /\ tables s'.1 = tables s.1
  /\ texts s'.1 = texts s.1 /\ images s'.1 = images s.1
  /\ text_summaries s'.1 = text_summaries s.1
  /\ table_summaries s'.1 = table_summaries s.1.
Proof.
  unfold with_images. destruct (images s.1) eqn:E; [done|].
  destruct (image_steps_frame settings svc (images s.1) 0
              (set_image_metadata (Some []) s.1, s.2))
    as (H1 & H2 & H3 & H4 & H5 & H6 & H7 & H8 & _).
  rewrite E in *. cbn zeta. rewrite H1, H2, H3, H4, H5, H6, H7, H8. done.
Qed.

Lemma image_step_descriptions i img s :
  length (image_descriptions s.1) + 1
  <= length (image_descriptions (image_step settings svc i img s).1)
  /\ is_Some (image_metadata (image_step settings svc i img s).1).
Proof.
  destruct s as [p w]. unfold image_step. cbn [fst snd].
  destruct (write_png svc _ img).
  { cbn. rewrite !length_app. cbn. split; [lia|done]. }
  destruct (_ =? 0)%Z.
  { cbn. rewrite !length_app. cbn. split; [lia|done]. }
  destruct (_ =? 0)%Z; cbn; rewrite !length_app; cbn; split; (lia || done).
Qed.

Lemma image_steps_descriptions imgs i0 s :
  length (image_descriptions s.1) + length imgs
  <= length (image_descriptions (image_steps settings svc i0 imgs s).1)
  /\ (imgs <> [] -> is_Some (image_metadata (image_steps settings svc i0 imgs s).1)).
Proof.
  revert i0 s. induction imgs as [|img imgs IH]; intros i0 s; cbn [image_steps length].
  { split; [lia|done]. }
  destruct (IH (S i0) (image_step settings svc i0 img s)) as [IH1 IH2].
  destruct (image_step_descriptions i0 img s) as [H1 H2].
  split; [lia|]. intros _. destruct imgs as [|img' imgs]; [done|]. by apply IH2.
Qed.

(** One image whose file is written, with a batch size that is not zero:
    one description and one entry of metadata, which carry the same text. *)
Lemma image_step_written i img p w :
  MAX_IMAGES_PER_REQUEST settings <> 0%Z ->
  (forall path data, write_png svc path data = None) ->
  let d := description_of svc (vision_calls w) img in
  let s' := image_step settings svc i img (p, w) in
  image_descriptions s'.1 = (image_descriptions p ++ [d])%list
  /\ image_metadata s'.1
     = Some (default [] (image_metadata p)
             ++ [saved_meta (doc_folder p) i (uuid4 svc (uuid_drawn w)) d])%list.
Proof.
  intros HN Hw. cbn zeta. unfold image_step. cbn [fst snd]. rewrite Hw.
  destruct (Z.eqb_spec (MAX_IMAGES_PER_REQUEST settings) 0) as [|_]; [done|].
  destruct (_ =? 0)%Z; done.
Qed.

Lemma image_steps_written imgs i0 p w :
  MAX_IMAGES_PER_REQUEST settings <> 0%Z ->
  (forall path data, write_png svc path data = None) ->
  let s' := image_steps settings svc i0 imgs (p, w) in
  image_descriptions s'.1
  = (image_descriptions p
     ++ imap (fun k img => description_of svc (vision_calls w + k) img) imgs)%list
  /\ default [] (image_metadata s'.1)
     = (default [] (image_metadata p)
        ++ imap (fun k img =>
                   saved_meta (doc_folder p) (i0 + k) (uuid4 svc (uuid_drawn w + k))
                     (description_of svc (vision_calls w + k) img)) imgs)%list.
Proof.
  intros HN Hw. revert i0 p w. induction imgs as [|img imgs IH]; intros i0 p w.
  { cbn. by rewrite !app_nil_r. }
  cbn [image_steps]. cbn zeta.
  destruct (image_step_written i0 img p w HN Hw) as [E1 E2].
  destruct (image_step_frame settings svc i0 img (p, w))
    as (_ & Hf & _ & _ & _ & _ & _ & _ & Hu & Hv).
  destruct (image_step settings svc i0 img (p, w)) as [p1 w1]. cbn [fst snd] in *.
  destruct (IH (S i0) p1 w1) as [I1 I2]. rewrite I1, I2, E1, E2, Hf, Hu, Hv.
  unfold default at 2. cbn [from_option id].
  rewrite !imap_cons, !Nat.add_0_r, <- !app_assoc. cbn [app].
  split; do 2 f_equal; apply imap_ext; intros k x _; cbn;
    repeat f_equal; lia.
Qed.

(** One image whose file cannot be written: two descriptions for one entry
    of metadata. *)
Lemma image_step_not_written i img p w e :
  write_png svc (image_path_of (doc_folder p) i (uuid4 svc (uuid_drawn w))) img = Some e ->
  let s' := image_step settings svc i img (p, w) in
  image_descriptions s'.1
  = (image_descriptions p
     ++ [description_of svc (vision_calls w) img;
         ("Error processing image: " ++ exn_str e)%string])%list
  /\ image_metadata s'.1
     = Some (default [] (image_metadata p) ++ [placeholder_meta i e])%list.
Proof.
  intros Hw. cbn zeta. unfold image_step. cbn [fst snd]. rewrite Hw. cbn.
  by rewrite <- app_assoc.
Qed.

End ProcessorStages.

(** ** The stages of [RAGService.build_vector_database] *)

Section RagStages.

Context (settings : Settings) (svc : Services).

Lemma draw_uuid_eq {X} (x : X) w :
  draw_uuid svc (x, w) = (Ok (uuid4 svc (uuid_drawn w)), (x, bump_uuid w)).
Proof. reflexivity. Qed.

Lemma draw_uuids_ok {X} n (x : X) w :
  exists ids w', draw_uuids svc n (x, w) = (Ok ids, (x, w')) /\ length ids = n.
Proof.
  revert w. induction n as [|n IH]; intros w; cbn [draw_uuids].
  - by exists [], w.
  - unfold bind at 1. rewrite draw_uuid_eq.
    destruct (IH (bump_uuid w)) as (ids & w' & E & Hl).
    unfold bind at 1. rewrite E. eexists (_ :: ids), w'. split; [done|].
    cbn. by rewrite Hl.
Qed.

Lemma summary_documents_ok kind ids ts n :
  n + length ts <= length ids ->
  map_result (summary_document kind ids) (imap (fun k s => (n + k, s)) ts)
  = Ok (zip_with (summary_doc kind) ts (drop n ids)).
Proof.
  revert n. induction ts as [|t ts IH]; intros n Hn; [done|].
  cbn [length] in Hn. rewrite imap_cons. cbn [map_result].
  unfold summary_document at 1, list_get. cbn [fst snd]. rewrite Nat.add_0_r.
  destruct (lookup_lt_is_Some_2 ids n) as [k Hk]; [lia|]. rewrite Hk.
  erewrite imap_ext; [rewrite (IH (S n)); [|lia]|].
  2:{ intros i x _. cbn. f_equal. lia. }
  rewrite (drop_S _ _ _ Hk). done.
Qed.

Lemma summary_documents_enumerate kind ids ts :
  length ts <= length ids ->
  map_result (summary_document kind ids) (enumerate ts)
  = Ok (zip_with (summary_doc kind) ts ids).
Proof.
  intros H. unfold enumerate.
  change (imap pair ts) with (imap (fun k (s : string) => (0 + k, s)) ts).
  by rewrite summary_documents_ok, drop_0.
Qed.

Lemma mset_pairs_keys kvs m k :
  is_Some (mset_pairs kvs m !! k) <-> k ∈ kvs.*1 \/ is_Some (m !! k).
Proof.
  unfold mset_pairs. revert m. induction kvs as [|[k' v] kvs IH]; intros m; cbn.
  - rewrite elem_of_nil. tauto.
  - rewrite IH, elem_of_cons, lookup_insert. case_decide; subst.
    + split; [auto|]. intros _. right. by eexists.
    + split; [intros [?|?]; auto|]. intros [[?|?]|?]; auto. congruence.
Qed.

Lemma zip_fst {A B} (a : list A) (b : list B) :
  length a = length b -> (zip a b).*1 = a.
Proof. intros H. unfold zip. apply fst_zip. lia. Qed.

Lemma map_doc_id_summary_docs kind ts ids :
  length ts = length ids ->
  map doc_id (zip_with (summary_doc kind) ts ids) = ids
  /\ map page_content (zip_with (summary_doc kind) ts ids) = ts.
Proof.
  revert ids. induction ts as [|t ts IH]; intros [|k ids]; cbn; try done.
  intros [= H]. destruct (IH ids H) as [-> ->]. done.
Qed.

Lemma vectorstore_add_ok docs r w r' w' :
  vectorstore_add svc docs (r, w) = (Ok tt, (r', w')) ->
  r' = set_vectorstore (vectorstore r ++ docs)%list r /\ w' = w.
Proof.
  unfold vectorstore_add, bind, self, on_self, modify, raise. cbn [fst snd].
  destruct (add_documents svc (vectorstore r) docs); [|done].
  by intros [= <- <-].
Qed.

Lemma vectorstore_add_added docs r w :
  add_documents svc (vectorstore r) docs = Added ->
  vectorstore_add svc docs (r, w)
  = (Ok tt, (set_vectorstore (vectorstore r ++ docs)%list r, w)).
Proof.
  intros H. unfold vectorstore_add, bind, self, on_self, modify. cbn [fst snd].
  by rewrite H.
Qed.

Lemma extends_refl r : extends r r [].
Proof.
  repeat split; try done; cbn.
  - by rewrite app_nil_r.
  - auto.
  - intros [H|H]; [by apply elem_of_nil in H|done].
Qed.

Lemma extends_trans r1 r2 r3 d1 d2 :
  extends r1 r2 d1 -> extends r2 r3 d2 -> extends r1 r3 (d1 ++ d2)%list.
Proof.
  intros (V1 & K1 & P1 & I1) (V2 & K2 & P2 & I2). repeat split.
  - by rewrite V2, V1, app_assoc.
  - rewrite K2, K1, map_app, elem_of_app. tauto.
  - rewrite K2, K1, map_app, elem_of_app. tauto.
  - congruence.
  - congruence.
Qed.

(** The summaries of one kind, when there is one summary per raw element. *)
Lemma index_summaries_ok kind ts raw r w r' w' :
  index_summaries svc kind ts raw (r, w) = (Ok tt, (r', w')) ->
  length ts = length raw ->
  exists docs, extends r r' docs /\ map page_content docs = ts
               /\ Forall (fun d => content_type d = kind) docs.
Proof.
  intros H Hlen. unfold index_summaries in H.
  destruct ts as [|t ts].
  { injection H as <- <-. exists []. split; [apply extends_refl|]. split; [done|constructor]. }
  remember (t :: ts) as tss eqn:Etss.
  unfold bind at 1 in H.
  destruct (draw_uuids_ok (length raw) r w) as (ids & w1 & E & Hids). rewrite E in H.
  unfold bind at 1, lift_result in H.
  rewrite (summary_documents_enumerate kind ids tss) in H by lia.
  unfold ret at 1 in H.
  unfold bind at 1 in H.
  destruct (vectorstore_add svc _ (r, w1)) as [[[]|e] [r2 w2]] eqn:Ea; [|done].
  apply vectorstore_add_ok in Ea as [-> ->].
  unfold mset, on_self, modify in H. cbn [fst snd] in H. injection H as <- <-.
  destruct (map_doc_id_summary_docs kind tss ids) as [Hk Hc]; [lia|].
  exists (zip_with (summary_doc kind) tss ids). repeat split; try done.
  - cbn. rewrite mset_pairs_keys, zip_fst, Hk by (rewrite length_map; lia). tauto.
  - cbn. rewrite mset_pairs_keys, zip_fst, Hk by (rewrite length_map; lia). tauto.
  - clear. revert ids. induction tss as [|t ts IH]; intros [|k ids]; cbn; constructor;
      [done|apply IH].
Qed.

Lemma index_summaries_succeeds kind ts raw r w :
  (forall current docs, add_documents svc current docs = Added) ->
  length ts = length raw ->
  exists r' w', index_summaries svc kind ts raw (r, w) = (Ok tt, (r', w')).
Proof.
  intros Hadd Hlen. unfold index_summaries.
  destruct ts as [|t ts]; [by eexists _, _|].
  remember (t :: ts) as tss eqn:Etss.
  unfold bind at 1.
  destruct (draw_uuids_ok (length raw) r w) as (ids & w1 & E & Hids). rewrite E.
  unfold bind at 1, lift_result.
  rewrite (summary_documents_enumerate kind ids tss) by lia.
  unfold ret at 1. unfold bind at 1.
  rewrite vectorstore_add_added by apply Hadd.
  unfold mset, on_self, modify. cbn [fst snd]. by eexists _, _.
Qed.

Lemma image_fields_ok metas i r w :
  exists fpu w', image_fields svc metas i (r, w) = (Ok fpu, (r, w')).
Proof.
  unfold image_fields, bind at 1, self. cbn [fst].
  destruct (metas !! i); [by eexists _, _|].
  unfold bind at 1. rewrite draw_uuid_eq. by eexists _, _.
Qed.

Lemma index_image_ok metas img_ids i desc r w r' w' :
  index_image svc metas img_ids i desc (r, w) = (Ok tt, (r', w')) ->
  exists doc, extends r r' [doc] /\ page_content doc = desc
              /\ content_type doc = "image"
              /\ img_ids !! i = Some (doc_id doc).
Proof.
  unfold index_image. unfold bind at 1.
  destruct (image_fields_ok metas i r w) as (fpu & w1 & ->).
  unfold bind at 1, lift_result, list_get.
  destruct (img_ids !! i) as [img_id|] eqn:Ei; [|done].
  unfold ret at 1. unfold bind at 1, on_self, modify at 1. cbn [fst snd].
  unfold bind at 1.
  match goal with |- context [vectorstore_add svc ?d ?s] =>
    destruct (vectorstore_add svc d s) as [[[]|e] [r2 w2]] eqn:Ea; [|done] end.
  apply vectorstore_add_ok in Ea as [-> ->].
  unfold mset, on_self, modify, mset_pairs. cbn [fst snd foldl].
  intros [= <- <-].
  eexists {| page_content := desc; doc_id := img_id; content_type := "image";
             image_payload := Some _ |}.
  split; [|done]. repeat split; cbn; try done.
  - rewrite lookup_insert, list_elem_of_singleton. case_decide; subst; [auto|].
    intros Hk. by right.
  - rewrite lookup_insert, list_elem_of_singleton. case_decide; subst.
    + intros _. by eexists.
    + intros [?|?]; [congruence|done].
Qed.

Lemma index_image_succeeds metas img_ids i desc r w :
  (forall current docs, add_documents svc current docs = Added) ->
  i < length img_ids ->
  exists r' w', index_image svc metas img_ids i desc (r, w) = (Ok tt, (r', w')).
Proof.
  intros Hadd Hi. unfold index_image. unfold bind at 1.
  destruct (image_fields_ok metas i r w) as (fpu & w1 & ->).
  unfold bind at 1, lift_result, list_get.
  destruct (lookup_lt_is_Some_2 img_ids i Hi) as [img_id ->].
  unfold ret at 1. unfold bind at 1, on_self, modify at 1. cbn [fst snd].
  unfold bind at 1. rewrite vectorstore_add_added by apply Hadd.
  unfold mset, on_self, modify. cbn [fst snd]. by eexists _, _.
Qed.

Lemma index_images_ok metas img_ids descs i0 r w r' w' :
  for_enumerate (index_image svc metas img_ids) i0 descs (r, w) = (Ok tt, (r', w')) ->
  exists docs, extends r r' docs /\ map page_content docs = descs
               /\ Forall (fun d => content_type d = "image") docs
               /\ (descs = [] \/ i0 + length descs <= length img_ids).
Proof.
  revert i0 r w. induction descs as [|desc descs IH]; intros i0 r w; cbn [for_enumerate].
  { intros [= <- <-]. exists []. split; [apply extends_refl|]. repeat split; auto. }
  unfold bind at 1.
  destruct (index_image svc metas img_ids i0 desc (r, w)) as [[[]|e] [r1 w1]] eqn:E1;
    [|done].
  intros H. apply index_image_ok in E1 as (doc & X1 & C1 & T1 & K1).
  apply IH in H as (docs & X2 & C2 & T2 & L2).
  exists ([doc] ++ docs)%list. split; [by eapply extends_trans|].
  cbn. rewrite C1, C2. repeat split; [by constructor|]. right.
  apply lookup_lt_Some in K1. destruct L2 as [->|L2]; cbn; lia.
Qed.

Lemma index_images_succeed metas img_ids descs i0 r w :
  (forall current docs, add_documents svc current docs = Added) ->
  i0 + length descs <= length img_ids ->
  exists r' w',
    for_enumerate (index_image svc metas img_ids) i0 descs (r, w) = (Ok tt, (r', w')).
Proof.
  intros Hadd. revert i0 r w.
  induction descs as [|desc descs IH]; intros i0 r w Hl; cbn [for_enumerate].
  { by eexists _, _. }
  cbn [length] in Hl. unfold bind at 1.
  destruct (index_image_succeeds metas img_ids i0 desc r w Hadd) as (r1 & w1 & ->);
    [lia|].
  apply IH. lia.
Qed.

(** [build_vector_database] on a processor whose summaries are as many as
    its raw elements: the vectors added are the text summaries, the table
    summaries and the image descriptions, in this order. *)
Lemma build_vector_database_ok r w r' w' ts tbs :
  build_vector_database svc (r, w) = (Ok tt, (r', w')) ->
  text_summaries (processor r) = Some ts ->
  table_summaries (processor r) = Some tbs ->
  length ts = length (texts (processor r)) ->
  length tbs = length (tables (processor r)) ->
  exists docs,
    extends r r' docs
    /\ map page_content docs = (ts ++ tbs ++ indexed_descriptions (processor r))%list
    /\ (indexed_descriptions (processor r) = []
        \/ length (image_descriptions (processor r)) <= length (images (processor r))).
Proof.
  intros H Ets Etbs Hts Htbs. unfold build_vector_database, try_except in H.
  match type of H with match ?body (r, w) with _ => _ end = _ =>
    destruct (body (r, w)) as [[[]|e] [r3 w3]] eqn:Eb; [|done] end.
  injection H as <- <-.
  unfold bind at 1, self in Eb. cbn [fst] in Eb.
  unfold bind at 1 in Eb. rewrite Ets in Eb. unfold attribute at 1, ret at 1 in Eb.
  unfold bind at 1 in Eb.
  destruct (index_summaries svc "text" ts _ (r, w)) as [[[]|e] [r1 w1]] eqn:E1; [|done].
  apply index_summaries_ok in E1 as (d1 & X1 & C1 & _); [|done].
  unfold bind at 1 in Eb. rewrite Etbs in Eb. unfold attribute at 1, ret at 1 in Eb.
  unfold bind at 1 in Eb.
  destruct (index_summaries svc "table" tbs _ (r1, w1)) as [[[]|e] [r2 w2]] eqn:E2; [|done].
  apply index_summaries_ok in E2 as (d2 & X2 & C2 & _); [|done].
  unfold indexed_descriptions.
  destruct (image_descriptions (processor r)) as [|desc descs] eqn:Ed.
  { injection Eb as <- <-. exists (d1 ++ d2)%list. split; [by eapply extends_trans|].
    rewrite map_app, C1, C2, app_nil_r. auto. }
  destruct (image_metadata (processor r)) as [metas|] eqn:Em.
  2:{ injection Eb as <- <-. exists (d1 ++ d2)%list. split; [by eapply extends_trans|].
      rewrite map_app, C1, C2, app_nil_r. auto. }
  unfold bind at 1 in Eb.
  destruct (draw_uuids_ok (X:=RAGService) (length (images (processor r))) r2 w2)
    as (ids & w2' & Eu & Hids).
  rewrite Eu in Eb.
  apply index_images_ok in Eb as (d3 & X3 & C3 & _ & L3).
  exists (d1 ++ d2 ++ d3)%list. split.
  { eapply extends_trans; [done|]. by eapply extends_trans. }
  rewrite !map_app, C1, C2, C3. split; [done|]. right.
  destruct L3 as [?|L3]; [done|]. cbn in L3. cbn. lia.
Qed.

Lemma build_vector_database_succeeds r w ts tbs :
  (forall current docs, add_documents svc current docs = Added) ->
  text_summaries (processor r) = Some ts ->
  table_summaries (processor r) = Some tbs ->
  length ts = length (texts (processor r)) ->
  length tbs = length (tables (processor r)) ->
  length (image_descriptions (processor r)) <= length (images (processor r)) ->
  exists r' w', build_vector_database svc (r, w) = (Ok tt, (r', w')).
Proof.
  intros Hadd Ets Etbs Hts Htbs Hd. unfold build_vector_database, try_except.
  unfold bind at 1, self. cbn [fst].
  unfold bind at 1. rewrite Ets. unfold attribute at 1, ret at 1.
  unfold bind at 1.
  destruct (index_summaries_succeeds "text" ts (texts (processor r)) r w Hadd Hts)
    as (r1 & w1 & ->).
  unfold bind at 1. rewrite Etbs. unfold attribute at 1, ret at 1.
  unfold bind at 1.
  destruct (index_summaries_succeeds "table" tbs (tables (processor r)) r1 w1 Hadd Htbs)
    as (r2 & w2 & ->).
  destruct (image_descriptions (processor r)) as [|desc descs] eqn:Ed; [by eexists _, _|].
  destruct (image_metadata (processor r)) as [metas|] eqn:Em; [|by eexists _, _].
  unfold bind at 1.
  destruct (draw_uuids_ok (X:=RAGService) (length (images (processor r))) r2 w2)
    as (ids & w2' & -> & Hids).
  destruct (index_images_succeed metas ids (desc :: descs) 0 r2 w2' Hadd)
    as (r3 & w3 & ->); [cbn in *; lia|].
  by eexists _, _.
Qed.

Lemma extends_keys_match r r' docs :
  vectorstore r = [] -> docstore r = ∅ -> extends r r' docs -> keys_match r'.
Proof.
  intros Hv Hd (V & K & _ & _) k. rewrite V, Hv, K, Hd, lookup_empty. cbn.
  split; [auto|]. intros [?|[? ?]]; done.
Qed.

End RagStages.

(** ** Recorded counts and index come from the same run *)

Section Counts.

Context (settings : Settings).

(** Replacing a document's entry by one with the same counts, which is not
    newly COMPLETED, keeps the invariant. *)
Lemma counts_inv_update ds rs id d d' :
  ds !! id = Some d ->
  di_elements_count d' = di_elements_count d ->
  (di_status d' = COMPLETED -> di_status d = COMPLETED) ->
  counts_inv settings ds rs ->
  counts_inv settings (<[id := d']> ds) rs.
Proof.
  intros Hd Hc Hs [H1 H2]. split.
  - intros id0 d0. rewrite lookup_insert. case_decide; [|by apply H1].
    subst. intros [= <-] Hst. rewrite Hc. eapply H1; eauto.
  - intros id0 d0 c rag. rewrite lookup_insert. case_decide; [|by apply H2].
    subst. intros [= <-]. rewrite Hc. by apply H2.
Qed.

Lemma counts_inv_mark_failed id e s :
  counts_inv settings (document_store s) (rag_services s) ->
  counts_inv settings (document_store (mark_failed id e s))
    (rag_services (mark_failed id e s)).
Proof.
  intros I. unfold mark_failed.
  destruct (document_store s !! id) as [d|] eqn:Hd; [|done].
  cbn. by eapply counts_inv_update.
Qed.

Lemma counts_inv_exec o s s' :
  exec settings o s = Some s' ->
  counts_inv settings (document_store s) (rag_services s) ->
  counts_inv settings (document_store s') (rag_services s').
Proof.
  destruct o as [id now fs file|id| | | |id fs|id|id svc t|id outcome]; cbn [exec].
  - (* Upload *)
    case_decide as Huse; [done|]. intros [= <-]. unfold upload_document.
    destruct (negb _); [done|]. destruct (_ >? _)%Z; [done|].
    destruct (fs _); [done|]. cbn. intros [H1 H2]. split.
    + intros id0 d0. rewrite lookup_insert. case_decide; [|by apply H1].
      by intros [= <-].
    + intros id0 d0 c rag. rewrite lookup_insert. case_decide; [|by apply H2].
      by intros [= <-].
  - (* Process *)
    intros [= <-] I. destruct (document_store s !! id) as [d|] eqn:Hd.
    2:{ unfold process_document. by rewrite Hd. }
    destruct (decide (di_status d = PROCESSING \/ di_status d = COMPLETED)) as [Hst|Hst].
    { by destruct (process_document_noop id s d Hd Hst) as [-> _]. }
    destruct (process_document_start id s d Hd) as [-> _]; [tauto..|].
    cbn. by eapply counts_inv_update.
  - by intros [= <-].
  - by intros [= <-].
  - by intros [= <-].
  - (* Delete *)
    intros [= <-]. unfold delete_document.
    destruct (document_store s !! id) as [d|] eqn:Hd; [|done].
    destruct fs; [done|]. cbn. intros [H1 H2]. split.
    + intros id0 d0. rewrite lookup_delete. case_decide; [done|]. by apply H1.
    + intros id0 d0 c rag. rewrite !lookup_delete. case_decide; [done|]. by apply H2.
  - (* TaskStart *)
    destruct (take_task id (scheduled s)) as [rest|]; [|done]. cbn.
    intros [= <-] I. unfold background_start. cbn.
    destruct (document_store s !! id) as [d|] eqn:Hd; [|done].
    cbn. by eapply counts_inv_update.
  - (* TaskIngest *)
    destruct (take_ingesting id (ingesting s)) as [[fp rest]|]; [|done]. cbn.
    intros [= <-] I. unfold background_ingest.
    destruct (ingest settings svc id fp initial_world) as [[[c rag]|e] w] eqn:Ei.
    2:{ by apply (counts_inv_mark_failed id e (set_ingesting rest s)). }
    cbn [document_store set_rag_services set_ingesting].
    destruct I as [H1 H2].
    destruct (document_store s !! id) as [d|] eqn:Hd; cbn.
    + split.
      * intros id0 d0. rewrite lookup_insert. case_decide; [|by apply H1].
        by intros [= <-].
      * intros id0 d0 c0 rag0. rewrite !lookup_insert. case_decide; [|by apply H2].
        subst. intros [= <-] [= <-] [= <-]. eauto.
    + split; [done|].
      intros id0 d0 c0 rag0. rewrite lookup_insert. case_decide; [|by apply H2].
      subst. by rewrite Hd.
  - (* TaskNotify *)
    destruct (take_task id (notifying s)) as [rest|]; [|done]. cbn.
    intros [= <-] I. unfold background_notify. destruct outcome as [e|]; [|done].
    by apply (counts_inv_mark_failed id e (set_notifying rest s)).
Qed.

Lemma reachable_counts_inv s :
  reachable settings s -> counts_inv settings (document_store s) (rag_services s).
Proof.
  intros [ops Hr].
  assert (forall ops s0, run settings ops s0 = Some s ->
            counts_inv settings (document_store s0) (rag_services s0) ->
            counts_inv settings (document_store s) (rag_services s)) as H.
  { clear. induction ops as [|o ops IH]; intros s0; cbn.
    - by intros [= <-].
    - destruct (exec settings o s0) as [s1|] eqn:E; [|done]. cbn.
      intros Hr I. apply (IH s1 Hr). by eapply counts_inv_exec. }
  apply (H ops initial_sys Hr). split; cbn; intros id d; by rewrite lookup_empty.
Qed.

End Counts.

(** ** The ingestion as a whole *)

Section Ingestion.

Context (settings : Settings) (svc : Services).

(** The processor that [process_document] hands to the [RAGService]. *)
Lemma processed_facts file_path id w c p' w' :
  processor_process_document settings svc file_path (fresh_processor settings id, w)
    = (Ok c, (p', w')) ->
  exists cs ts tbs,
    partition_pdf svc file_path = Ok cs
    /\ text_summaries p' = Some ts /\ length ts = length (texts p')
    /\ table_summaries p' = Some tbs /\ length tbs = length (tables p')
    /\ map_result (text_chain svc) (map chunk_text (texts p')) = Ok ts
    /\ map_result (table_chain svc) (map text_as_html (tables p')) = Ok tbs
    /\ images p' = _extract_images_base64 cs
    /\ c = counts_of p'
    /\ length (images p') <= length (image_descriptions p')
    /\ (image_metadata p' = None -> image_descriptions p' = [])
    /\ (p', w') = (set_table_summaries (Some tbs) (set_text_summaries (Some ts)
                     (with_images settings svc
                        (extracted cs (fresh_processor settings id), w)).1),
                   (with_images settings svc
                        (extracted cs (fresh_processor settings id), w)).2).
Proof.
  rewrite processor_process_document_eq.
  destruct (partition_pdf svc file_path) as [cs|e]; [|done]. cbn zeta.
  assert (Hp1 : image_descriptions (extracted cs (fresh_processor settings id)) = []
                /\ images (extracted cs (fresh_processor settings id))
                   = _extract_images_base64 cs) by done.
  remember (extracted cs (fresh_processor settings id)) as p1 eqn:Ep1.
  destruct Hp1 as [Hp1 Hp1i].
  destruct (with_images_frame settings svc (p1, w))
    as (_ & _ & _ & Htb & Htx & Him & _ & _).
  assert (Hdesc : length (images p1)
                  <= length (image_descriptions (with_images settings svc (p1, w)).1)
                  /\ (image_metadata (with_images settings svc (p1, w)).1 = None ->
                      image_descriptions (with_images settings svc (p1, w)).1 = [])).
  { unfold with_images. cbn [fst snd]. destruct (images p1) as [|img imgs] eqn:Ei.
    { split; [cbn; lia|done]. }
    rewrite <- Ei.
    destruct (image_steps_descriptions settings svc (images p1) 0
                (set_image_metadata (Some []) p1, w)) as [H1 H2].
    cbn [fst image_descriptions set_image_metadata] in H1, H2. rewrite Hp1 in H1.
    split; [cbn [length] in H1; lia|]. intros Hn. destruct H2 as [m Hm]; [by rewrite Ei|].
    congruence. }
  destruct (with_images settings svc (p1, w)) as [p2 w2] eqn:E2. cbn [fst snd] in *.
  destruct (map_result (text_chain svc) _) as [ts|e] eqn:Ets; [|done].
  destruct (map_result (table_chain svc) _) as [tbs|e] eqn:Etbs; [|done].
  intros [= <- <- <-]. exists cs, ts, tbs. cbn.
  apply map_result_length in Ets as Hts. apply map_result_length in Etbs as Htbs.
  rewrite length_map in Hts, Htbs. rewrite Htb, Htx, Him in *.
  destruct Hdesc. repeat split; try done.
  - unfold counts_of. cbn. by rewrite Htb, Htx, Him.
  - by rewrite <- Ep1, E2.
Qed.

(** What a run of the ingestion that reaches its end has done. *)
Lemma ingest_ok id file_path c rag w :
  ingest settings svc id file_path initial_world = (Ok (c, rag), w) ->
  exists p w1,
    processor_process_document settings svc file_path
      (fresh_processor settings id, initial_world) = (Ok c, (p, w1))
    /\ build_vector_database svc (fresh_rag id p, w1) = (Ok tt, (rag, w)).
Proof.
  unfold ingest. unfold bind at 1, attempt.
  destruct (broadcast_status_update svc id PROCESSING); [done|].
  unfold ret at 1. unfold bind at 1, new_DocumentProcessor.
  destruct (mkdir svc _); [done|]. destruct (init_models svc); [done|].
  fold (fresh_processor settings id).
  unfold bind at 1, with_object.
  destruct (processor_process_document settings svc file_path _)
    as [[c0|e] [p w1]] eqn:Ep; [|done].
  unfold bind at 1, new_RAGService. cbn [snd fst].
  destruct (recreate_collection svc _); [done|]. destruct (init_chat_model svc); [done|].
  fold (fresh_rag id p).
  unfold bind at 1.
  destruct (build_vector_database svc (fresh_rag id p, w1)) as [[[]|e] [r w2]] eqn:Eb;
    [|done].
  unfold ret. cbn [fst snd]. intros [= <- <- <-]. eauto.
Qed.

(** The index of a run that reaches its end: one vector per text, table and
    image, every vector with its raw content under the same key. *)
Lemma ingest_index id file_path c rag w :
  ingest settings svc id file_path initial_world = (Ok (c, rag), w) ->
  keys_match rag
  /\ length (vectorstore rag) = count_texts c + count_tables c + count_images c
  /\ exists ts tbs,
       text_summaries (processor rag) = Some ts
       /\ table_summaries (processor rag) = Some tbs
       /\ map page_content (vectorstore rag)
          = (ts ++ tbs ++ image_descriptions (processor rag))%list
       /\ length ts = count_texts c /\ length tbs = count_tables c
       /\ length (image_descriptions (processor rag)) = count_images c.
Proof.
  intros H. apply ingest_ok in H as (p & w1 & Hp & Hb).
  apply processed_facts in Hp
    as (cs & ts & tbs & _ & Ets & Hts & Etbs & Htbs & _ & _ & _ & -> & Hge & Hnone & _).
  apply (build_vector_database_ok svc _ _ _ _ ts tbs) in Hb
    as (docs & X & C & L); try done.
  cbn [processor fresh_rag] in *.
  assert (Hd : indexed_descriptions p = image_descriptions p
               /\ length (image_descriptions p) = length (images p)).
  { unfold indexed_descriptions in *.
    destruct (image_descriptions p) as [|d ds] eqn:Ed.
    { split; [done|]. cbn in *. lia. }
    destruct (image_metadata p) as [metas|] eqn:Em.
    - split; [done|]. destruct L as [?|L]; [done|]. cbn in *. lia.
    - by specialize (Hnone eq_refl). }
  destruct Hd as [Hd1 Hd2]. rewrite Hd1 in C.
  pose proof X as (V & _ & P & _). cbn in V, P. rewrite P.
  split; [by apply (extends_keys_match (fresh_rag id p) rag docs)|].
  assert (Hlen : length (vectorstore rag) = length (map page_content docs)).
  { by rewrite V, length_map. }
  rewrite C, !length_app in Hlen. cbn [counts_of count_texts count_tables count_images].
  split; [lia|]. exists ts, tbs. rewrite V. repeat split; try done; lia.
Qed.

End Ingestion.

(** ** Unit counts *)

(** C6.  In every reachable state, a COMPLETED document has its unit counts
    recorded and its [RAGService] stored, and the sum of the counts of
    texts, tables and images is the number of vectors that
    [build_vector_database] inserted, each of which has its raw content in
    the docstore under its key. *)
Theorem elements_count_matches_index (settings : Settings) (s : Sys)
    (id : string) (d : DocInfo) :
  reachable settings s ->
  document_store s !! id = Some d ->
  di_status d = COMPLETED ->
  exists c rag,
    di_elements_count d = Some c
    /\ rag_services s !! id = Some rag
    /\ count_texts c + count_tables c + count_images c = length (vectorstore rag)
    /\ (forall v, v ∈ vectorstore rag -> is_Some (docstore rag !! doc_id v)).
Proof.
  intros Hreach Hd Hst.
  destruct (inv_counted _ _ _ (reachable_counts_inv settings s Hreach) id d Hd Hst)
    as [c Hc].
  destruct (inv_rag _ _ (reachable_inv settings s Hreach) id) as [rag Hrag].
  { unfold status_of. rewrite Hd. cbn. by rewrite Hst. }
  destruct (inv_same_run _ _ _ (reachable_counts_inv settings s Hreach)
              id d c rag Hd Hc Hrag) as (svc & fp & w & Hi).
  apply ingest_index in Hi as (K & L & _).
  exists c, rag. repeat split; try done.
  intros v Hv. apply K. apply list_elem_of_fmap. eauto.
Qed.

Lemma elements_count_matches_index_witness :
  exists s d,
    run default_settings Sample.completed initial_sys = Some s
    /\ document_store s !! "d1" = Some d
    /\ exists c rag,
         di_elements_count d = Some c
         /\ rag_services s !! "d1" = Some rag
         /\ count_texts c + count_tables c + count_images c = length (vectorstore rag)
         /\ (forall v, v ∈ vectorstore rag -> is_Some (docstore rag !! doc_id v)).
Proof.
  eexists _, _. split; [vm_compute; reflexivity|]. split; [vm_compute; reflexivity|].
  eapply (elements_count_matches_index default_settings).
  - exists Sample.completed. vm_compute. reflexivity.
  - vm_compute. reflexivity.
  - reflexivity.
Defined.

(** ** The index and its visibility *)

(** A query on a document that is not COMPLETED reads no [RAGService]. *)
Lemma query_ignores_rag_services (q : QueryServices) (request : QueryRequest)
    (s : Sys) (rs : gmap string RAGService) :
  status_of s (req_document_id request) <> Some COMPLETED ->
  query_document q request (set_rag_services rs s) = query_document q request s
  /\ documents_query_document q (req_document_id request) request (set_rag_services rs s)
     = documents_query_document q (req_document_id request) request s.
Proof.
  unfold status_of, query_document, documents_query_document. cbn.
  destruct (document_store s !! req_document_id request) as [d|]; [|done]. cbn.
  intros H. destruct (di_status d); try done.
Qed.

(** C5.  After a stretch of ingestion run from a reachable state:
    - every [RAGService] in [rag_services], the one just built included, has
      for every vector a raw content under the same key and for every raw
      content a vector;
    - when the ingestion raised, [rag_services] is unchanged, the document
      (if still registered) is FAILED, and both query handlers answer
      without reading an index;
    - a query on a document that is not COMPLETED returns the same with any
      [rag_services], so what an aborted or running ingestion has built is
      not observable. *)
Theorem partial_index_never_queryable (settings : Settings) (s s' : Sys)
    (id : string) (svc : Services) (t : Q) :
  reachable settings s ->
  exec settings (TaskIngest id svc t) s = Some s' ->
  (forall id' rag, rag_services s' !! id' = Some rag -> keys_match rag)
  /\ (forall file_path rest e w,
        take_ingesting id (ingesting s) = Some (file_path, rest) ->
        ingest settings svc id file_path initial_world = (Err e, w) ->
        rag_services s' = rag_services s
        /\ (is_Some (document_store s !! id) ->
            status_of s' id = Some FAILED
            /\ forall q request, req_document_id request = id ->
                 query_document q request s' = Ok (failed_response id)
                 /\ documents_query_document q id request s'
                    = Err (HTTPException 400 "Document is not processed yet")))
  /\ (forall q request rs,
        status_of s' (req_document_id request) <> Some COMPLETED ->
        query_document q request (set_rag_services rs s') = query_document q request s'
        /\ documents_query_document q (req_document_id request) request
             (set_rag_services rs s')
           = documents_query_document q (req_document_id request) request s').
Proof.
  intros Hreach He. split; [|split].
  - intros id' rag Hrag.
    pose proof (reachable_inv settings s' (reachable_exec settings _ s s' Hreach He)) as I.
    destruct (inv_built _ _ I id' rag Hrag) as (svc' & fp & c & w & Hi).
    by apply ingest_index in Hi as [K _].
  - intros fp rest e w Ht Hi. cbn [exec] in He. rewrite Ht in He. cbn in He.
    injection He as <-. unfold background_ingest. rewrite Hi.
    rewrite mark_failed_rag. split; [done|]. intros [d Hd].
    assert (Hst : status_of (mark_failed id e (set_ingesting rest s)) id = Some FAILED).
    { rewrite status_of_mark_failed. rewrite decide_True by done.
      unfold status_of. cbn. by rewrite Hd. }
    split; [done|]. intros q request <-.
    unfold status_of in Hst. unfold query_document, documents_query_document.
    destruct (document_store _ !! req_document_id request) as [d'|]; [|done].
    cbn in Hst. injection Hst as ->.
    split; [done|]. by rewrite decide_True.
  - intros q request rs. apply query_ignores_rag_services.
Qed.

Lemma partial_index_never_queryable_witness :
  exists s s',
    run default_settings
      [ Upload "d1" 0 Sample.disk_ok Sample.report; Process "d1"; TaskStart "d1" ]
      initial_sys = Some s
    /\ exec default_settings (TaskIngest "d1" Sample.corrupt_pdf 3) s = Some s'
    /\ (forall id' rag, rag_services s' !! id' = Some rag -> keys_match rag)
    /\ status_of s' "d1" = Some FAILED
    /\ query_document Sample.answering (Sample.ask "d1") s' = Ok (failed_response "d1").
Proof.
  eexists _, _. split; [vm_compute; reflexivity|]. split; [vm_compute; reflexivity|].
  match goal with |- (forall id' rag, rag_services ?s' !! id' = _ -> _) /\ _ =>
    destruct (partial_index_never_queryable default_settings
                (set_ingesting [("d1", "storage/uploads/d1_report.pdf")]
                   (set_document_store
                      (<["d1" := {| di_filename := "report.pdf";
                                    di_file_path := "storage/uploads/d1_report.pdf";
                                    di_file_size := 2048; di_upload_time := 0;
                                    di_status := PROCESSING;
                                    di_processing_time := None;
                                    di_elements_count := None;
                                    di_error_message := None |}]> ∅) initial_sys))
                s' "d1" Sample.corrupt_pdf 3) as (K & F & _)
  end.
  - exists [ Upload "d1" 0 Sample.disk_ok Sample.report; Process "d1"; TaskStart "d1" ].
    vm_compute. reflexivity.
  - vm_compute. reflexivity.
  - split; [exact K|].
    destruct (F "storage/uploads/d1_report.pdf" []
                (ProcessingError
                   "Processing failed: No /Root object! - Is this really a PDF?" "d1")
                initial_world) as (_ & G).
    + vm_compute. reflexivity.
    + vm_compute. reflexivity.
    + destruct G as [G1 G2]; [vm_compute; eauto|]. split; [exact G1|].
      exact (proj1 (G2 Sample.answering (Sample.ask "d1") eq_refl)).
Defined.

(** ** A failing vision service *)

Section VisionFailure.

Context (settings : Settings) (svc : Services).

(** When every collaborator but the vision service answers, the ingestion
    reaches its end whatever the vision service does. *)
Lemma ingest_succeeds id file_path :
  MAX_IMAGES_PER_REQUEST settings <> 0%Z ->
  others_answer settings svc id file_path ->
  exists c rag w cs,
    ingest settings svc id file_path initial_world = (Ok (c, rag), w)
    /\ partition_pdf svc file_path = Ok cs
    /\ images (processor rag) = _extract_images_base64 cs
    /\ image_descriptions (processor rag)
       = imap (fun i img => description_of svc i img) (images (processor rag))
    /\ default [] (image_metadata (processor rag))
       = imap (fun i img =>
                 saved_meta (IMAGES_FOLDER settings ++ "/" ++ id) i (uuid4 svc i)
                   (description_of svc i img)) (images (processor rag)).
Proof.
  intros HN (Hbc & Hmk & Him & Hpdf & Hwr & Htx & Htb & Hrc & Hcm & Hadd).
  destruct (partition_pdf svc file_path) as [cs|] eqn:Ecs; [|done].
  (* the processor *)
  pose proof (processor_process_document_eq settings svc file_path
                (fresh_processor settings id) initial_world) as Ep.
  rewrite Ecs in Ep. cbn zeta in Ep.
  remember (extracted cs (fresh_processor settings id)) as p1 eqn:Ep1.
  assert (Hp1 : image_descriptions p1 = [] /\ image_metadata p1 = None
                /\ images p1 = _extract_images_base64 cs
                /\ doc_folder p1 = IMAGES_FOLDER settings ++ "/" ++ id)
    by (subst p1; done).
  destruct Hp1 as (Hp1d & Hp1m & Hp1i & Hp1f).
  destruct (with_images_frame settings svc (p1, initial_world))
    as (_ & _ & _ & Htb2 & Htx2 & Him2 & _ & _).
  assert (Hdesc : image_descriptions (with_images settings svc (p1, initial_world)).1
                  = imap (fun i img => description_of svc i img) (images p1)
                  /\ default [] (image_metadata
                                   (with_images settings svc (p1, initial_world)).1)
                     = imap (fun i img =>
                               saved_meta (IMAGES_FOLDER settings ++ "/" ++ id) i
                                 (uuid4 svc i) (description_of svc i img)) (images p1)).
  { unfold with_images. cbn [fst snd]. destruct (images p1) as [|img imgs] eqn:Ei.
    { cbn [fst snd]. rewrite Hp1d, Hp1m. done. }
    rewrite <- Ei.
    destruct (image_steps_written settings svc (images p1) 0
                (set_image_metadata (Some []) p1) initial_world HN Hwr) as [E1 E2].
    rewrite E1, E2. cbn. rewrite Hp1d, Hp1f. done. }
  destruct (with_images settings svc (p1, initial_world)) as [p2 w2] eqn:E2.
  cbn [fst snd] in *.
  destruct (map_result_all_ok (text_chain svc) (map chunk_text (texts p2)))
    as [ts Ets]; [by apply Forall_forall|].
  destruct (map_result_all_ok (table_chain svc) (map text_as_html (tables p2)))
    as [tbs Etbs]; [by apply Forall_forall|].
  rewrite Ets, Etbs in Ep.
  apply map_result_length in Ets as Hts. apply map_result_length in Etbs as Htbs.
  rewrite length_map in Hts, Htbs.
  set (p3 := set_table_summaries (Some tbs) (set_text_summaries (Some ts) p2)) in *.
  (* the index *)
  destruct (build_vector_database_succeeds svc (fresh_rag id p3) w2 ts tbs Hadd)
    as (rag & w3 & Eb); try done.
  { cbn. destruct Hdesc as [-> _]. by rewrite length_imap, Him2. }
  pose proof Eb as Eb'.
  apply (build_vector_database_ok svc _ _ _ _ ts tbs) in Eb'
    as (docs & (_ & _ & P & _) & _); try done.
  cbn in P.
  exists (counts_of p1), rag, w3, cs. split.
  { unfold ingest. unfold bind at 1, attempt. rewrite Hbc. unfold ret at 1.
    unfold bind at 1, new_DocumentProcessor. rewrite Hmk, Him.
    fold (fresh_processor settings id).
    unfold bind at 1, with_object. rewrite Ep.
    unfold bind at 1, new_RAGService. cbn [fst snd]. rewrite Hrc, Hcm.
    fold (fresh_rag id p3). unfold bind at 1. rewrite Eb. done. }
  rewrite P. cbn. rewrite Him2. destruct Hdesc as [-> ->]. done.
Qed.

End VisionFailure.

(** C7.  When the batch size is not zero and every collaborator but the
    vision service answers, then whatever the vision service does:
    - the ingestion reaches its end and the background task marks the
      document COMPLETED;
    - every image has one description and one entry of metadata with its
      file, and for an image whose vision call raised [e] both carry the
      placeholder "Error processing image: <e>";
    - the vectors are the text summaries, the table summaries and the image
      descriptions, one per unit, each with its raw content in the
      docstore. *)
Theorem vision_failure_is_not_fatal (settings : Settings) (svc : Services)
    (id file_path : string) :
  MAX_IMAGES_PER_REQUEST settings <> 0%Z ->
  others_answer settings svc id file_path ->
  exists c rag w,
    ingest settings svc id file_path initial_world = (Ok (c, rag), w)
    /\ (forall s t, is_Some (document_store s !! id) ->
          status_of (background_ingest settings svc t id file_path s) id
          = Some COMPLETED)
    /\ length (image_descriptions (processor rag)) = length (images (processor rag))
    /\ (forall i img e,
          images (processor rag) !! i = Some img ->
          generate_content svc i img = Err e ->
          image_descriptions (processor rag) !! i
            = Some ("Error processing image: " ++ exn_str e)
          /\ exists m, default [] (image_metadata (processor rag)) !! i = Some m
                       /\ meta_description m = "Error processing image: " ++ exn_str e
                       /\ original_index m = i
                       /\ is_Some (meta_path m))
    /\ (exists ts tbs,
          map_result (text_chain svc) (map chunk_text (texts (processor rag))) = Ok ts
          /\ map_result (table_chain svc) (map text_as_html (tables (processor rag)))
             = Ok tbs
          /\ map page_content (vectorstore rag)
             = (ts ++ tbs ++ image_descriptions (processor rag))%list)
    /\ length (vectorstore rag) = count_texts c + count_tables c + count_images c
    /\ keys_match rag.
Proof.
  intros HN Hothers.
  destruct (ingest_succeeds settings svc id file_path HN Hothers)
    as (c & rag & w & cs & Ei & Ecs & Himg & Hdesc & Hmeta).
  exists c, rag, w. split; [done|].
  destruct (ingest_index settings svc id file_path c rag w Ei)
    as (K & L & ts & tbs & Ets & Etbs & C & _).
  split; [|split; [|split; [|split; [|split]]]]; try done.
  - intros s t [d Hd]. unfold background_ingest. rewrite Ei.
    cbn [document_store set_rag_services]. rewrite Hd.
    unfold status_of. cbn. by rewrite lookup_insert_eq.
  - by rewrite Hdesc, length_imap.
  - intros i img e Hi He. rewrite Hdesc, Hmeta, !list_lookup_imap, Hi. cbn.
    unfold description_of. rewrite He. split; [done|].
    eexists. split; [done|]. cbn. repeat split. by eexists.
  - apply ingest_ok in Ei as (p & w1 & Hp & Hb).
    apply processed_facts in Hp
      as (cs' & ts' & tbs' & _ & Ets' & _ & Etbs' & _ & Mts & Mtbs & _).
    apply (build_vector_database_ok svc _ _ _ _ ts' tbs') in Hb
      as (docs & (_ & _ & P & _) & _); try done.
    2,3: by (apply map_result_length in Mts, Mtbs; rewrite length_map in *).
    cbn in P. subst p. exists ts, tbs.
    rewrite Ets in Ets'. rewrite Etbs in Etbs'.
    injection Ets' as <-. injection Etbs' as <-. done.
Qed.

(** The scenario of the specification: one text, one image, and a vision
    service that raises. *)
Lemma vision_failure_is_not_fatal_witness :
  exists c rag w,
    ingest default_settings (Sample.vision_down Sample.one_text_one_image) "d1"
      "storage/uploads/d1_report.pdf" initial_world = (Ok (c, rag), w)
    /\ image_descriptions (processor rag)
       = [ "Error processing image: 429 quota exceeded" ]
    /\ map page_content (vectorstore rag)
       = [ "Summary of: Ohm's law relates voltage and current.";
           "Error processing image: 429 quota exceeded" ].
Proof.
  destruct (vision_failure_is_not_fatal default_settings
              (Sample.vision_down Sample.one_text_one_image) "d1"
              "storage/uploads/d1_report.pdf")
    as (c & rag & w & Ei & _).
  - vm_compute. discriminate.
  - unfold others_answer. repeat split; reflexivity.
  - exists c, rag, w. split; [exact Ei|].
    vm_compute in Ei. injection Ei as <- <- <-. split; vm_compute; reflexivity.
Defined.

(** * Further properties of the handlers *)

(** ** Deleting a document *)

(** X1.  Deleting a registered document whose files can be removed
    unregisters it and drops its [RAGService]: the status endpoint and a
    second delete then answer 404.  Other documents and their services are
    untouched, and so are the background tasks: the task of the deleted
    document is not cancelled. *)
Theorem delete_document_removes (document_id : string) (s : Sys) (doc_info : DocInfo) :
  document_store s !! document_id = Some doc_info ->
  let out := delete_document document_id None s in
  out.1 = Ok "Document deleted successfully"
  /\ document_store out.2 !! document_id = None
  /\ rag_services out.2 !! document_id = None
  /\ get_document_status document_id out.2
     = Err (HTTPException 404 "Document not found")
  /\ (forall fs, delete_document document_id fs out.2
                 = (Err (HTTPException 404 "Document not found"), out.2))
  /\ (forall other, other <> document_id ->
        document_store out.2 !! other = document_store s !! other
        /\ rag_services out.2 !! other = rag_services s !! other)
  /\ scheduled out.2 = scheduled s /\ ingesting out.2 = ingesting s
  /\ notifying out.2 = notifying s.
Proof.
  intros Hd out.
  assert (E : out = (Ok "Document deleted successfully",
                     set_rag_services (delete document_id (rag_services s))
                       (set_document_store (delete document_id (document_store s)) s))).
  { subst out. unfold delete_document. by rewrite Hd. }
  rewrite E. cbn [fst snd].
  assert (Hgone : document_store
            (set_rag_services (delete document_id (rag_services s))
               (set_document_store (delete document_id (document_store s)) s))
            !! document_id = None) by (cbn; apply lookup_delete_eq).
  repeat split; try done.
  - cbn. apply lookup_delete_eq.
  - unfold get_document_status. by rewrite Hgone.
  - intros fs. unfold delete_document. by rewrite Hgone.
  - cbn. by rewrite lookup_delete_ne.
  - cbn. by rewrite lookup_delete_ne.
Qed.

Lemma delete_document_removes_witness :
  exists s, run default_settings Sample.completed initial_sys = Some s
    /\ get_document_status "d1" (delete_document "d1" None s).2
       = Err (HTTPException 404 "Document not found").
Proof.
  eexists. split; [vm_compute; reflexivity|].
  refine (proj1 (proj2 (proj2 (proj2
    (delete_document_removes "d1" _
       {| di_filename := "report.pdf";
          di_file_path := "storage/uploads/d1_report.pdf";
          di_file_size := 2048; di_upload_time := 0;
          di_status := COMPLETED; di_processing_time := Some 3%Q;
          di_elements_count := Some {| count_texts := 1; count_tables := 0;
                                       count_images := 1 |};
          di_error_message := None |} _))))).
  vm_compute. reflexivity.
Defined.

(** ** Registered documents across operations *)

Section Documents.

Context (settings : Settings).

Lemma same_upload_refl d : same_upload d d.
Proof. by repeat split. Qed.

Ltac unchanged_entry :=
  match goal with
  | |- context [document_store ?s !! ?id] =>
      destruct (document_store s !! id);
      [right; eauto using same_upload_refl | by left]
  end.

(** What one operation does to the entry of [id]. *)
Lemma exec_document o s s' id :
  exec settings o s = Some s' ->
  match document_store s !! id with
  | Some d =>
      document_store s' !! id = None
      \/ exists d', document_store s' !! id = Some d' /\ same_upload d d'
  | None =>
      document_store s' !! id = None
      \/ exists now fs file, o = Upload id now fs file
  end.
Proof.
  destruct o as [id0 now fs file|id0| | | |id0 fs|id0|id0 svc t|id0 outcome];
    cbn [exec].
  - (* Upload *)
    case_decide as Huse; [done|]. intros [= <-]. unfold upload_document.
    destruct (negb _); [cbn; unchanged_entry|].
    destruct (_ >? _)%Z; [cbn; unchanged_entry|].
    destruct (fs _); [cbn; unchanged_entry|].
    cbn. rewrite lookup_insert. case_decide.
    + subst. destruct (document_store s !! id) as [d|] eqn:E.
      * exfalso. apply Huse. left. by rewrite E.
      * right. eauto.
    + unchanged_entry.
  - (* Process *)
    intros [= <-]. destruct (document_store s !! id0) as [d0|] eqn:H0.
    2:{ unfold process_document. rewrite H0. cbn.
        unchanged_entry. }
    destruct (decide (di_status d0 = PROCESSING \/ di_status d0 = COMPLETED)) as [Hst|Hst].
    { destruct (process_document_noop id0 s d0 H0 Hst) as [-> _].
      unchanged_entry. }
    destruct (process_document_start id0 s d0 H0) as [-> _]; [tauto..|]. cbn.
    rewrite lookup_insert. case_decide.
    + subst. rewrite H0. right. eexists. split; [done|]. by repeat split.
    + unchanged_entry.
  - intros [= <-]. unchanged_entry.
  - intros [= <-]. unchanged_entry.
  - intros [= <-]. unchanged_entry.
  - (* Delete *)
    intros [= <-]. unfold delete_document.
    destruct (document_store s !! id0) as [d0|] eqn:H0.
    2:{ cbn. unchanged_entry. }
    destruct fs.
    { cbn. unchanged_entry. }
    cbn. rewrite lookup_delete. case_decide.
    + destruct (document_store s !! id); by left.
    + unchanged_entry.
  - (* TaskStart *)
    destruct (take_task id0 (scheduled s)) as [rest|]; [|done]. cbn.
    intros [= <-]. unfold background_start. cbn.
    destruct (document_store s !! id0) as [d0|] eqn:H0.
    2:{ cbn. unchanged_entry. }
    cbn. rewrite lookup_insert. case_decide.
    + subst. rewrite H0. right. eexists. split; [done|]. by repeat split.
    + unchanged_entry.
  - (* TaskIngest *)
    destruct (take_ingesting id0 (ingesting s)) as [[fp rest]|]; [|done]. cbn.
    intros [= <-]. unfold background_ingest.
    destruct (ingest settings svc id0 fp initial_world) as [[[c rag]|e] w].
    2:{ unfold mark_failed. cbn.
        destruct (document_store s !! id0) as [d0|] eqn:H0.
        - cbn. rewrite lookup_insert. case_decide.
          + subst. rewrite H0. right. eexists. split; [done|]. by repeat split; cbn; eauto.
          + unchanged_entry.
        - cbn. unchanged_entry. }
    cbn. destruct (document_store s !! id0) as [d0|] eqn:H0.
    + cbn. rewrite lookup_insert. case_decide.
      * subst. rewrite H0. right. eexists. split; [done|]. by repeat split.
      * unchanged_entry.
    + cbn. unchanged_entry.
  - (* TaskNotify *)
    destruct (take_task id0 (notifying s)) as [rest|]; [|done]. cbn.
    intros [= <-]. unfold background_notify. destruct outcome as [e|].
    2:{ cbn. unchanged_entry. }
    unfold mark_failed. cbn.
    destruct (document_store s !! id0) as [d0|] eqn:H0.
    + cbn. rewrite lookup_insert. case_decide.
      * subst. rewrite H0. right. eexists. split; [done|]. by repeat split; cbn; eauto.
      * unchanged_entry.
    + cbn. unchanged_entry.
Qed.

(** X2.  No operation changes the file name, file path, size or upload time
    of a document that stays registered, and none clears its error message:
    a document that failed once keeps the message through a retry, also when
    the retry completes. *)
Theorem upload_fields_never_change (o : op) (s s' : Sys) (id : string) (d d' : DocInfo) :
  exec settings o s = Some s' ->
  document_store s !! id = Some d ->
  document_store s' !! id = Some d' ->
  di_filename d' = di_filename d
  /\ di_file_path d' = di_file_path d
  /\ di_file_size d' = di_file_size d
  /\ di_upload_time d' = di_upload_time d
  /\ (is_Some (di_error_message d) -> is_Some (di_error_message d')).
Proof.
  intros He Hd Hd'. pose proof (exec_document o s s' id He) as H.
  rewrite Hd in H. destruct H as [H|(d0 & H & Hs)]; [congruence|].
  rewrite Hd' in H. by injection H as <-.
Qed.

(** X3.  Only [upload_document] registers a document: an identifier that is
    not registered before an operation and is registered after it was
    uploaded by that operation.  In particular no stretch of a background
    task brings a deleted document back. *)
Theorem only_upload_registers (o : op) (s s' : Sys) (id : string) :
  exec settings o s = Some s' ->
  document_store s !! id = None ->
  is_Some (document_store s' !! id) ->
  exists now fs file,
    o = Upload id now fs file
    /\ status_of s' id = Some PENDING.
Proof.
  intros He Hd [d' Hd']. pose proof (exec_document o s s' id He) as H.
  rewrite Hd in H. destruct H as [H|(now & fs & file & ->)]; [congruence|].
  exists now, fs, file. split; [done|].
  cbn in He. case_decide; [done|]. injection He as <-.
  unfold upload_document in *. destruct (negb _); [cbn in Hd'; congruence|].
  destruct (_ >? _)%Z; [cbn in Hd'; congruence|].
  destruct (fs _); [cbn in Hd'; congruence|].
  unfold status_of. cbn. by rewrite lookup_insert_eq.
Qed.

(** The fields of every document agree with its status. *)
Lemma coherent_exec o s s' :
  exec settings o s = Some s' ->
  (forall id d, document_store s !! id = Some d -> coherent d) ->
  forall id d, document_store s' !! id = Some d -> coherent d.
Proof.
  intros He I.
  assert (Hins : forall id0 d0 (m : gmap string DocInfo),
            (forall id d, m !! id = Some d -> coherent d) -> coherent d0 ->
            forall id d, <[id0 := d0]> m !! id = Some d -> coherent d).
  { intros id0 d0 m Hm H0 id d. rewrite lookup_insert. case_decide; [|by apply Hm].
    by intros [= <-]. }
  assert (Hfail : forall id0 e s0, document_store s0 = document_store s ->
            forall id d, document_store (mark_failed id0 e s0) !! id = Some d ->
                         coherent d).
  { intros id0 e s0 E0. unfold mark_failed. rewrite E0.
    destruct (document_store s !! id0) as [d0|]; [|by rewrite E0].
    cbn. apply Hins; [done|]. unfold coherent. cbn. by eexists. }
  destruct o as [id0 now fs file|id0| | | |id0 fs|id0|id0 svc t|id0 outcome];
    cbn [exec] in He.
  - case_decide; [done|]. injection He as <-. unfold upload_document.
    destruct (negb _); [done|]. destruct (_ >? _)%Z; [done|].
    destruct (fs _); [done|]. cbn. by apply Hins.
  - injection He as <-. destruct (document_store s !! id0) as [d0|] eqn:H0.
    2:{ unfold process_document. by rewrite H0. }
    destruct (decide (di_status d0 = PROCESSING \/ di_status d0 = COMPLETED)) as [Hst|Hst].
    { by destruct (process_document_noop id0 s d0 H0 Hst) as [-> _]. }
    destruct (process_document_start id0 s d0 H0) as [-> _]; [tauto..|]. cbn.
    by apply Hins.
  - by injection He as <-.
  - by injection He as <-.
  - by injection He as <-.
  - injection He as <-. unfold delete_document.
    destruct (document_store s !! id0); [|done]. destruct fs; [done|]. cbn.
    intros id1 d1. rewrite lookup_delete. case_decide; [done|]. apply I.
  - destruct (take_task id0 (scheduled s)) as [rest|]; [|done]. cbn in He.
    injection He as <-. unfold background_start. cbn.
    destruct (document_store s !! id0); [|done]. cbn. by apply Hins.
  - destruct (take_ingesting id0 (ingesting s)) as [[fp rest]|]; [|done]. cbn in He.
    injection He as <-. unfold background_ingest.
    destruct (ingest settings svc id0 fp initial_world) as [[[c rag]|e] w];
      [|by apply Hfail].
    cbn. destruct (document_store s !! id0); [|done]. cbn. apply Hins; [done|].
    unfold coherent. cbn. split; by eexists.
  - destruct (take_task id0 (notifying s)) as [rest|]; [|done]. cbn in He.
    injection He as <-. unfold background_notify.
    destruct outcome; [by apply Hfail|done].
Qed.

(** X4.  In every reachable state the fields of a document agree with its
    status: a PENDING document has no processing time, no unit counts and no
    error message; a COMPLETED document has its processing time and its unit
    counts; a FAILED document has an error message. *)
Theorem document_fields_agree_with_status (s : Sys) (id : string) (d : DocInfo) :
  reachable settings s ->
  document_store s !! id = Some d ->
  match di_status d with
  | PENDING =>
      di_processing_time d = None /\ di_elements_count d = None
      /\ di_error_message d = None
  | PROCESSING => True
  | COMPLETED =>
      is_Some (di_processing_time d) /\ is_Some (di_elements_count d)
  | FAILED => is_Some (di_error_message d)
  end.
Proof.
  intros [ops Hr]. revert id d.
  change (forall id d, document_store s !! id = Some d -> coherent d).
  assert (forall ops s0, run settings ops s0 = Some s ->
            (forall id d, document_store s0 !! id = Some d -> coherent d) ->
            forall id d, document_store s !! id = Some d -> coherent d) as H.
  { clear. induction ops as [|o ops IH]; intros s0; cbn.
    - by intros [= <-].
    - destruct (exec settings o s0) as [s1|] eqn:E; [|done]. cbn.
      intros Hr I. apply (IH s1 Hr). by eapply coherent_exec. }
  apply (H ops initial_sys Hr). intros id d. cbn. by rewrite lookup_empty.
Qed.

End Documents.

Lemma upload_fields_never_change_witness :
  exists d',
    document_store (process_document "d1" (Sample.state_after Sample.failed)).2 !! "d1"
      = Some d'
    /\ di_status d' = PROCESSING
    /\ is_Some (di_error_message d').
Proof.
  eexists. split; [vm_compute; reflexivity|]. split; [reflexivity|].
  refine (proj2 (proj2 (proj2 (proj2
    (upload_fields_never_change default_settings (Process "d1")
       (Sample.state_after Sample.failed) _ "d1" _ _ _ _ _)))) _).
  - reflexivity.
  - vm_compute. reflexivity.
  - vm_compute. reflexivity.
  - by eexists.
Defined.

Lemma only_upload_registers_witness :
  exists now fs file,
    Upload "d1" 0 Sample.disk_ok Sample.report = Upload "d1" now fs file
    /\ status_of (upload_document default_settings "d1" 0 Sample.disk_ok
                    Sample.report initial_sys).2 "d1" = Some PENDING.
Proof.
  apply (only_upload_registers default_settings _ initial_sys).
  - vm_compute. reflexivity.
  - reflexivity.
  - vm_compute. by eexists.
Defined.

Lemma document_fields_agree_with_status_witness :
  exists d,
    document_store (Sample.state_after Sample.failed) !! "d1" = Some d
    /\ di_status d = FAILED /\ is_Some (di_error_message d).
Proof.
  eexists. split; [vm_compute; reflexivity|]. split; [reflexivity|].
  match goal with |- is_Some (di_error_message ?d) =>
    exact (document_fields_agree_with_status default_settings
             (Sample.state_after Sample.failed) "d1" d
             (ex_intro _ Sample.failed eq_refl) eq_refl)
  end.
Defined.

(** ** A background task whose document was deleted *)

(** X5.  When the document was deleted while its ingestion was running, the
    end of the task registers nothing and schedules no broadcast, but a run
    that reached its end still stores its [RAGService]: [rag_services] then
    holds an entry for an identifier that is not registered. *)
Theorem ingestion_of_deleted_document (settings : Settings) (svc : Services) (t : Q)
    (id : string) (s s' : Sys) :
  document_store s !! id = None ->
  exec settings (TaskIngest id svc t) s = Some s' ->
  document_store s' = document_store s
  /\ scheduled s' = scheduled s /\ notifying s' = notifying s
  /\ (forall file_path rest c rag w,
        take_ingesting id (ingesting s) = Some (file_path, rest) ->
        ingest settings svc id file_path initial_world = (Ok (c, rag), w) ->
        rag_services s' !! id = Some rag)
  /\ (forall file_path rest e w,
        take_ingesting id (ingesting s) = Some (file_path, rest) ->
        ingest settings svc id file_path initial_world = (Err e, w) ->
        rag_services s' = rag_services s).
Proof.
  intros Hd He. cbn in He.
  destruct (take_ingesting id (ingesting s)) as [[fp rest]|] eqn:Ht; [|done].
  cbn in He. injection He as <-. unfold background_ingest.
  destruct (ingest settings svc id fp initial_world) as [[[c rag]|e] w] eqn:Ei.
  - cbn. rewrite Hd. cbn. repeat split; try done.
    + intros fp' rest' c' rag' w' [= <- <-]. rewrite Ei. intros [= <- <- <-].
      apply lookup_insert_eq.
    + intros fp' rest' e' w' [= <- <-]. by rewrite Ei.
  - unfold mark_failed. cbn. rewrite Hd. cbn. repeat split; try done.
    intros fp' rest' c' rag' w' [= <- <-]. by rewrite Ei.
Qed.

Lemma ingestion_of_deleted_document_witness :
  exists s s' rag,
    run default_settings SampleRuns.deleted_while_ingesting initial_sys = Some s
    /\ exec default_settings
         (TaskIngest "d1" (Sample.services Sample.one_text_one_image) 3) s = Some s'
    /\ document_store s' !! "d1" = None
    /\ rag_services s' !! "d1" = Some rag.
Proof.
  exists (Sample.state_after SampleRuns.deleted_while_ingesting).
  eexists _, _. split; [vm_compute; reflexivity|]. split; [vm_compute; reflexivity|].
  split; [vm_compute; reflexivity|].
  refine (proj1 (proj2 (proj2 (proj2
    (ingestion_of_deleted_document default_settings
       (Sample.services Sample.one_text_one_image) 3 "d1"
       (Sample.state_after SampleRuns.deleted_while_ingesting) _ _ _))))
    "storage/uploads/d1_report.pdf" [] _ _ _ _ _).
  - vm_compute. reflexivity.
  - vm_compute. reflexivity.
  - vm_compute. reflexivity.
  - vm_compute. reflexivity.
Defined.

(** ** Readiness and queries *)

(** X6.  [get_query_readiness] reports [ready] exactly for a COMPLETED
    document, and in a reachable state a ready document is answered from its
    index: [query_document] returns a response whose [status_info] is
    "completed", or "error" when the query itself failed, never one of the
    waiting messages. *)
Theorem ready_documents_are_answered (settings : Settings) (q : QueryServices)
    (request : QueryRequest) (s : Sys) (rd : Readiness) :
  reachable settings s ->
  get_query_readiness (req_document_id request) s = Ok rd ->
  (rd_ready rd = true <-> rd_status rd = COMPLETED)
  /\ status_of s (req_document_id request) = Some (rd_status rd)
  /\ (rd_ready rd = true ->
      exists r si,
        query_document q request s = Ok r
        /\ status_info r = Some si
        /\ (si_status si = "completed" \/ si_status si = "error")).
Proof.
  intros Hreach. unfold get_query_readiness, status_of.
  destruct (document_store s !! req_document_id request) as [d|] eqn:Hd; [|done].
  intros [= <-]. cbn. split; [|split; [done|]].
  { destruct (di_status d); cbn; split; done. }
  intros Hready. assert (Hst : di_status d = COMPLETED).
  { destruct (di_status d); cbn in Hready; done. }
  destruct (inv_rag _ _ (reachable_inv settings s Hreach) (req_document_id request))
    as [rag Hrag].
  { unfold status_of. rewrite Hd. cbn. by rewrite Hst. }
  unfold query_document. rewrite Hd, Hst, Hrag.
  destruct (rag_query _ _ _ _); eexists _, _; (split; [done|]); cbn; auto.
Qed.

Lemma ready_documents_are_answered_witness :
  exists r si,
    query_document Sample.retriever_down (Sample.ask "d1")
      (Sample.state_after Sample.completed) = Ok r
    /\ status_info r = Some si
    /\ (si_status si = "completed" \/ si_status si = "error").
Proof.
  refine (proj2 (proj2
    (ready_documents_are_answered default_settings Sample.retriever_down
       (Sample.ask "d1") (Sample.state_after Sample.completed) _ _ _)) _).
  - exists Sample.completed. vm_compute. reflexivity.
  - vm_compute. reflexivity.
  - reflexivity.
Defined.

(** ** The response of [process_document] *)

(** X7.  On a registered document the response of [process_document] is
    PROCESSING or COMPLETED and is the status that [get_document_status]
    reports right after; on an identifier that is not registered the handler answers 404
    and changes nothing. *)
Theorem process_document_reports_stored_status (document_id : string) (s : Sys) :
  match document_store s !! document_id with
  | Some _ =>
      exists resp,
        (process_document document_id s).1 = Ok resp
        /\ pr_document_id resp = document_id
        /\ (pr_status resp = PROCESSING \/ pr_status resp = COMPLETED)
        /\ exists st,
             get_document_status document_id (process_document document_id s).2 = Ok st
             /\ ds_status st = pr_status resp
  | None =>
      process_document document_id s
      = (Err (HTTPException 404 "Document not found"), s)
  end.
Proof.
  destruct (document_store s !! document_id) as [d|] eqn:Hd.
  2:{ unfold process_document. by rewrite Hd. }
  unfold process_document. rewrite Hd.
  destruct (decide (di_status d = PROCESSING)) as [Hp|Hp].
  { eexists. cbn. repeat split; [by left|]. unfold get_document_status. rewrite Hd.
    eexists. split; [done|]. cbn. by rewrite Hp. }
  destruct (decide (di_status d = COMPLETED)) as [Hc|Hc].
  { eexists. cbn. repeat split; [by right|]. unfold get_document_status. rewrite Hd.
    eexists. split; [done|]. cbn. by rewrite Hc. }
  eexists. cbn. repeat split; [by left|]. unfold get_document_status. cbn.
  rewrite lookup_insert_eq. eexists. split; done.
Qed.
(** * Further properties of the processor *)

Section ProcessorExtras.

Context (settings : Settings) (svc : Services).

(** X8.  [_describe_image] never raises and never returns the empty string:
    it makes one call of the vision service, leaves the processor as it is,
    and returns the text of the answer, "No content detected in image" when
    the answer is empty, and a placeholder with the message of the
    exception when the call raised. *)
Theorem describe_image_never_raises (image_b64 : string) (p : DocumentProcessor)
    (w : World) :
  exists d,
    _describe_image svc image_b64 (p, w) = (Ok d, (p, bump_vision w))
    /\ d <> ""
    /\ match generate_content svc (vision_calls w) image_b64 with
       | Ok t => if String.eqb t "" then d = "No content detected in image" else d = t
       | Err e => d = "Error processing image: " ++ exn_str e
       end.
Proof.
  exists (description_of svc (vision_calls w) image_b64).
  split; [apply describe_image_eq|]. unfold description_of.
  destruct (generate_content svc (vision_calls w) image_b64) as [t|e].
  - destruct (String.eqb_spec t ""); split; done.
  - split; done.
Qed.

(** X9.  [process_and_save_images] never raises, whatever the vision service,
    the disk and the settings do.  It leaves the texts, the tables, the
    images and the summaries of the processor as they are, and makes exactly
    one call of the vision service and one draw of a UUID per image, also
    for the images that could not be saved. *)
Theorem process_and_save_images_never_raises (p : DocumentProcessor) (w : World) :
  exists p' w',
    process_and_save_images settings svc (p, w) = (Ok tt, (p', w'))
    /\ document_id p' = document_id p /\ doc_folder p' = doc_folder p
    /\ texts p' = texts p /\ tables p' = tables p /\ images p' = images p
    /\ text_summaries p' = text_summaries p
    /\ table_summaries p' = table_summaries p
    /\ vision_calls w' = length (images p) + vision_calls w
    /\ uuid_drawn w' = length (images p) + uuid_drawn w.
Proof.
  rewrite process_and_save_images_eq.
  destruct (images p) as [|img imgs] eqn:Ei.
  { exists p, w. rewrite Ei. repeat split. }
  destruct (image_steps_frame settings svc (img :: imgs) 0
              (set_image_metadata (Some []) p, w))
    as (H1 & H2 & _ & H4 & H5 & H6 & H7 & H8 & H9 & H10).
  destruct (image_steps settings svc 0 (img :: imgs) _) as [p' w'].
  exists p', w'. cbn [fst snd] in *. rewrite H6. cbn in *. rewrite Ei.
  repeat split; done.
Qed.

(** One run of the loop body, by whether the image reached the disk. *)
Lemma image_step_counts i img p w :
  MAX_IMAGES_PER_REQUEST settings <> 0%Z ->
  let s' := image_step settings svc i img (p, w) in
  length (image_descriptions s'.1)
  = length (image_descriptions p) + 1
    + (if written svc (doc_folder p) (uuid_drawn w) i img then 0 else 1)
  /\ exists m, default [] (image_metadata s'.1)
               = (default [] (image_metadata p) ++ [m])%list
               /\ original_index m = i
               /\ (is_Some (meta_path m)
                   <-> written svc (doc_folder p) (uuid_drawn w) i img = true).
Proof.
  intros HN. cbn zeta. unfold image_step, written. cbn [fst snd].
  destruct (write_png svc _ img) as [e|].
  { cbn. rewrite !length_app. cbn. split; [lia|]. eexists. split; [done|].
    cbn. split; [done|]. split; [by intros []|done]. }
  destruct (Z.eqb_spec (MAX_IMAGES_PER_REQUEST settings) 0) as [|_]; [done|].
  destruct (_ =? 0)%Z; cbn; rewrite !length_app; cbn;
    (split; [lia|]); eexists; (split; [done|]); cbn; (split; [done|]);
    (split; [done|by eexists]).
Qed.

Lemma image_steps_counts imgs i0 p w :
  MAX_IMAGES_PER_REQUEST settings <> 0%Z ->
  let s' := image_steps settings svc i0 imgs (p, w) in
  length (image_descriptions s'.1)
  = length (image_descriptions p) + length imgs
    + length (filter (fun t => written svc (doc_folder p) t.2.1 t.1 t.2.2 = false)
                     (numbered i0 (uuid_drawn w) imgs))
  /\ map original_index (default [] (image_metadata s'.1))
     = (map original_index (default [] (image_metadata p)) ++ seq i0 (length imgs))%list.
Proof.
  intros HN. revert i0 p w. induction imgs as [|img imgs IH]; intros i0 p w.
  { cbn. rewrite app_nil_r. split; [lia|done]. }
  cbn [image_steps]. cbn zeta.
  destruct (image_step_counts i0 img p w HN) as (E1 & m & E2 & Hm & _).
  destruct (image_step_frame settings svc i0 img (p, w))
    as (_ & Hf & _ & _ & _ & _ & _ & _ & Hu & _).
  destruct (image_step settings svc i0 img (p, w)) as [p1 w1]. cbn [fst snd] in *.
  destruct (IH (S i0) p1 w1) as [I1 I2]. rewrite I1, I2, E1, E2, Hf, Hu.
  unfold numbered. rewrite imap_cons, filter_cons. cbn [fst snd length seq].
  rewrite !Nat.add_0_r, map_app. cbn [map]. rewrite Hm, <- app_assoc. cbn [app].
  split; [|done].
  assert (Hext : imap (fun k (img0 : string) => (S i0 + k, (S (uuid_drawn w) + k, img0))) imgs
                 = imap ((fun k (img0 : string) => (i0 + k, (uuid_drawn w + k, img0))) ∘ S) imgs).
  { apply imap_ext. intros k x _. cbn. repeat f_equal; lia. }
  rewrite Hext.
  destruct (written svc (doc_folder p) (uuid_drawn w) i0 img).
  - rewrite decide_False by done. lia.
  - rewrite decide_True by done. cbn [length]. lia.
Qed.

(** X10.  With a batch size that is not zero, [process_and_save_images] on a
    processor that has images gives [image_metadata] exactly one entry per
    image, in order, the i-th with [original_index] i; [image_descriptions]
    gains one entry per image and one more for every image that did not
    reach the disk.  The two lists have the same length exactly when every
    image was saved. *)
Theorem image_lists_lengths (p : DocumentProcessor) (w : World) :
  MAX_IMAGES_PER_REQUEST settings <> 0%Z ->
  images p <> [] ->
  let out := process_and_save_images settings svc (p, w) in
  let lost := filter (fun t => written svc (doc_folder p) t.2.1 t.1 t.2.2 = false)
                     (numbered 0 (uuid_drawn w) (images p)) in
  exists metas,
    image_metadata out.2.1 = Some metas
    /\ map original_index metas = seq 0 (length (images p))
    /\ length (image_descriptions out.2.1)
       = length (image_descriptions p) + length (images p) + length lost.
Proof.
  intros HN Hne. cbn zeta. rewrite process_and_save_images_eq. cbn [snd].
  destruct (images p) as [|img imgs] eqn:Ei; [done|]. rewrite <- Ei.
  destruct (image_steps_counts (images p) 0 (set_image_metadata (Some []) p) w HN)
    as [E1 E2].
  destruct (image_steps_descriptions settings svc (images p) 0
              (set_image_metadata (Some []) p, w)) as [_ [metas Hm]]; [by rewrite Ei|].
  exists metas. split; [done|]. rewrite Hm in E2. cbn in E1, E2. done.
Qed.




(** X12.  When every image reaches the disk and the batch size is not zero,
    the lists are aligned: [image_descriptions] gains the description of
    each image in order, and the i-th entry of [image_metadata] has
    [original_index] i, the file of image i and the i-th description. *)
Theorem image_lists_aligned (p : DocumentProcessor) (w : World) :
  MAX_IMAGES_PER_REQUEST settings <> 0%Z ->
  (forall path data, write_png svc path data = None) ->
  images p <> [] ->
  let out := process_and_save_images settings svc (p, w) in
  image_descriptions out.2.1
  = (image_descriptions p
     ++ imap (fun i img => description_of svc (vision_calls w + i) img) (images p))%list
  /\ image_metadata out.2.1
     = Some (imap (fun i img =>
                     {| meta_filename := Some (image_filename_of i (uuid4 svc (uuid_drawn w + i)));
                        meta_path := Some (image_path_of (doc_folder p) i
                                             (uuid4 svc (uuid_drawn w + i)));
                        meta_description := description_of svc (vision_calls w + i) img;
                        original_index := i;
                        meta_unique_id := Some (str_take 8 (uuid4 svc (uuid_drawn w + i))) |})
                  (images p)).
Proof.
  intros HN Hw Hne. cbn zeta. rewrite process_and_save_images_eq. cbn [snd].
  destruct (images p) as [|img imgs] eqn:Ei; [done|]. rewrite <- Ei.
  destruct (image_steps_written settings svc (images p) 0
              (set_image_metadata (Some []) p) w HN Hw) as [E1 E2].
  destruct (image_steps_descriptions settings svc (images p) 0
              (set_image_metadata (Some []) p, w)) as [_ [metas Hm]]; [by rewrite Ei|].
  split; [exact E1|]. rewrite Hm in *. cbn in E2. rewrite E2. done.
Qed.

End ProcessorExtras.

Lemma image_lists_lengths_witness :
  exists metas,
    image_metadata
      (process_and_save_images Sample.small_batches (SampleRuns.second_image_lost [])
         (Sample.processor_with_images SampleRuns.three_images, initial_world)).2.1
    = Some metas
    /\ map original_index metas = [0; 1; 2]
    /\ length (image_descriptions
         (process_and_save_images Sample.small_batches (SampleRuns.second_image_lost [])
            (Sample.processor_with_images SampleRuns.three_images, initial_world)).2.1)
       = 4.
Proof.
  refine (image_lists_lengths Sample.small_batches (SampleRuns.second_image_lost [])
            (Sample.processor_with_images SampleRuns.three_images) initial_world _ _);
    done.
Defined.

Lemma image_lists_aligned_witness :
  image_descriptions
    (process_and_save_images Sample.small_batches (Sample.services [])
       (Sample.processor_with_images SampleRuns.three_images, initial_world)).2.1
  = ["A circuit diagram."; "A circuit diagram."; "A circuit diagram."].
Proof.
  refine (proj1 (image_lists_aligned Sample.small_batches (Sample.services [])
                   (Sample.processor_with_images SampleRuns.three_images)
                   initial_world _ _ _)); done.
Defined.
Section ProcessorOutcome.

Context (settings : Settings) (svc : Services).

Lemma filter_disjoint_length {A} (P Q : A -> Prop)
    `{!forall x, Decision (P x)} `{!forall x, Decision (Q x)} (l : list A) :
  (forall x, P x -> Q x -> False) ->
  length (filter P l) + length (filter Q l) <= length l.
Proof.
  intros HPQ. induction l as [|x l IH]; [done|].
  rewrite !filter_cons. destruct (decide (P x)), (decide (Q x)); cbn; try lia.
  by destruct (HPQ x).
Qed.

Lemma map_result_Forall2 {A B} (f : A -> Result B) l ys :
  map_result f l = Ok ys -> Forall2 (fun x y => f x = Ok y) l ys.
Proof.
  revert ys. induction l as [|x l IH]; intros ys; cbn.
  - intros [= <-]. constructor.
  - destruct (f x) eqn:Ex; [|done]. destruct (map_result f l); [|done].
    intros [= <-]. constructor; [done|]. by apply IH.
Qed.

Lemma map_result_err {A B} (f : A -> Result B) l e :
  map_result f l = Err e -> exists x, x ∈ l /\ f x = Err e.
Proof.
  induction l as [|x l IH]; cbn; [done|].
  destruct (f x) eqn:Ex.
  - destruct (map_result f l) eqn:El; [done|]. intros [= <-].
    destruct IH as (y & Hy & Ey); [done|]. exists y. split; [by right|done].
  - intros [= <-]. exists x. split; [by left|done].
Qed.

(** X13.  [extract_pdf_content] files every chunk of the parser at most
    once: a chunk whose class name contains "Table" is a table, also when the
    name contains "CompositeElement" as well; any other chunk whose class
    name contains "CompositeElement" is a text; the rest is dropped.  Both
    lists keep the order of the parser, the returned counts are the lengths
    of the lists, and descriptions and metadata of images are left as they
    were.  When the parser raises, the processor is unchanged. *)
Theorem extract_pdf_content_classifies (file_path : string) (p : DocumentProcessor)
    (w : World) :
  match partition_pdf svc file_path with
  | Ok cs =>
      exists p',
        extract_pdf_content svc file_path (p, w)
        = (Ok {| count_texts := length (texts p');
                 count_tables := length (tables p');
                 count_images := length (images p') |}, (p', w))
        /\ chunks p' = Some cs
        /\ (forall c, c ∈ tables p' <-> c ∈ cs /\ is_table c = true)
        /\ (forall c, c ∈ texts p'
                      <-> c ∈ cs /\ is_table c = false /\ is_composite c = true)
        /\ tables p' `sublist_of` cs /\ texts p' `sublist_of` cs
        /\ length (texts p') + length (tables p') <= length cs
        /\ images p' = _extract_images_base64 cs
        /\ image_descriptions p' = image_descriptions p
        /\ image_metadata p' = image_metadata p
        /\ document_id p' = document_id p
  | Err e => extract_pdf_content svc file_path (p, w) = (Err e, (p, w))
  end.
Proof.
  rewrite extract_pdf_content_eq. destruct (partition_pdf svc file_path) as [cs|e]; [|done].
  exists (extracted cs p). split; [done|]. cbn.
  split; [done|]. split. { intros c. rewrite list_elem_of_filter. tauto. }
  split. { intros c. rewrite list_elem_of_filter. tauto. }
  split; [apply sublist_filter|]. split; [apply sublist_filter|].
  split; [|done]. apply filter_disjoint_length. intros c [H1 _] H2. congruence.
Qed.

(** X14.  [DocumentProcessor.process_document] has two outcomes.  When it
    returns, the counts are the lengths of the lists of the processor, and
    every text and every table has its summary, in order.  When it raises,
    the exception is a [ProcessingError] with the identifier of the
    processor and the message "Processing failed: " followed by the message
    of the parser or of a summary chain: no failure of the vision service or
    of the disk makes it raise. *)
Theorem processor_process_document_outcome (file_path : string)
    (p : DocumentProcessor) (w : World) :
  let out := processor_process_document settings svc file_path (p, w) in
  let p' := out.2.1 in
  document_id p' = document_id p
  /\ match out.1 with
     | Ok counts =>
         counts = {| count_texts := length (texts p');
                     count_tables := length (tables p');
                     count_images := length (images p') |}
         /\ exists ts tbs,
              text_summaries p' = Some ts /\ table_summaries p' = Some tbs
              /\ Forall2 (fun c s => text_chain svc (chunk_text c) = Ok s) (texts p') ts
              /\ Forall2 (fun c s => table_chain svc (text_as_html c) = Ok s)
                         (tables p') tbs
     | Err e =>
         exists cause,
           e = ProcessingError ("Processing failed: " ++ exn_str cause) (document_id p)
           /\ (partition_pdf svc file_path = Err cause
               \/ (exists c, c ∈ texts p' /\ text_chain svc (chunk_text c) = Err cause)
               \/ (exists c, c ∈ tables p' /\ table_chain svc (text_as_html c) = Err cause))
     end.
Proof.
  cbn zeta. rewrite processor_process_document_eq.
  destruct (partition_pdf svc file_path) as [cs|e] eqn:Ep.
  2:{ cbn. split; [done|]. exists e. split; [done|]. by left. }
  cbn zeta.
  destruct (with_images_frame settings svc (extracted cs p, w))
    as (Hid & _ & _ & Htb & Htx & Him & _ & _).
  destruct (with_images settings svc (extracted cs p, w)) as [p2 w2]. cbn [fst snd] in *.
  change (document_id (extracted cs p)) with (document_id p) in Hid.
  destruct (map_result (text_chain svc) _) as [ts|e] eqn:Ets.
  2:{ cbn [fst snd]. split; [done|]. exists e. rewrite Hid. split; [done|]. right. left.
      apply map_result_err in Ets as (t & Ht & Et).
      apply list_elem_of_fmap in Ht as (c & -> & Hc). by exists c. }
  destruct (map_result (table_chain svc) _) as [tbs|e] eqn:Etbs.
  2:{ cbn [fst snd]. split; [done|]. exists e. rewrite Hid. split; [done|]. right. right.
      apply map_result_err in Etbs as (t & Ht & Et).
      apply list_elem_of_fmap in Ht as (c & -> & Hc). by exists c. }
  cbn [fst snd]. split; [done|]. split.
  { unfold counts_of. cbn. by rewrite Htb, Htx, Him. }
  exists ts, tbs. cbn. split; [done|]. split; [done|].
  apply map_result_Forall2 in Ets, Etbs.
  apply Forall2_fmap_l in Ets, Etbs. done.
Qed.

End ProcessorOutcome.
(** * Further properties of the index *)

Section IndexOutcome.

Context (svc : Services).

Lemma grows_refl r : grows r r.
Proof. repeat split; done. Qed.

Lemma grows_trans r1 r2 r3 : grows r1 r2 -> grows r2 r3 -> grows r1 r3.
Proof.
  intros (I1 & P1 & V1 & D1 & M1) (I2 & P2 & V2 & D2 & M2).
  repeat split; [congruence|congruence|by etrans|auto|by etrans].
Qed.

Lemma steady_ret {A} (a : A) : steady (ret a).
Proof. intros r w. apply grows_refl. Qed.

Lemma steady_raise {A} e : steady (raise (A:=A) e).
Proof. intros r w. apply grows_refl. Qed.

Lemma steady_bind {A B} (m : M (RAGService * World) A) (k : A -> M (RAGService * World) B) :
  steady m -> (forall a, steady (k a)) -> steady (bind m k).
Proof.
  intros Hm Hk r w. unfold bind. specialize (Hm r w).
  destruct (m (r, w)) as [[a|e] [r1 w1]]; cbn [fst snd] in *; [|done].
  eapply grows_trans; [done|]. apply Hk.
Qed.

Lemma steady_try_except {A} (m : M (RAGService * World) A) h :
  steady m -> (forall e, steady (h e)) -> steady (try_except m h).
Proof.
  intros Hm Hh r w. unfold try_except. specialize (Hm r w).
  destruct (m (r, w)) as [[a|e] [r1 w1]]; cbn [fst snd] in *; [done|].
  eapply grows_trans; [done|]. apply Hh.
Qed.

Lemma steady_self : steady self.
Proof. intros r w. apply grows_refl. Qed.

Lemma steady_the_world : steady the_world.
Proof. intros r w. apply grows_refl. Qed.

Lemma steady_on_world f : steady (on_world f).
Proof. intros r w. apply grows_refl. Qed.

Lemma steady_lift_result {A} (x : Result A) : steady (lift_result x).
Proof. destruct x; [apply steady_ret|apply steady_raise]. Qed.

Lemma steady_attribute {A} name (o : option A) : steady (attribute name o).
Proof. destruct o; [apply steady_ret|apply steady_raise]. Qed.

Lemma steady_draw_uuid : steady (draw_uuid svc).
Proof. intros r w. apply grows_refl. Qed.

Lemma steady_draw_uuids n : steady (draw_uuids svc n).
Proof.
  induction n as [|n IH]; cbn [draw_uuids]; [apply steady_ret|].
  apply steady_bind; [apply steady_draw_uuid|]. intros u.
  apply steady_bind; [done|]. intros us. apply steady_ret.
Qed.

Lemma steady_set_vectorstore l :
  steady (on_self (fun r => set_vectorstore (vectorstore r ++ l)%list r)).
Proof. intros r w. repeat split; try done. cbn. by apply prefix_app_r. Qed.

Lemma steady_vectorstore_add docs : steady (vectorstore_add svc docs).
Proof.
  intros r w. unfold vectorstore_add, bind, self. cbn [fst snd].
  destruct (add_documents svc (vectorstore r) docs) as [|n e].
  - apply (steady_set_vectorstore docs r w).
  - unfold on_self, modify, raise. cbn [fst snd].
    apply (steady_set_vectorstore (take n docs) r w).
Qed.

Lemma steady_mset kvs : steady (mset kvs).
Proof.
  intros r w. repeat split; try done. cbn. intros k Hk.
  apply mset_pairs_keys. by right.
Qed.

Lemma steady_index_summaries kind ts raw : steady (index_summaries svc kind ts raw).
Proof.
  unfold index_summaries. destruct ts; [apply steady_ret|].
  apply steady_bind; [apply steady_draw_uuids|]. intros ids.
  apply steady_bind; [apply steady_lift_result|]. intros docs.
  apply steady_bind; [apply steady_vectorstore_add|]. intros _. apply steady_mset.
Qed.

Lemma steady_image_fields metas i : steady (image_fields svc metas i).
Proof.
  unfold image_fields. apply steady_bind; [apply steady_self|]. intros r.
  destruct (metas !! i); [apply steady_ret|].
  apply steady_bind; [apply steady_draw_uuid|]. intros u. apply steady_ret.
Qed.

Lemma steady_index_image metas img_ids i desc :
  steady (index_image svc metas img_ids i desc).
Proof.
  unfold index_image. apply steady_bind; [apply steady_image_fields|]. intros fpu.
  apply steady_bind; [apply steady_lift_result|]. intros img_id.
  apply steady_bind.
  { intros r w. repeat split; try done. cbn. by apply prefix_app_r. }
  intros _. apply steady_bind; [apply steady_vectorstore_add|]. intros _.
  apply steady_mset.
Qed.

Lemma steady_for_enumerate {A} (body : nat -> A -> M (RAGService * World) unit) i0 l :
  (forall i x, steady (body i x)) -> steady (for_enumerate body i0 l).
Proof.
  intros Hb. revert i0. induction l as [|x l IH]; intros i0; cbn [for_enumerate].
  - apply steady_ret.
  - apply steady_bind; [apply Hb|]. intros _. apply IH.
Qed.

Lemma steady_build_vector_database : steady (build_vector_database svc).
Proof.
  unfold build_vector_database. apply steady_try_except.
  - apply steady_bind; [apply steady_self|]. intros r0.
    apply steady_bind; [apply steady_attribute|]. intros ts.
    apply steady_bind; [apply steady_index_summaries|]. intros _.
    apply steady_bind; [apply steady_attribute|]. intros tbs.
    apply steady_bind; [apply steady_index_summaries|]. intros _.
    destruct (image_descriptions (processor r0)); [apply steady_ret|].
    destruct (image_metadata (processor r0)); [|apply steady_ret].
    apply steady_bind; [apply steady_draw_uuids|]. intros ids.
    apply steady_for_enumerate. intros i x. apply steady_index_image.
  - intros e. apply steady_bind; [apply steady_self|]. intros r0. apply steady_raise.
Qed.

(** X15.  [build_vector_database] only inserts, whether it returns or
    raises: the vectors already in the collection stay, in place, the keys of
    the docstore stay, and neither the identifier nor the processor of the
    service changes.  Whatever goes wrong inside, the exception that leaves
    it is a [ProcessingError] with the identifier of the document and a
    message that starts with "Vector database build failed: ". *)
Theorem build_vector_database_outcome (r : RAGService) (w : World) :
  let out := build_vector_database svc (r, w) in
  rag_document_id out.2.1 = rag_document_id r
  /\ processor out.2.1 = processor r
  /\ vectorstore r `prefix_of` vectorstore out.2.1
  /\ (forall k, is_Some (docstore r !! k) -> is_Some (docstore out.2.1 !! k))
  /\ match out.1 with
     | Ok _ => True
     | Err e =>
         exists cause,
           e = ProcessingError ("Vector database build failed: " ++ exn_str cause)
                               (rag_document_id r)
     end.
Proof.
  cbn zeta. destruct (steady_build_vector_database r w) as (Hi & Hp & Hv & Hd & _).
  do 4 (split; [done|]). clear Hp Hv Hd. revert Hi.
  unfold build_vector_database, try_except.
  match goal with |- context [match ?body (r, w) with _ => _ end] =>
    destruct (body (r, w)) as [[[]|e] [r1 w1]] end; [done|].
  unfold bind, self, raise. cbn [fst snd]. intros ->. by exists e.
Qed.

End IndexOutcome.
Section LostImage.

Context (settings : Settings) (svc : Services).

Lemma image_step_surplus i img p w :
  length (image_descriptions p) + 1
  + (if written svc (doc_folder p) (uuid_drawn w) i img then 0 else 1)
  <= length (image_descriptions (image_step settings svc i img (p, w)).1).
Proof.
  unfold image_step, written. cbn [fst snd].
  destruct (write_png svc _ img) as [e|].
  { cbn. rewrite !length_app. cbn. lia. }
  destruct (_ =? 0)%Z; [cbn; rewrite !length_app; cbn; lia|].
  destruct (_ =? 0)%Z; cbn; rewrite !length_app; cbn; lia.
Qed.

Lemma image_steps_surplus imgs i0 p w :
  length (image_descriptions p) + length imgs
  + length (filter (fun t => written svc (doc_folder p) t.2.1 t.1 t.2.2 = false)
                   (numbered i0 (uuid_drawn w) imgs))
  <= length (image_descriptions (image_steps settings svc i0 imgs (p, w)).1).
Proof.
  revert i0 p w. induction imgs as [|img imgs IH]; intros i0 p w.
  { cbn. lia. }
  cbn [image_steps].
  pose proof (image_step_surplus i0 img p w) as E1.
  destruct (image_step_frame settings svc i0 img (p, w))
    as (_ & Hf & _ & _ & _ & _ & _ & _ & Hu & _).
  destruct (image_step settings svc i0 img (p, w)) as [p1 w1]. cbn [fst snd] in *.
  specialize (IH (S i0) p1 w1). rewrite Hf, Hu in IH.
  unfold numbered in *. rewrite imap_cons, filter_cons. cbn [fst snd length].
  rewrite !Nat.add_0_r.
  assert (Hext : imap (fun k (img0 : string) => (S i0 + k, (S (uuid_drawn w) + k, img0))) imgs
                 = imap ((fun k (img0 : string) => (i0 + k, (uuid_drawn w + k, img0))) ∘ S) imgs).
  { apply imap_ext. intros k x _. cbn. repeat f_equal; lia. }
  rewrite <- Hext.
  destruct (written svc (doc_folder p) (uuid_drawn w) i0 img).
  - rewrite decide_False by done. lia.
  - rewrite decide_True by done. cbn [length]. lia.
Qed.

(** The loop over the descriptions runs past [img_ids]. *)
Lemma index_images_overrun metas img_ids descs i0 r w :
  (forall current docs, add_documents svc current docs = Added) ->
  i0 <= length img_ids ->
  length img_ids < i0 + length descs ->
  (for_enumerate (index_image svc metas img_ids) i0 descs (r, w)).1 = Err IndexError.
Proof.
  intros Hadd. revert i0 r w.
  induction descs as [|desc descs IH]; intros i0 r w H1 H2; cbn [for_enumerate length] in *.
  { lia. }
  unfold bind at 1.
  destruct (decide (i0 < length img_ids)) as [Hlt|Hge].
  - destruct (index_image_succeeds svc metas img_ids i0 desc r w Hadd Hlt)
      as (r1 & w1 & ->).
    apply IH; lia.
  - unfold index_image. unfold bind at 1.
    destruct (image_fields_ok svc metas i0 r w) as (fpu & w1 & ->).
    unfold bind at 1, lift_result, list_get.
    rewrite lookup_ge_None_2 by lia. done.
Qed.

Lemma build_fails_on_surplus r w ts tbs metas :
  (forall current docs, add_documents svc current docs = Added) ->
  text_summaries (processor r) = Some ts ->
  table_summaries (processor r) = Some tbs ->
  length ts = length (texts (processor r)) ->
  length tbs = length (tables (processor r)) ->
  image_metadata (processor r) = Some metas ->
  length (images (processor r)) < length (image_descriptions (processor r)) ->
  (build_vector_database svc (r, w)).1
  = Err (ProcessingError "Vector database build failed: list index out of range"
                         (rag_document_id r)).
Proof.
  intros Hadd Ets Etbs Hts Htbs Em Hd.
  unfold build_vector_database, try_except.
  unfold bind at 1, self. cbn [fst].
  unfold bind at 1. rewrite Ets. unfold attribute at 1, ret at 1.
  unfold bind at 1.
  destruct (index_summaries_succeeds svc "text" ts (texts (processor r)) r w Hadd Hts)
    as (r1 & w1 & E1).
  pose proof (steady_index_summaries svc "text" ts (texts (processor r)) r w) as [G1 _].
  rewrite E1 in G1 |- *. cbn [fst snd] in G1.
  unfold bind at 1. rewrite Etbs. unfold attribute at 1, ret at 1.
  unfold bind at 1.
  destruct (index_summaries_succeeds svc "table" tbs (tables (processor r)) r1 w1 Hadd Htbs)
    as (r2 & w2 & E2).
  pose proof (steady_index_summaries svc "table" tbs (tables (processor r)) r1 w1)
    as [G2 _].
  rewrite E2 in G2 |- *. cbn [fst snd] in G2.
  destruct (image_descriptions (processor r)) as [|desc descs] eqn:Ed; [cbn in Hd; lia|].
  rewrite Em. unfold bind at 1.
  destruct (draw_uuids_ok svc (X:=RAGService) (length (images (processor r))) r2 w2)
    as (ids & w2' & -> & Hids).
  pose proof (index_images_overrun metas ids (desc :: descs) 0 r2 w2' Hadd) as Ho.
  pose proof (steady_for_enumerate (index_image svc metas ids) 0 (desc :: descs)
                (fun i x => steady_index_image svc metas ids i x) r2 w2') as [G3 _].
  destruct (for_enumerate _ 0 (desc :: descs) (r2, w2')) as [[[]|e] [r3 w3]];
    cbn [fst snd] in Ho, G3.
  { exfalso. assert (Ok tt = Err IndexError) by (apply Ho; [lia|rewrite Hids; lia]).
    done. }
  assert (He : e = IndexError).
  { assert (Err (A:=unit) e = Err IndexError) by (apply Ho; [lia|rewrite Hids; lia]).
    congruence. }
  subst e. unfold bind, self, raise. cbn [fst snd]. by rewrite G3, G2, G1.
Qed.

(** X16.  An image that cannot be written to disk fails the whole document.
    When the parser, the summary chains and the vector store all answer, and
    at least one extracted image does not reach the disk, the ingestion
    raises [ProcessingError] "Vector database build failed: list index out of
    range": the image has left one description too many, and the indexing
    loop runs past the identifiers drawn for the images.  The batch size
    plays no role. *)
Theorem lost_image_fails_ingestion (id file_path : string) (cs : list Chunk)
    (t : nat * (nat * string)) :
  rest_answers settings svc id file_path cs ->
  t ∈ numbered 0 0 (_extract_images_base64 cs) ->
  written svc (IMAGES_FOLDER settings ++ "/" ++ id) t.2.1 t.1 t.2.2 = false ->
  (ingest settings svc id file_path initial_world).1
  = Err (ProcessingError "Vector database build failed: list index out of range" id).
Proof.
  intros (Hbc & Hmk & Him & Ecs & Htx & Htb & Hrc & Hcm & Hadd) Ht Hw.
  pose proof (processor_process_document_eq settings svc file_path
                (fresh_processor settings id) initial_world) as Ep.
  rewrite Ecs in Ep. cbn zeta in Ep.
  remember (extracted cs (fresh_processor settings id)) as p1 eqn:Ep1.
  assert (Hp1 : image_descriptions p1 = []
                /\ images p1 = _extract_images_base64 cs
                /\ doc_folder p1 = IMAGES_FOLDER settings ++ "/" ++ id)
    by (subst p1; done).
  destruct Hp1 as (Hp1d & Hp1i & Hp1f).
  destruct (with_images_frame settings svc (p1, initial_world))
    as (_ & _ & _ & Htb2 & Htx2 & Him2 & _ & _).
  assert (Hdesc : length (images p1)
                  < length (image_descriptions (with_images settings svc (p1, initial_world)).1)
                  /\ is_Some (image_metadata (with_images settings svc (p1, initial_world)).1)).
  { unfold with_images. cbn [fst snd]. destruct (images p1) as [|img imgs] eqn:Ei.
    { rewrite <- Hp1i in Ht. by apply elem_of_nil in Ht. }
    rewrite Hp1i in Ei |- *.
    pose proof (image_steps_surplus (_extract_images_base64 cs) 0
                  (set_image_metadata (Some []) p1) initial_world) as Hs.
    destruct (image_steps_descriptions settings svc (_extract_images_base64 cs) 0
                (set_image_metadata (Some []) p1, initial_world)) as [_ Hm].
    split; [|apply Hm; by rewrite <- Hp1i].
    cbn [image_descriptions set_image_metadata doc_folder uuid_drawn initial_world] in Hs.
    rewrite Hp1d, Hp1f in Hs.
    assert (Hin : t ∈ filter (fun t => written svc (IMAGES_FOLDER settings ++ "/" ++ id)
                                       t.2.1 t.1 t.2.2 = false)
                         (numbered 0 0 (_extract_images_base64 cs))).
    { by apply list_elem_of_filter. }
    destruct (filter _ (numbered 0 0 _)) as [|t0 l0]; [by apply elem_of_nil in Hin|].
    cbn [length] in *. lia. }
  destruct (with_images settings svc (p1, initial_world)) as [p2 w2] eqn:E2.
  cbn [fst snd] in *. destruct Hdesc as [Hlt [metas Hmetas]].
  destruct (map_result_all_ok (text_chain svc) (map chunk_text (texts p2)))
    as [ts Ets]; [by apply Forall_forall|].
  destruct (map_result_all_ok (table_chain svc) (map text_as_html (tables p2)))
    as [tbs Etbs]; [by apply Forall_forall|].
  rewrite Ets, Etbs in Ep.
  apply map_result_length in Ets as Hts. apply map_result_length in Etbs as Htbs.
  rewrite length_map in Hts, Htbs.
  set (p3 := set_table_summaries (Some tbs) (set_text_summaries (Some ts) p2)) in *.
  pose proof (build_fails_on_surplus (fresh_rag id p3) w2 ts tbs metas Hadd) as Hb.
  unfold ingest. unfold bind at 1, attempt. rewrite Hbc. unfold ret at 1.
  unfold bind at 1, new_DocumentProcessor. rewrite Hmk, Him.
  fold (fresh_processor settings id).
  unfold bind at 1, with_object. rewrite Ep.
  unfold bind at 1, new_RAGService. cbn [fst snd]. rewrite Hrc, Hcm.
  fold (fresh_rag id p3). unfold bind at 1.
  destruct (build_vector_database svc (fresh_rag id p3, w2)) as [[[]|e] [r3 w3]];
    cbn [fst snd] in *.
  - assert (Ok tt = Err (ProcessingError
              "Vector database build failed: list index out of range" id)); [|done].
    apply Hb; try done. cbn. by rewrite Him2.
  - assert (He : Err (A:=unit) e = Err (ProcessingError
              "Vector database build failed: list index out of range" id)).
    { apply Hb; try done. cbn. by rewrite Him2. }
    by injection He as ->.
Qed.

End LostImage.

Lemma lost_image_fails_ingestion_witness :
  (ingest default_settings (SampleRuns.second_image_lost SampleRuns.illustrated) "d1"
     "storage/uploads/d1_report.pdf" initial_world).1
  = Err (ProcessingError "Vector database build failed: list index out of range" "d1").
Proof.
  apply (lost_image_fails_ingestion default_settings
           (SampleRuns.second_image_lost SampleRuns.illustrated) "d1"
           "storage/uploads/d1_report.pdf" SampleRuns.illustrated (1, (1, "d29ybGQ="))).
  - repeat split; done.
  - vm_compute. right. left.
  - vm_compute. reflexivity.
Defined.
Section RoundTrip.

Context (svc : Services).

Lemma draw_uuids_eq {X} n (x : X) w :
  exists w', draw_uuids svc n (x, w) = (Ok (uuids svc (uuid_drawn w) n), (x, w'))
             /\ uuid_drawn w' = n + uuid_drawn w.
Proof.
  revert w. induction n as [|n IH]; intros w; cbn [draw_uuids].
  - by exists w.
  - unfold bind at 1. rewrite draw_uuid_eq.
    destruct (IH (bump_uuid w)) as (w' & E & Hc).
    unfold bind at 1. rewrite E. exists w'. split; [done|]. cbn in Hc. lia.
Qed.

Lemma length_uuids c n : length (uuids svc c n) = n.
Proof. unfold uuids. by rewrite length_map, length_seq. Qed.

Lemma NoDup_uuids c n :
  (forall m n, uuid4 svc m = uuid4 svc n -> m = n) -> NoDup (uuids svc c n).
Proof.
  intros Hinj. unfold uuids.
  apply (NoDup_fmap_2 (uuid4 svc) (Inj0:=fun x y => Hinj x y)), NoDup_seq.
Qed.

Lemma uuids_app c n m : uuids svc c (n + m) = (uuids svc c n ++ uuids svc (c + n) m)%list.
Proof. unfold uuids. by rewrite seq_app, map_app. Qed.

Lemma mset_pairs_other kvs m k :
  k ∉ kvs.*1 -> mset_pairs kvs m !! k = m !! k.
Proof.
  unfold mset_pairs. revert m. induction kvs as [|[k' v] kvs IH]; intros m Hk; [done|].
  cbn in *. apply not_elem_of_cons in Hk as [Hne Hk].
  rewrite IH by done. by rewrite lookup_insert_ne.
Qed.

Lemma mset_pairs_lookup kvs m j k v :
  NoDup kvs.*1 -> kvs !! j = Some (k, v) -> mset_pairs kvs m !! k = Some v.
Proof.
  revert m j. induction kvs as [|[k' v'] kvs IH]; intros m j Hnd Hj; [done|].
  cbn in Hnd. apply NoDup_cons in Hnd as [Hk' Hnd].
  destruct j as [|j]; cbn in Hj.
  - injection Hj as -> ->. change (mset_pairs kvs (<[k:=v]> m) !! k = Some v).
    rewrite mset_pairs_other by done. by rewrite lookup_insert_eq.
  - change (mset_pairs kvs (<[k':=v']> m) !! k = Some v). by eapply IH.
Qed.

Lemma indexed_refl r : indexed r r [] [].
Proof. repeat split. cbn. by rewrite app_nil_r. Qed.

Lemma indexed_trans r1 r2 r3 d1 d2 v1 v2 :
  indexed r1 r2 d1 v1 -> indexed r2 r3 d2 v2 ->
  indexed r1 r3 (d1 ++ d2)%list (v1 ++ v2)%list.
Proof.
  intros (V1 & K1 & L1) (V2 & K2 & L2). repeat split.
  - by rewrite V2, V1, app_assoc.
  - rewrite K2, K1, map_app. unfold zip, mset_pairs.
    rewrite zip_with_app by (by rewrite length_map). by rewrite foldl_app.
  - rewrite !length_app. lia.
Qed.

(** The raw content of the vector at position [j]. *)
Lemma indexed_lookup r r' docs raws j d v :
  indexed r r' docs raws -> NoDup (map doc_id docs) ->
  docs !! j = Some d -> raws !! j = Some v ->
  docstore r' !! doc_id d = Some v.
Proof.
  intros (_ & K & L) Hnd Hd Hv. rewrite K.
  apply (mset_pairs_lookup _ _ j).
  - unfold zip. rewrite fst_zip; [done|]. rewrite length_map. lia.
  - unfold zip. rewrite lookup_zip_with, list_lookup_fmap, Hd, Hv. done.
Qed.

Lemma index_summaries_indexed kind ts raw r w r' w' :
  index_summaries svc kind ts raw (r, w) = (Ok tt, (r', w')) ->
  length ts = length raw ->
  indexed r r' (zip_with (summary_doc kind) ts (uuids svc (uuid_drawn w) (length raw)))
            (map RawElement raw)
  /\ uuid_drawn w' = length raw + uuid_drawn w.
Proof.
  intros H Hlen. unfold index_summaries in H.
  destruct ts as [|t ts].
  { injection H as <- <-. destruct raw; [|done]. split; [apply indexed_refl|done]. }
  remember (t :: ts) as tss eqn:Etss.
  unfold bind at 1 in H.
  destruct (draw_uuids_eq (length raw) r w) as (w1 & E & Hc). rewrite E in H.
  pose proof (length_uuids (uuid_drawn w) (length raw)) as Hids.
  unfold bind at 1, lift_result in H.
  rewrite (summary_documents_enumerate kind _ tss) in H by lia.
  unfold ret at 1 in H.
  unfold bind at 1 in H.
  destruct (vectorstore_add svc _ (r, w1)) as [[[]|e] [r2 w2]] eqn:Ea; [|done].
  apply vectorstore_add_ok in Ea as [-> ->].
  unfold mset, on_self, modify in H. cbn [fst snd] in H. injection H as <- <-.
  destruct (map_doc_id_summary_docs kind tss (uuids svc (uuid_drawn w) (length raw)))
    as [Hk Hcn]; [lia|].
  split; [|done]. repeat split; cbn.
  - by rewrite Hk.
  - rewrite length_map, length_zip_with. lia.
Qed.

Lemma index_image_indexed metas img_ids i desc r w r' w' :
  index_image svc metas img_ids i desc (r, w) = (Ok tt, (r', w')) ->
  exists k payload,
    indexed r r' [image_doc desc k payload] [RawImage payload]
    /\ img_ids !! i = Some k
    /\ dict_description payload = desc /\ image_index payload = i.
Proof.
  unfold index_image. unfold bind at 1.
  destruct (image_fields_ok svc metas i r w) as (fpu & w1 & ->).
  unfold bind at 1, lift_result, list_get.
  destruct (img_ids !! i) as [img_id|] eqn:Ei; [|done].
  unfold ret at 1. unfold bind at 1, on_self, modify at 1. cbn [fst snd].
  unfold bind at 1.
  match goal with |- context [vectorstore_add svc ?d ?s] =>
    destruct (vectorstore_add svc d s) as [[[]|e] [r2 w2]] eqn:Ea; [|done] end.
  apply vectorstore_add_ok in Ea as [-> ->].
  unfold mset, on_self, modify. cbn [fst snd].
  intros [= <- <-].
  exists img_id. eexists {| dict_description := desc; image_index := i |}.
  split; [|done]. by repeat split.
Qed.

Lemma index_images_indexed metas img_ids descs i0 r w r' w' :
  for_enumerate (index_image svc metas img_ids) i0 descs (r, w) = (Ok tt, (r', w')) ->
  exists docs raws,
    indexed r r' docs raws
    /\ map doc_id docs = take (length descs) (drop i0 img_ids)
    /\ length docs = length descs
    /\ forall j desc, descs !! j = Some desc ->
         exists k payload,
           docs !! j = Some (image_doc desc k payload)
           /\ raws !! j = Some (RawImage payload)
           /\ dict_description payload = desc /\ image_index payload = i0 + j.
Proof.
  revert i0 r w. induction descs as [|desc descs IH]; intros i0 r w; cbn [for_enumerate].
  { intros [= <- <-]. exists [], []. split; [apply indexed_refl|]. by repeat split. }
  unfold bind at 1.
  destruct (index_image svc metas img_ids i0 desc (r, w)) as [[[]|e] [r1 w1]] eqn:E1;
    [|done].
  intros H. apply index_image_indexed in E1 as (k & payload & X1 & K1 & D1 & I1).
  apply IH in H as (docs & raws & X2 & K2 & L2 & P2).
  exists (image_doc desc k payload :: docs), (RawImage payload :: raws).
  split; [apply (indexed_trans _ _ _ [_] _ [_] _ X1 X2)|].
  split. { cbn. rewrite K2, (drop_S _ _ _ K1). done. }
  split; [cbn; by rewrite L2|].
  intros [|j] d Hd; cbn in Hd.
  - injection Hd as <-. exists k, payload. rewrite Nat.add_0_r. done.
  - destruct (P2 j d Hd) as (k' & payload' & ? & ? & ? & ?).
    exists k', payload'. repeat split; try done. lia.
Qed.

(** X17.  What the retriever needs to resolve a summary to its source.
    After a [build_vector_database] that returns, on a processor with one
    summary per text and per table, and with UUIDs that do not collide, the
    new vectors have pairwise distinct keys, and the docstore holds under the
    key of each vector the content it was made from: the i-th text under the
    key of the i-th text summary, the i-th table under the key of the i-th
    table summary, and for the i-th image description a dictionary with that
    description and [image_index] i. *)
Theorem vectors_resolve_to_their_sources (r : RAGService) (w : World)
    (r' : RAGService) (w' : World) (ts tbs : list string) :
  (forall m n, uuid4 svc m = uuid4 svc n -> m = n) ->
  build_vector_database svc (r, w) = (Ok tt, (r', w')) ->
  text_summaries (processor r) = Some ts ->
  table_summaries (processor r) = Some tbs ->
  length ts = length (texts (processor r)) ->
  length tbs = length (tables (processor r)) ->
  exists docs,
    vectorstore r' = (vectorstore r ++ docs)%list
    /\ NoDup (map doc_id docs)
    /\ (forall i s, ts !! i = Some s ->
          exists k c, docs !! i = Some (summary_doc "text" s k)
                      /\ texts (processor r) !! i = Some c
                      /\ docstore r' !! k = Some (RawElement c))
    /\ (forall i s, tbs !! i = Some s ->
          exists k c, docs !! (length ts + i) = Some (summary_doc "table" s k)
                      /\ tables (processor r) !! i = Some c
                      /\ docstore r' !! k = Some (RawElement c))
    /\ (forall i desc, indexed_descriptions (processor r) !! i = Some desc ->
          exists k payload,
            docs !! (length ts + length tbs + i) = Some (image_doc desc k payload)
            /\ docstore r' !! k = Some (RawImage payload)
            /\ dict_description payload = desc /\ image_index payload = i).
Proof.
  intros Hinj H Ets Etbs Hts Htbs. unfold build_vector_database, try_except in H.
  match type of H with match ?body (r, w) with _ => _ end = _ =>
    destruct (body (r, w)) as [[[]|e] [r3 w3]] eqn:Eb; [|done] end.
  injection H as <- <-.
  unfold bind at 1, self in Eb. cbn [fst] in Eb.
  unfold bind at 1 in Eb. rewrite Ets in Eb. unfold attribute at 1, ret at 1 in Eb.
  unfold bind at 1 in Eb.
  destruct (index_summaries svc "text" ts _ (r, w)) as [[[]|e] [r1 w1]] eqn:E1; [|done].
  apply index_summaries_indexed in E1 as [X1 C1]; [|done].
  unfold bind at 1 in Eb. rewrite Etbs in Eb. unfold attribute at 1, ret at 1 in Eb.
  unfold bind at 1 in Eb.
  destruct (index_summaries svc "table" tbs _ (r1, w1)) as [[[]|e] [r2 w2]] eqn:E2; [|done].
  apply index_summaries_indexed in E2 as [X2 C2]; [|done].
  set (c := uuid_drawn w) in *. set (n1 := length (texts (processor r))) in *.
  set (n2 := length (tables (processor r))) in *. rewrite C1 in X2.
  set (d1 := zip_with (summary_doc "text") ts (uuids svc c n1)) in *.
  set (d2 := zip_with (summary_doc "table") tbs (uuids svc (n1 + c) n2)) in *.
  assert (Hd1 : map doc_id d1 = uuids svc c n1 /\ length d1 = length ts).
  { subst d1. rewrite length_zip_with, length_uuids.
    split; [|lia]. apply map_doc_id_summary_docs. rewrite length_uuids. lia. }
  assert (Hd2 : map doc_id d2 = uuids svc (c + n1) n2 /\ length d2 = length tbs).
  { subst d2. rewrite length_zip_with, length_uuids.
    split; [|lia]. rewrite (Nat.add_comm c n1). apply map_doc_id_summary_docs.
    rewrite length_uuids. lia. }
  destruct Hd1 as [Hk1 Hl1]. destruct Hd2 as [Hk2 Hl2].
  (* the image stage *)
  assert (H3 : exists n3 d3 v3,
             indexed r2 r3 d3 v3
             /\ map doc_id d3 = take (length d3) (uuids svc (c + n1 + n2) n3)
             /\ length d3 = length (indexed_descriptions (processor r))
             /\ forall j desc, indexed_descriptions (processor r) !! j = Some desc ->
                  exists k payload,
                    d3 !! j = Some (image_doc desc k payload)
                    /\ v3 !! j = Some (RawImage payload)
                    /\ dict_description payload = desc /\ image_index payload = j).
  { unfold indexed_descriptions.
    destruct (image_descriptions (processor r)) as [|desc descs] eqn:Ed.
    { injection Eb as <- <-. exists 0, [], []. split; [apply indexed_refl|]. by repeat split. }
    destruct (image_metadata (processor r)) as [metas|] eqn:Em.
    2:{ injection Eb as <- <-. exists 0, [], []. split; [apply indexed_refl|].
        by repeat split. }
    unfold bind at 1 in Eb.
    destruct (draw_uuids_eq (X:=RAGService) (length (images (processor r))) r2 w2)
      as (w2' & Eu & _).
    rewrite Eu in Eb. rewrite C2, C1 in Eb.
    apply index_images_indexed in Eb as (d3 & v3 & X3 & K3 & L3 & P3).
    exists (length (images (processor r))), d3, v3. split; [done|].
    rewrite drop_0 in K3. rewrite L3.
    replace (c + n1 + n2) with (n2 + (n1 + c)) by lia. by repeat split. }
  destruct H3 as (n3 & d3 & v3 & X3 & Hk3 & Hl3 & P3).
  pose proof (indexed_trans _ _ _ _ _ _ _ X1 (indexed_trans _ _ _ _ _ _ _ X2 X3)) as X.
  set (docs := (d1 ++ d2 ++ d3)%list) in *.
  assert (Hnd : NoDup (map doc_id docs)).
  { subst docs. rewrite !map_app, Hk1, Hk2, Hk3.
    eapply sublist_NoDup; [apply (NoDup_uuids c (n1 + (n2 + n3)) Hinj)|].
    rewrite !uuids_app. apply sublist_app; [done|]. apply sublist_app; [done|].
    apply sublist_take. }
  exists docs. split; [apply X|]. split; [done|].
  split; [|split].
  - intros i s Hs.
    assert (Hi : i < n1) by (apply lookup_lt_Some in Hs; lia).
    destruct (lookup_lt_is_Some_2 (texts (processor r)) i Hi) as [ch Hch].
    destruct (lookup_lt_is_Some_2 (uuids svc c n1) i) as [k Hk].
    { by rewrite length_uuids. }
    exists k, ch.
    assert (Hdoc : docs !! i = Some (summary_doc "text" s k)).
    { subst docs. rewrite lookup_app_l by lia. subst d1.
      by rewrite lookup_zip_with, Hs, Hk. }
    split; [done|]. split; [done|].
    apply (indexed_lookup _ _ _ _ i (summary_doc "text" s k) _ X Hnd Hdoc).
    rewrite lookup_app_l by (rewrite length_map; lia).
    by rewrite list_lookup_fmap, Hch.
  - intros i s Hs.
    assert (Hi : i < n2) by (apply lookup_lt_Some in Hs; lia).
    destruct (lookup_lt_is_Some_2 (tables (processor r)) i Hi) as [ch Hch].
    destruct (lookup_lt_is_Some_2 (uuids svc (n1 + c) n2) i) as [k Hk].
    { by rewrite length_uuids. }
    exists k, ch.
    assert (Hdoc : docs !! (length ts + i) = Some (summary_doc "table" s k)).
    { subst docs. rewrite lookup_app_r by lia. rewrite lookup_app_l by lia.
      replace (length ts + i - length d1) with i by lia. subst d2.
      by rewrite lookup_zip_with, Hs, Hk. }
    split; [done|]. split; [done|].
    apply (indexed_lookup _ _ _ _ (length ts + i) (summary_doc "table" s k) _ X Hnd Hdoc).
    rewrite lookup_app_r by (rewrite length_map; lia).
    rewrite lookup_app_l by (rewrite !length_map; lia).
    rewrite list_lookup_fmap, length_map.
    replace (length ts + i - length (texts (processor r))) with i by lia.
    by rewrite Hch.
  - intros i desc Hdesc.
    destruct (P3 i desc Hdesc) as (k & payload & Hd & Hv & Hp1 & Hp2).
    exists k, payload.
    assert (Hdoc : docs !! (length ts + length tbs + i) = Some (image_doc desc k payload)).
    { subst docs. rewrite lookup_app_r by lia. rewrite lookup_app_r by lia.
      replace (length ts + length tbs + i - length d1 - length d2) with i by lia. done. }
    split; [done|]. split; [|done].
    apply (indexed_lookup _ _ _ _ (length ts + length tbs + i)
             (image_doc desc k payload) _ X Hnd Hdoc).
    rewrite lookup_app_r by (rewrite length_map; lia).
    rewrite lookup_app_r by (rewrite !length_map; lia).
    rewrite !length_map.
    replace (length ts + length tbs + i - length (texts (processor r))
             - length (tables (processor r))) with i by lia.
    done.
Qed.

End RoundTrip.

Lemma sample_uuid4_inj (cs : list Chunk) (m n : nat) :
  uuid4 (Sample.services cs) m = uuid4 (Sample.services cs) n -> m = n.
Proof. cbn. intros [= H]. change (pretty m = pretty n) in H. by apply (inj pretty). Qed.

Lemma vectors_resolve_to_their_sources_witness :
  exists docs,
    vectorstore SampleIndex.after.1 = (vectorstore SampleIndex.before ++ docs)%list
    /\ NoDup (map doc_id docs)
    /\ (forall i s, ["Summary of: Kirchhoff's laws."] !! i = Some s ->
          exists k c, docs !! i = Some (summary_doc "text" s k)
                      /\ texts (processor SampleIndex.before) !! i = Some c
                      /\ docstore SampleIndex.after.1 !! k = Some (RawElement c))
    /\ (forall i s, @nil string !! i = Some s ->
          exists k c, docs !! (1 + i) = Some (summary_doc "table" s k)
                      /\ tables (processor SampleIndex.before) !! i = Some c
                      /\ docstore SampleIndex.after.1 !! k = Some (RawElement c))
    /\ (forall i desc,
          indexed_descriptions (processor SampleIndex.before) !! i = Some desc ->
          exists k payload,
            docs !! (1 + 0 + i) = Some (image_doc desc k payload)
            /\ docstore SampleIndex.after.1 !! k = Some (RawImage payload)
            /\ dict_description payload = desc /\ image_index payload = i).
Proof.
  apply (vectors_resolve_to_their_sources SampleIndex.svc SampleIndex.before
           SampleIndex.processed.2 SampleIndex.after.1 SampleIndex.after.2
           ["Summary of: Kirchhoff's laws."] []).
  - apply sample_uuid4_inj.
  - vm_compute. reflexivity.
  - vm_compute. reflexivity.
  - vm_compute. reflexivity.
  - vm_compute. reflexivity.
  - vm_compute. reflexivity.
Defined.
Section Answers.

Context (settings : Settings).

(** The service that an ingestion returns has the identifier of the
    document. *)
Lemma ingest_rag_id svc id file_path c rag w :
  ingest settings svc id file_path initial_world = (Ok (c, rag), w) ->
  rag_document_id rag = id.
Proof.
  intros H. apply ingest_ok in H as (p & w1 & _ & Hb).
  destruct (steady_build_vector_database svc (fresh_rag id p) w1) as [Hi _].
  by rewrite Hb in Hi.
Qed.

Lemma rag_query_id q rag question k resp :
  rag_query q rag question k = Ok resp -> qr_document_id resp = rag_document_id rag.
Proof.
  unfold rag_query.
  destruct (retriever_invoke q rag question k); [|done].
  destruct (build_context q _); [|done].
  destruct (rag_model_invoke q _); [|done].
  destruct (build_sources q _); [|done].
  by intros [= <-].
Qed.

(** X18.  Every answer names the document that was asked about.  In a
    reachable state, a response of [query_document] carries the identifier
    of the request, whatever the status of the document and whether the
    query was answered or failed; the only exception that leaves the handler
    is [DocumentNotFoundError], for an identifier that is not registered.
    Through [query_document_by_path] the identifier is the one of the path,
    whatever the body of the request says. *)
Theorem answers_name_the_requested_document (q : QueryServices)
    (request : QueryRequest) (path_id : string) (s : Sys) :
  reachable settings s ->
  match query_document q request s with
  | Ok resp => qr_document_id resp = req_document_id request
  | Err e => e = DocumentNotFoundError (req_document_id request)
             /\ document_store s !! req_document_id request = None
  end
  /\ match query_document_by_path q path_id request s with
     | Ok resp => qr_document_id resp = path_id
     | Err e => e = DocumentNotFoundError path_id
                /\ document_store s !! path_id = None
     end.
Proof.
  intros Hreach. apply reachable_inv in Hreach.
  assert (H : forall request,
             match query_document q request s with
             | Ok resp => qr_document_id resp = req_document_id request
             | Err e => e = DocumentNotFoundError (req_document_id request)
                        /\ document_store s !! req_document_id request = None
             end).
  { clear request. intros request. unfold query_document.
    destruct (document_store s !! req_document_id request) as [d|] eqn:Hd; [|done].
    destruct (di_status d) eqn:Est; try done.
    destruct (inv_rag _ _ Hreach (req_document_id request)) as [rag Hrag].
    { unfold status_of. rewrite Hd. cbn. by rewrite Est. }
    rewrite Hrag.
    destruct (inv_built _ _ Hreach _ _ Hrag) as (svc & fp & c & w & Hi).
    apply ingest_rag_id in Hi.
    destruct (rag_query q rag _ _) as [resp|e] eqn:Eq; [|done].
    apply rag_query_id in Eq. cbn. congruence. }
  split; [apply H|]. apply (H {| req_document_id := path_id |}).
Qed.

End Answers.

Lemma answers_name_the_requested_document_witness :
  exists resp,
    query_document Sample.answering (Sample.ask "d1")
      (Sample.state_after Sample.completed) = Ok resp
    /\ qr_document_id resp = "d1".
Proof.
  pose proof (answers_name_the_requested_document default_settings Sample.answering
                (Sample.ask "d1") "d1" (Sample.state_after Sample.completed)) as H.
  destruct H as [H _].
  { exists Sample.completed. vm_compute. reflexivity. }
  destruct (query_document Sample.answering (Sample.ask "d1")
              (Sample.state_after Sample.completed)) as [resp|e] eqn:E.
  - by exists resp.
  - exfalso. destruct H as [_ H]. vm_compute in H. discriminate.
Defined.
(** * The broadcast of the completion *)

Section Completion.

Context (settings : Settings).

Lemma take_task_some id l : id ∈ l -> is_Some (take_task id l).
Proof.
  induction l as [|x l IH]; intros H; [by apply elem_of_nil in H|].
  cbn. case_decide; [by eexists|].
  apply elem_of_cons in H as [?|H]; [congruence|].
  destruct (IH H) as [r ->]. by eexists.
Qed.

(** X20.  The broadcast of the completion runs inside the [try] of the
    background task, after the document was marked COMPLETED and its
    [RAGService] stored.  When that broadcast raises, the handler marks the
    document FAILED with the message of the exception, although the index
    is built: the unit counts and the [RAGService] stay, and a call of
    [process_document] then takes the document back to PROCESSING and
    schedules the ingestion again. *)
Theorem failed_broadcast_fails_completed_document (id : string) (e : exn)
    (s : Sys) (d : DocInfo) :
  reachable settings s ->
  id ∈ notifying s ->
  document_store s !! id = Some d ->
  di_status d = COMPLETED
  /\ exists s' d',
       exec settings (TaskNotify id (Some e)) s = Some s'
       /\ document_store s' !! id = Some d'
       /\ di_status d' = FAILED
       /\ di_error_message d' = Some (exn_str e)
       /\ di_elements_count d' = di_elements_count d
       /\ is_Some (di_elements_count d')
       /\ rag_services s' = rag_services s
       /\ is_Some (rag_services s' !! id)
       /\ status_of (process_document id s').2 id = Some PROCESSING
       /\ scheduled (process_document id s').2 = (scheduled s' ++ [id])%list.
Proof.
  intros Hreach Hn Hd.
  pose proof (reachable_inv settings s Hreach) as Hinv.
  pose proof (reachable_counts_inv settings s Hreach) as Hcnt.
  assert (Hst : di_status d = COMPLETED).
  { destruct (inv_notifying _ _ Hinv id Hn) as [H|H];
      unfold status_of in H; rewrite Hd in H; cbn in H; congruence. }
  split; [done|].
  destruct (take_task_some id (notifying s) Hn) as [rest Hrest].
  set (d' := set_error_message (exn_str e) (set_status FAILED d)).
  set (s' := set_document_store (<[id := d']> (document_store s))
               (set_notifying rest s)).
  assert (Hd' : document_store s' !! id = Some d').
  { subst s'. cbn. by rewrite lookup_insert_eq. }
  exists s', d'. split.
  { cbn [exec]. rewrite Hrest. cbn. unfold mark_failed. cbn. by rewrite Hd. }
  split; [done|]. split; [done|]. split; [done|]. split; [done|].
  split; [by apply (inv_counted _ _ _ Hcnt id d)|].
  split; [done|].
  split.
  { apply (inv_rag _ _ Hinv id). unfold status_of. rewrite Hd. cbn. by rewrite Hst. }
  destruct (process_document_start id s' d' Hd') as [-> _]; [done..|].
  split; [|done]. unfold status_of. cbn. by rewrite lookup_insert_eq.
Qed.

End Completion.

Lemma failed_broadcast_fails_completed_document_witness :
  status_of (Sample.state_after (SampleRuns.awaiting_broadcast
                                 ++ [TaskNotify "d1" (Some (Raised "connection closed"))]))
            "d1" = Some FAILED
  /\ is_Some (rag_services
                (Sample.state_after
                   (SampleRuns.awaiting_broadcast
                    ++ [TaskNotify "d1" (Some (Raised "connection closed"))])) !! "d1").
Proof.
  destruct (document_store (Sample.state_after SampleRuns.awaiting_broadcast) !! "d1")
    as [d|] eqn:Ed; [|vm_compute in Ed; discriminate].
  destruct (failed_broadcast_fails_completed_document default_settings "d1"
              (Raised "connection closed")
              (Sample.state_after SampleRuns.awaiting_broadcast) d)
    as (_ & s' & d' & He & Hd' & Hst & _ & _ & _ & _ & Hrag & _).
  - exists SampleRuns.awaiting_broadcast. vm_compute. reflexivity.
  - vm_compute. left.
  - exact Ed.
  - assert (Hs : Sample.state_after (SampleRuns.awaiting_broadcast
                   ++ [TaskNotify "d1" (Some (Raised "connection closed"))]) = s').
    { vm_compute in He. injection He as <-. vm_compute. reflexivity. }
    rewrite Hs. split; [|done]. unfold status_of. by rewrite Hd', <- Hst.
Defined.
